(** * Unity build task (UnityBuildV3/unity-build.ts)

    A shallow embedding of the task's [run] entry point and of its two
    helpers [getBuildConfiguration] and [getUnityEditorsPath], together
    with the properties of the task stated in the repository's
    specification.

    Text is modelled by [string]: a sequence of 8-bit code units (the
    Latin-1 range of JavaScript's UTF-16 code units).  A value that may be
    [undefined] is an [option]. *)

From Stdlib Require Import ZArith List Bool Lia Ascii String.
From Stdlib Require Import Numbers.DecimalString.
Import ListNotations.

Local Open Scope string_scope.
Local Open Scope list_scope.

(** ** The methods of JavaScript's [String] that the task calls *)

Module JsString.

(** The code units below 256 that [String.prototype.trim] removes:
    TAB, LF, VT, FF, CR, SPACE and NO-BREAK SPACE. *)
Definition isWhiteSpace (c : ascii) : bool :=
  match c with
  | "009" | "010" | "011" | "012" | "013" | " " | "160" => true
  | _ => false
  end%char.

Fixpoint trimStart (s : string) : string :=
  match s with
  | "" => ""
  | String c r => if isWhiteSpace c then trimStart r else s
  end.

Fixpoint trimEnd (s : string) : string :=
  match s with
  | "" => ""
  | String c r =>
      match trimEnd r with
      | "" => if isWhiteSpace c then "" else String c ""
      | r' => String c r'
      end
  end.

(** [s.trim()] *)
Definition trim (s : string) : string := trimEnd (trimStart s).

(** [s.startsWith(p)] *)
Fixpoint startsWith (p s : string) : bool :=
  match p, s with
  | "", _ => true
  | String a p', String b s' => Ascii.eqb a b && startsWith p' s'
  | String _ _, "" => false
  end.

(** Position of the first occurrence of [p] in [s], if there is one. *)
Fixpoint find (p s : string) : option nat :=
  if startsWith p s then Some O
  else match s with
       | "" => None
       | String _ r => option_map S (find p r)
       end.

(** [s.indexOf(p)]: the first position, or [-1]. *)
Definition indexOf (s p : string) : Z :=
  match find p s with
  | Some i => Z.of_nat i
  | None => (-1)%Z
  end.

Fixpoint take (n : nat) (s : string) : string :=
  match n, s with
  | S n', String c r => String c (take n' r)
  | _, _ => ""
  end.

Fixpoint drop (n : nat) (s : string) : string :=
  match n, s with
  | S n', String _ r => drop n' r
  | _, _ => s
  end.

(** [s.substr(start, len)], with [len = None] for [s.substr(start)]
    (ECMAScript B.2.2.1: a negative [start] counts from the end, and
    both numbers are clamped to the string). *)
Definition substr (s : string) (start : Z) (len : option Z) : string :=
  let size := Z.of_nat (String.length s) in
  let intStart :=
    if (start <? 0)%Z then Z.max (size + start) 0 else Z.min start size in
  let intLength :=
    match len with
    | None => size
    | Some l => Z.max 0 (Z.min l size)
    end in
  let intEnd := Z.min (intStart + intLength) size in
  take (Z.to_nat (intEnd - intStart)) (drop (Z.to_nat intStart) s).

(** [s.split(sep)] for a separator of one code unit. *)
Fixpoint split (sep : ascii) (s : string) : list string :=
  match s with
  | "" => [""]
  | String c r =>
      if Ascii.eqb c sep then "" :: split sep r
      else match split sep r with
           | h :: t => String c h :: t
           | [] => [String c ""]
           end
  end.

(** [s.includes(p)] *)
Definition includes (s p : string) : bool :=
  match find p s with Some _ => true | None => false end.

(** A template literal [`${v}`]: [undefined] prints as its name. *)
Definition template (v : option string) : string :=
  match v with Some s => s | None => "undefined" end.

End JsString.
Import JsString.


(** ** JavaScript values, errors and the task-library vocabulary *)

(** The values an enum object holds and yields: a numeric enum maps each
    member name to a number and each number (as a property key) back to
    the member name; a key that is absent yields [undefined]. *)
Inductive jsval : Type :=
| JUndefined
| JNumber (n : Z)
| JString (s : string).

Definition js (v : option string) : jsval :=
  match v with Some s => JString s | None => JUndefined end.

(** Strict equality [===] on these values. *)
Definition strictEq (a b : jsval) : bool :=
  match a, b with
  | JUndefined, JUndefined => true
  | JNumber x, JNumber y => Z.eqb x y
  | JString x, JString y => String.eqb x y
  | _, _ => false
  end.

(** The property key a value is converted to when it indexes an object. *)
Definition propertyKey (v : jsval) : string :=
  match v with
  | JUndefined => "undefined"
  | JNumber n => NilZero.string_of_int (Z.to_int n)
  | JString s => s
  end.

(** [a === 'lit'] where [a] may be [undefined]. *)
Definition isString (a : option string) (lit : string) : bool :=
  match a with Some s => String.eqb s lit | None => false end.

(** Failures raised by the runtime and by the libraries the task calls.
    Their message texts belong to those libraries; the host supplies
    them. *)
Inductive failure : Type :=
| InputRequired (name : string)              (* tl.getInput(name, true) *)
| ParameterRequired (name : string)          (* tl.mkdirP('') *)
| PathNotFound (name p : string)             (* tl.checkPath *)
| NoSuchEntry (p : string)                   (* ENOENT *)
| IsADirectory (p : string)                  (* EISDIR *)
| NotADirectory (p : string)                 (* ENOTDIR / EEXIST *)
| UndefinedProperty (prop : string)          (* TypeError: undefined.prop *)
| ExecutableNotFound (tool : string)         (* tl.tool: which(tool, true) *)
| ProcessError (detail : string).            (* thrown by execSync *)

(** What a [throw] carries: [Error(message)] built by the task itself, or
    a failure of the runtime or of a library. *)
Inductive exn : Type :=
| Thrown (message : string)
| Raised (f : failure).

Inductive TaskResult : Type := Succeeded | Failed.

(** One call on the tool runner's fluent interface. *)
Inductive call : Type :=
| Arg (v : jsval)       (* .arg(v) *)
| Line (v : jsval).     (* .line(v) *)

(** The tool runner [tl.tool(...)] returns: the executable it resolved,
    and the calls made on it since, in order. *)
Record ToolRunner : Type := {
  toolPath : string;
  calls : list call
}.

(** What the task does to the pipeline, in order of occurrence. *)
Inductive event : Type :=
| SetVariable (name value : string)
| SetResult (result : TaskResult) (message : string)
| ExecSync (tool : ToolRunner).

(** ** The file system *)

Definition loc : Type := list string.

Inductive node : Type :=
| File (content : string)
| Dir.

Definition FileSystem : Type := loc -> option node.

Fixpoint loc_eqb (a b : loc) : bool :=
  match a, b with
  | [], [] => true
  | x :: a', y :: b' => String.eqb x y && loc_eqb a' b'
  | _, _ => false
  end.

(** [isPrefix a b]: [b] is [a] or lies below it. *)
Fixpoint isPrefix (a b : loc) : bool :=
  match a, b with
  | [], _ => true
  | x :: a', y :: b' => String.eqb x y && isPrefix a' b'
  | _ :: _, [] => false
  end.

Definition isBelow (a b : loc) : bool := isPrefix a b && negb (loc_eqb a b).

Definition isFile (n : option node) : bool :=
  match n with Some (File _) => true | _ => false end.

Definition isDir (n : option node) : bool :=
  match n with Some Dir => true | _ => false end.

Definition exists_ (n : option node) : bool :=
  match n with Some _ => true | None => false end.

(** The locations from the root down to [l], [l] included. *)
Fixpoint ancestors (l : loc) : list loc :=
  match l with
  | [] => [[]]
  | x :: l' => [] :: map (cons x) (ancestors l')
  end.

Definition fs_remove (l : loc) (fs : FileSystem) : FileSystem :=
  fun q => if isPrefix l q then None else fs q.

Definition fs_mkdirs (l : loc) (fs : FileSystem) : FileSystem :=
  fun q => if isPrefix q l then Some Dir else fs q.

Definition fs_write (l : loc) (data : string) (fs : FileSystem) : FileSystem :=
  fun q => if loc_eqb q l then Some (File data) else fs q.

(** ** The host: everything the task reads from its surroundings *)

Record Host : Type := {
  platform : string;                                 (* process.platform *)
  UNITYHUB_EDITORS_FOLDER_LOCATION : option string;  (* process.env.* *)
  getInput : string -> option string;                (* tl.getInput(name) *)
  getBoolInput : string -> bool;                     (* tl.getBoolInput(name) *)
  getPathInput : string -> option string;            (* tl.getPathInput(name) *)
  path_join : list string -> string;                 (* path.join(...) *)
  locate : loc -> string -> loc;      (* where a path leads, from a cwd *)
  which : FileSystem -> string -> option string;     (* which(tool) *)
  failureMessage : failure -> string;                (* err.message *)
  spawn : ToolRunner -> option failure               (* does execSync throw? *)
}.

Definition with_platform (p : string) (h : Host) : Host :=
  {| platform := p;
     UNITYHUB_EDITORS_FOLDER_LOCATION := UNITYHUB_EDITORS_FOLDER_LOCATION h;
     getInput := getInput h;
     getBoolInput := getBoolInput h;
     getPathInput := getPathInput h;
     path_join := path_join h;
     locate := locate h;
     which := which h;
     failureMessage := failureMessage h;
     spawn := spawn h |}.

(** [err.message] *)
Definition message (h : Host) (e : exn) : string :=
  match e with
  | Thrown m => m
  | Raised f => failureMessage h f
  end.

(** ** The mutable world and the monad of the task's statements *)

Record World : Type := {
  fs : FileSystem;
  cwd : loc;                             (* process.cwd() *)
  variables : string -> option string;   (* pipeline variables *)
  trace : list event
}.

(** A statement runs in a world and either returns or throws; the world
    it leaves behind is kept in both cases. *)
Definition M (A : Type) : Type := World -> (exn + A) * World.

Definition ret {A} (a : A) : M A := fun w => (inr a, w).

Definition throw {A} (e : exn) : M A := fun w => (inl e, w).

Definition bind {A B} (m : M A) (k : A -> M B) : M B :=
  fun w =>
    match m w with
    | (inr a, w') => k a w'
    | (inl e, w') => (inl e, w')
    end.

Notation "x <- m ;; k" := (bind m (fun x => k))
  (at level 61, m at next level, right associativity).
Notation "m ;;; k" := (bind m (fun _ => k))
  (at level 61, right associativity).

Definition emit (e : event) : M unit :=
  fun w => (inr tt, {| fs := fs w; cwd := cwd w; variables := variables w;
                       trace := trace w ++ [e] |}).

Definition set_fs (f : FileSystem) : M unit :=
  fun w => (inr tt, {| fs := f; cwd := cwd w; variables := variables w;
                       trace := trace w |}).

(** ** The library calls the task makes *)

(** [tl.getInput(name, true)]: a required input that is missing or empty
    throws. *)
Definition getInputRequired (h : Host) (name : string) : M string :=
  match getInput h name with
  | Some s => if String.eqb s "" then throw (Raised (InputRequired name))
              else ret s
  | None => throw (Raised (InputRequired name))
  end.

(** [tl.getVariable(name)] *)
Definition getVariable (name : string) : M (option string) :=
  fun w => (inr (variables w name), w).

(** [tl.setVariable(name, value)] *)
Definition setVariable (name value : string) : M unit :=
  fun w =>
    (inr tt,
     {| fs := fs w; cwd := cwd w;
        variables := fun k => if String.eqb k name then Some value
                              else variables w k;
        trace := trace w ++ [SetVariable name value] |}).

(** [tl.setResult(result, message)] *)
Definition setResult (r : TaskResult) (msg : string) : M unit :=
  emit (SetResult r msg).

(** [tl.checkPath(p, name)]: throws unless [p] exists. *)
Definition checkPath (h : Host) (p name : string) : M unit :=
  fun w =>
    if negb (String.eqb p "") && exists_ (fs w (locate h (cwd w) p))
    then (inr tt, w)
    else (inl (Raised (PathNotFound name p)), w).

(** [fs.removeSync(p)]: removes [p] and all below it; a missing [p] is
    not an error. *)
Definition removeSync (h : Host) (p : string) : M unit :=
  fun w => set_fs (fs_remove (locate h (cwd w) p) (fs w)) w.

(** [tl.mkdirP(p)]: creates [p] and its missing parents; throws when [p]
    is empty or when a file is in the way. *)
Definition mkdirP (h : Host) (p : string) : M unit :=
  fun w =>
    if String.eqb p "" then (inl (Raised (ParameterRequired "p")), w)
    else
      let l := locate h (cwd w) p in
      if existsb (fun q => isFile (fs w q)) (ancestors l)
      then (inl (Raised (NotADirectory p)), w)
      else set_fs (fs_mkdirs l (fs w)) w.

(** [fs.readFileSync(p, 'utf8')] *)
Definition readFileSync (h : Host) (p : string) : M string :=
  fun w =>
    match fs w (locate h (cwd w) p) with
    | Some (File c) => (inr c, w)
    | Some Dir => (inl (Raised (IsADirectory p)), w)
    | None => (inl (Raised (NoSuchEntry p)), w)
    end.

(** [tl.cd(path)]: [if (path) { shell.cd(path); ... }], so an undefined
    or empty path changes nothing; a path that is no directory throws. *)
Definition cd (h : Host) (path : option string) : M unit :=
  fun w =>
    match path with
    | None => (inr tt, w)
    | Some p =>
        if String.eqb p "" then (inr tt, w)
        else
          let l := locate h (cwd w) p in
          match fs w l with
          | Some Dir => (inr tt, {| fs := fs w; cwd := l;
                                    variables := variables w;
                                    trace := trace w |})
          | Some (File _) => (inl (Raised (NotADirectory p)), w)
          | None => (inl (Raised (NoSuchEntry p)), w)
          end
    end.

(** [tl.writeFile(file, data)] *)
Definition writeFile (h : Host) (file data : string) : M unit :=
  fun w =>
    let l := locate h (cwd w) file in
    if isDir (fs w l) then (inl (Raised (IsADirectory file)), w)
    else if isDir (fs w (removelast l))
         then set_fs (fs_write l data (fs w)) w
         else (inl (Raised (NoSuchEntry file)), w).

(** [unityCmd.execSync()] *)
Definition execSync (h : Host) (t : ToolRunner) : M unit :=
  emit (ExecSync t) ;;;
  match spawn h t with
  | Some f => throw (Raised f)
  | None => ret tt
  end.

(** [t.arg(v)] and [t.line(v)] *)
Definition arg (v : jsval) (t : ToolRunner) : ToolRunner :=
  {| toolPath := toolPath t; calls := calls t ++ [Arg v] |}.

Definition line (v : jsval) (t : ToolRunner) : ToolRunner :=
  {| toolPath := toolPath t; calls := calls t ++ [Line v] |}.

(** [tl.tool(tool)]: the constructor of the tool runner refuses an empty
    path and resolves the executable with [which(tool, true)], which
    throws when there is none. *)
Definition tool (h : Host) (p : string) : M ToolRunner :=
  fun w =>
    if String.eqb p "" then (inl (Raised (ParameterRequired "toolPath")), w)
    else
      match which h (fs w) p with
      | Some resolved => (inr {| toolPath := resolved; calls := [] |}, w)
      | None => (inl (Raised (ExecutableNotFound p)), w)
      end.

(** What a call leaves in the argument list of the tool runner: [arg(v)]
    returns at once for a falsy [v], appends a string trimmed and ignores
    any other value; [line(v)] appends the words of a non-empty string,
    split by the tool runner. *)
Inductive piece : Type :=
| Argument (s : string)
| ArgumentsOf (line : string).

Definition pieces (c : call) : list piece :=
  match c with
  | Arg (JString s) => if String.eqb s "" then [] else [Argument (trim s)]
  | Line (JString s) => if String.eqb s "" then [] else [ArgumentsOf s]
  | _ => []
  end.

(** [unityCmd.args], with the words of a [line] left unsplit. *)
Definition argv (t : ToolRunner) : list piece := flat_map pieces (calls t).

(** ** The task *)

(** [UnityBuildConfiguration] (unity-build-configuration.model): the
    fields [getBuildConfiguration] assigns. *)
Record UnityBuildConfiguration : Type := {
  outputFileName : option string;
  developmentBuild : bool;
  buildScenes : option string;
  buildTarget : jsval;
  projectPath : option string;
  unityVersion : string
}.

(** Lines 108-117: the editor version is the second [':']-separated piece
    of ProjectVersion.txt, trimmed, and cut at the revision marker when it
    holds one.  Without a second piece, [.trim()] is called on
    [undefined]. *)
Definition parseUnityVersion (content : string) : exn + string :=
  match nth_error (split ":" content) 1 with
  | None => inl (Raised (UndefinedProperty "trim"))
  | Some piece =>
      let unityVersion := trim piece in
      let revisionVersionIndex :=
        indexOf unityVersion "m_EditorVersionWithRevision" in
      if (revisionVersionIndex >? -1)%Z
      then inr (trim (substr unityVersion 0 (Some revisionVersionIndex)))
      else inr unityVersion
  end.

Definition liftE {A} (r : exn + A) : M A :=
  match r with inl e => throw e | inr a => ret a end.

Section Task.

(** What unity-build.ts imports from its sibling modules is a parameter
    here: the enum object [UnityBuildTarget] (unity-build-target.enum),
    read as the map from property keys to values, and the two static
    methods of [UnityBuildScriptHelper] (unity-build-script.helper). *)
Variable UnityBuildTarget : string -> jsval.
Variable getBuildOutputDirectory : jsval -> string.
Variable getUnityEditorBuildScriptContent : UnityBuildConfiguration -> string.

Variable h : Host.

(** Lines 100-130.  [unityVersion] is a string when it is tested, so of
    [isNullOrUndefined(v) || v === ''] only the second test can hold. *)
Definition getBuildConfiguration : M UnityBuildConfiguration :=
  let outputFileName := getInput h "outputFileName" in
  let developmentBuild := getBoolInput h "developmentBuild" in
  let buildScenes := getInput h "buildScenes" in
  target <- getInputRequired h "buildTarget" ;;
  let buildTarget := UnityBuildTarget target in
  let projectPath := getPathInput h "unityProjectPath" in
  content <- readFileSync h
    (path_join h [template projectPath; "ProjectSettings";
                  "ProjectVersion.txt"]) ;;
  unityVersion <- liftE (parseUnityVersion content) ;;
  if String.eqb unityVersion ""
  then throw (Thrown
    "Failed to get project version from ProjectVersion.txt file.")
  else if negb (String.eqb (platform h) "win32")
          && strictEq buildTarget (UnityBuildTarget "WindowsStoreApps")
  then throw (Thrown "Cannot build an UWP project on a Mac.")
  else ret {| outputFileName := outputFileName;
              developmentBuild := developmentBuild;
              buildScenes := buildScenes;
              buildTarget := buildTarget;
              projectPath := projectPath;
              unityVersion := unityVersion |}.

(** Lines 132-155. *)
Definition getUnityEditorsPath : M string :=
  editorsPathMode <- getInputRequired h "unityEditorsPathMode" ;;
  if String.eqb editorsPathMode "unityHub" then
    ret (if String.eqb (platform h) "win32"
         then path_join h ["C:"; "Program Files"; "Unity"; "Hub"; "Editor"]
         else path_join h ["/"; "Applications"; "Unity"; "Hub"; "Editor"])
  else if String.eqb editorsPathMode "environmentVariable" then
    match UNITYHUB_EDITORS_FOLDER_LOCATION h with
    | None => throw (Thrown
        "Expected UNITYHUB_EDITORS_FOLDER_LOCATION environment variable to be set!")
    | Some environmentVariablePath =>
        if String.eqb environmentVariablePath ""
        then throw (Thrown
          "Expected UNITYHUB_EDITORS_FOLDER_LOCATION environment variable to be set!")
        else ret environmentVariablePath
    end
  else
    match getInput h "customUnityEditorsPath" with
    | None => throw (Thrown
        "Expected custom editors folder location to be set. Please the task configuration.")
    | Some customPath =>
        if String.eqb customPath ""
        then throw (Thrown
          "Expected custom editors folder location to be set. Please the task configuration.")
        else ret customPath
    end.

(** Lines 157-163. *)
Definition setResultFailed (msg : string) : M unit := setResult Failed msg.

Definition setResultSucceeded (msg : string) : M unit :=
  setResult Succeeded msg.

(** Lines 16-20 of [run]: the selected editor must exist. *)
Definition checkUnityEditor (cfg : UnityBuildConfiguration)
    (unityEditorsPath : string) : M string :=
  let unityEditorDirectory :=
    if String.eqb (platform h) "win32"
    then path_join h [unityEditorsPath; unityVersion cfg; "Editor"]
    else path_join h [unityEditorsPath; unityVersion cfg] in
  checkPath h unityEditorDirectory "Unity Editor Directory" ;;;
  ret unityEditorDirectory.

(** Line 27. *)
Definition fullBuildOutputPath (cfg : UnityBuildConfiguration) : string :=
  path_join h [template (projectPath cfg);
               getBuildOutputDirectory (buildTarget cfg)].

(** Lines 22-35 of [run]: the build output directory.  Reading [.length]
    of an [undefined] repository path throws; the value returned is
    [repositoryLocalPath], a string from there on. *)
Definition prepareBuildOutput (cfg : UnityBuildConfiguration) : M string :=
  cleanBuild <- getVariable "Build.Repository.Clean" ;;
  repositoryLocalPath <- getVariable "Build.Repository.LocalPath" ;;
  let fullBuildOutputPath := fullBuildOutputPath cfg in
  (if isString cleanBuild "true"
   then removeSync h fullBuildOutputPath
   else ret tt) ;;;
  mkdirP h fullBuildOutputPath ;;;
  checkPath h fullBuildOutputPath "Build Output Directory" ;;;
  match repositoryLocalPath with
  | None => throw (Raised (UndefinedProperty "length"))
  | Some repositoryLocalPath =>
      setVariable "buildOutputPath"
        (substr fullBuildOutputPath
           (Z.of_nat (String.length repositoryLocalPath) + 1) None) ;;;
      ret repositoryLocalPath
  end.

(** Lines 41-42. *)
Definition unityExecutablePath (unityEditorDirectory : string) : string :=
  if String.eqb (platform h) "win32"
  then path_join h [unityEditorDirectory; "Unity.exe"]
  else path_join h [unityEditorDirectory; "Unity.app"; "Contents";
                    "MacOS"; "Unity"].

(** Lines 41-46 of [run]: the tool runner and the mandatory arguments. *)
Definition mandatoryCommand (cfg : UnityBuildConfiguration)
    (unityEditorDirectory : string) : M ToolRunner :=
  unityCmd <- tool h (unityExecutablePath unityEditorDirectory) ;;
  ret (arg (js (projectPath cfg))
        (arg (JString "-projectPath")
          (arg (UnityBuildTarget (propertyKey (buildTarget cfg)))
            (arg (JString "-buildTarget")
              (arg (JString "-batchmode") unityCmd))))).

Definition argIf (b : bool) (v : string) (t : ToolRunner) : ToolRunner :=
  if b then arg (JString v) t else t.

(** Lines 37-86 of [run]: the command line, the injected build script
    and the log file. *)
Definition buildUnityCommand (cfg : UnityBuildConfiguration)
    (unityEditorDirectory repositoryLocalPath : string) : M ToolRunner :=
  unityCmd <- mandatoryCommand cfg unityEditorDirectory ;;
  mode <- getInputRequired h "commandLineArgumentsMode" ;;
  if String.eqb mode "default" then
    let unityCmd := argIf (getBoolInput h "noPackageManager") "-noUpm" unityCmd in
    let unityCmd := argIf (getBoolInput h "acceptApiUpdate") "-accept-apiupdate" unityCmd in
    let unityCmd := argIf (getBoolInput h "noGraphics") "-nographics" unityCmd in
    let projectAssetsEditorFolderPath :=
      path_join h [template (projectPath cfg); "Assets"; "Editor"] in
    mkdirP h projectAssetsEditorFolderPath ;;;
    cd h (Some projectAssetsEditorFolderPath) ;;;
    writeFile h "AzureDevOps.cs" (getUnityEditorBuildScriptContent cfg) ;;;
    cd h (projectPath cfg) ;;;
    let unityCmd := arg (JString "-executeMethod") unityCmd in
    let unityCmd := arg (JString "AzureDevOps.PerformBuild") unityCmd in
    match getInput h "logFileName" with
    | None => ret unityCmd
    | Some logFileName =>
        if negb (String.eqb logFileName "") then
          let logFilePath := path_join h [repositoryLocalPath; logFileName] in
          let unityCmd := arg (JString "-logfile") unityCmd in
          let unityCmd := arg (JString logFilePath) unityCmd in
          setVariable "editorLogFilePath" logFilePath ;;;
          ret unityCmd
        else ret unityCmd
    end
  else
    ret (line (js (getInput h "customCommandLineArguments")) unityCmd).

(** The [try] block of [run], lines 13-94. *)
Definition body : M unit :=
  unityBuildConfiguration <- getBuildConfiguration ;;
  unityEditorsPath <- getUnityEditorsPath ;;
  unityEditorDirectory <-
    checkUnityEditor unityBuildConfiguration unityEditorsPath ;;
  repositoryLocalPath <- prepareBuildOutput unityBuildConfiguration ;;
  unityCmd <- buildUnityCommand unityBuildConfiguration
                unityEditorDirectory repositoryLocalPath ;;
  execSync h unityCmd.

(** Lines 11-98: [try { ... } catch (err) { setResultFailed(err.message) }]. *)
Definition run : M unit :=
  fun w =>
    match body w with
    | (inr tt, w') => (inr tt, w')
    | (inl err, w') => setResultFailed (message h err) w'
    end.

End Task.

(** ** The POSIX flavour of Node's [path] module

    One host's [path_join] and [locate].  The theorems below hold for
    every host; this one serves the examples. *)

Module Posix.

(** [normalizeString]: drops empty and ["."] segments and resolves
    [".."] against the segments kept so far ([kept] is in reverse
    order). *)
Fixpoint normalizeSegments (allowAboveRoot : bool) (segments kept : list string)
    : list string :=
  match segments with
  | [] => rev kept
  | seg :: rest =>
      if String.eqb seg "" || String.eqb seg "." then
        normalizeSegments allowAboveRoot rest kept
      else if String.eqb seg ".." then
        match kept with
        | top :: kept' =>
            if String.eqb top ".."
            then normalizeSegments allowAboveRoot rest (".." :: kept)
            else normalizeSegments allowAboveRoot rest kept'
        | [] =>
            if allowAboveRoot
            then normalizeSegments allowAboveRoot rest [".."]
            else normalizeSegments allowAboveRoot rest []
        end
      else normalizeSegments allowAboveRoot rest (seg :: kept)
  end.

Fixpoint endsWithSlash (s : string) : bool :=
  match s with
  | "" => false
  | String c "" => Ascii.eqb c "/"
  | String _ r => endsWithSlash r
  end.

(** [path.posix.normalize] *)
Definition normalize (p : string) : string :=
  if String.eqb p "" then "."
  else
    let isAbsolute := startsWith "/" p in
    let trailingSeparator := endsWithSlash p in
    let inner :=
      String.concat "/" (normalizeSegments (negb isAbsolute) (split "/" p) []) in
    if String.eqb inner "" then
      if isAbsolute then "/" else if trailingSeparator then "./" else "."
    else
      (if isAbsolute then "/" else "") ++ inner
      ++ (if trailingSeparator then "/" else "").

(** [path.posix.join] *)
Definition join (parts : list string) : string :=
  match filter (fun a => negb (String.eqb a "")) parts with
  | [] => "."
  | nonEmpty => normalize (String.concat "/" nonEmpty)
  end.

(** The directory entries a path names, from the root: an absolute
    path by itself, a relative one from the working directory. *)
Definition locate (cwd : loc) (p : string) : loc :=
  if startsWith "/" p
  then normalizeSegments false (split "/" p) []
  else normalizeSegments false (split "/" p) (rev cwd).

(** [which(tool)] on a host whose [PATH] is empty: a rooted path is found
    when a file is there, and nothing else is. *)
Definition which (files : FileSystem) (tool : string) : option string :=
  if startsWith "/" tool && isFile (files (locate [] tool))
  then Some tool else None.

End Posix.

(** ** Sample instances for the examples *)

(** The enum object TypeScript builds for a numeric enum with the given
    members, numbered from [i]. *)
Fixpoint tsEnum (i : Z) (members : list string) (key : string) : jsval :=
  match members with
  | [] => JUndefined
  | m :: rest =>
      if String.eqb key m then JNumber i
      else if String.eqb key (propertyKey (JNumber i)) then JString m
      else tsEnum (i + 1) rest key
  end.

Definition sampleTargets : string -> jsval :=
  tsEnum 0 ["Android"; "WindowsStoreApps"].

Definition sampleOutputDirectory (target : jsval) : string := "Builds".

Definition sampleScript (cfg : UnityBuildConfiguration) : string :=
  "// " ++ template (outputFileName cfg).

Fixpoint assoc {A} (table : list (string * A)) (k : string) : option A :=
  match table with
  | [] => None
  | (k', v) :: rest => if String.eqb k k' then Some v else assoc rest k
  end.

Fixpoint assocLoc (table : list (loc * node)) (l : loc) : option node :=
  match table with
  | [] => None
  | (l', n) :: rest => if loc_eqb l l' then Some n else assocLoc rest l
  end.

Definition sampleMessage (f : failure) : string :=
  match f with
  | InputRequired n => "Input required: " ++ n
  | ParameterRequired n => "Parameter is required: " ++ n
  | PathNotFound n p => "Not found " ++ n ++ ": " ++ p
  | NoSuchEntry p => "ENOENT: " ++ p
  | IsADirectory p => "EISDIR: " ++ p
  | NotADirectory p => "ENOTDIR: " ++ p
  | UndefinedProperty p => "Cannot read property '" ++ p ++ "' of undefined"
  | ExecutableNotFound t => "Unable to locate executable file: '" ++ t ++ "'"
  | ProcessError d => d
  end.

(** A POSIX host with the given platform name, environment variable and
    task inputs; no boolean input is set and the editor never throws. *)
Definition posixHost (os : string) (editors : option string)
    (inputs : list (string * string)) : Host :=
  {| platform := os;
     UNITYHUB_EDITORS_FOLDER_LOCATION := editors;
     getInput := assoc inputs;
     getBoolInput := fun _ => false;
     getPathInput := assoc inputs;
     path_join := Posix.join;
     locate := Posix.locate;
     which := Posix.which;
     failureMessage := sampleMessage;
     spawn := fun _ => None |}.

(** A ProjectVersion.txt as the editor writes it. *)
Definition sampleProjectVersion : string :=
  "m_EditorVersion: 2021.3.1f1
m_EditorVersionWithRevision: 2021.3.1f1 (73bd2d8e1c0a)
".

(** A checkout at [/repo] with a Unity project in [/repo/game], a second
    project outside the checkout in [/work/game], a project in [/bad]
    whose ProjectVersion.txt holds no [':'], and one editor installed by
    the hub, with its executable. *)
Definition sampleFiles : list (loc * node) :=
  [ ([], Dir);
    (["repo"], Dir);
    (["repo"; "game"], Dir);
    (["repo"; "game"; "ProjectSettings"], Dir);
    (["repo"; "game"; "ProjectSettings"; "ProjectVersion.txt"],
       File sampleProjectVersion);
    (["repo"; "game"; "Builds"], Dir);
    (["repo"; "game"; "Builds"; "old.apk"], File "stale");
    (["work"], Dir);
    (["work"; "game"], Dir);
    (["work"; "game"; "ProjectSettings"], Dir);
    (["work"; "game"; "ProjectSettings"; "ProjectVersion.txt"],
       File "m_EditorVersion: 2021.3.1f1");
    (["bad"], Dir);
    (["bad"; "ProjectSettings"], Dir);
    (["bad"; "ProjectSettings"; "ProjectVersion.txt"], File "2021.3.1f1");
    (["Applications"], Dir);
    (["Applications"; "Unity"], Dir);
    (["Applications"; "Unity"; "Hub"], Dir);
    (["Applications"; "Unity"; "Hub"; "Editor"], Dir);
    (["Applications"; "Unity"; "Hub"; "Editor"; "2021.3.1f1"], Dir);
    (["Applications"; "Unity"; "Hub"; "Editor"; "2021.3.1f1"; "Unity.app"], Dir);
    (["Applications"; "Unity"; "Hub"; "Editor"; "2021.3.1f1"; "Unity.app";
      "Contents"], Dir);
    (["Applications"; "Unity"; "Hub"; "Editor"; "2021.3.1f1"; "Unity.app";
      "Contents"; "MacOS"], Dir);
    (["Applications"; "Unity"; "Hub"; "Editor"; "2021.3.1f1"; "Unity.app";
      "Contents"; "MacOS"; "Unity"], File "Mach-O") ].

Definition sampleWorld (vars : list (string * string)) : World :=
  {| fs := assocLoc sampleFiles;
     cwd := ["repo"];
     variables := assoc vars;
     trace := [] |}.

Definition sampleVariables : list (string * string) :=
  [ ("Build.Repository.LocalPath", "/repo");
    ("Build.Repository.Clean", "true") ].

Definition sampleConfiguration (project : string) : UnityBuildConfiguration :=
  {| outputFileName := Some "game";
     developmentBuild := false;
     buildScenes := None;
     buildTarget := JNumber 0;
     projectPath := Some project;
     unityVersion := "2021.3.1f1" |}.

Definition sampleInputs (project target editorsMode argumentsMode : string)
    : list (string * string) :=
  [ ("buildTarget", target);
    ("unityProjectPath", project);
    ("unityEditorsPathMode", editorsMode);
    ("commandLineArgumentsMode", argumentsMode);
    ("customCommandLineArguments", "-quit -batchmode");
    ("customUnityEditorsPath", "/Applications/Unity/Hub/Editor");
    ("logFileName", "build.log") ].

(** A Mac on which [UNITYHUB_EDITORS_FOLDER_LOCATION] is not set. *)
Definition macHost (project target editorsMode argumentsMode : string) : Host :=
  posixHost "darwin" None
    (sampleInputs project target editorsMode argumentsMode).

Definition sampleRun (h : Host) (w : World) : (exn + unit) * World :=
  run sampleTargets sampleOutputDirectory sampleScript h w.

(** ** The specification's wording, for comparison with the code *)

Module Spec.

Definition revisionMarker : string := "m_EditorVersionWithRevision".

(** "The text after the first [':']". *)
Fixpoint afterFirstColon (s : string) : option string :=
  match s with
  | "" => None
  | String c r => if Ascii.eqb c ":" then Some r else afterFirstColon r
  end.

(** "The text between the first [':'] and that marker", or "the whole
    text after the first [':']" when the marker is absent. *)
Definition versionText (text : string) : string :=
  match find revisionMarker text with
  | Some i => take i text
  | None => text
  end.

(** The extracted editor version: that text "with surrounding
    whitespace trimmed". *)
Definition editorVersion (content : string) : option string :=
  option_map (fun text => trim (versionText text)) (afterFirstColon content).

(** "[full] expressed relative to [root]": joining the relative path
    onto the root leads to [full]. *)
Definition relativeTo (h : Host) (root full rel : string) : Prop :=
  path_join h [root; rel] = full.

End Spec.

(** The piece of [s] before its first [sep]: [s.split(sep)[0]]. *)
Fixpoint untilSep (sep : ascii) (s : string) : string :=
  match s with
  | "" => ""
  | String c r => if Ascii.eqb c sep then "" else String c (untilSep sep r)
  end.

Definition allChars (P : ascii -> bool) (s : string) : bool :=
  forallb P (list_ascii_of_string s).

(** A statement that leaves the pipeline alone: no event, no variable. *)
Definition silent {A} (m : M A) : Prop :=
  forall w r w', m w = (r, w') ->
    trace w' = trace w /\ variables w' = variables w.

(** The tool runner of default mode before the log file is looked at
    (lines 48-71), from the one that holds the mandatory arguments. *)
Definition defaultModeCommand (h : Host) (mandatory : ToolRunner) : ToolRunner :=
  arg (JString "AzureDevOps.PerformBuild")
    (arg (JString "-executeMethod")
      (argIf (getBoolInput h "noGraphics") "-nographics"
        (argIf (getBoolInput h "acceptApiUpdate") "-accept-apiupdate"
          (argIf (getBoolInput h "noPackageManager") "-noUpm" mandatory)))).

(** The calls of lines 44-46. *)
Definition mandatoryCalls (UnityBuildTarget : string -> jsval)
    (cfg : UnityBuildConfiguration) : list call :=
  [ Arg (JString "-batchmode");
    Arg (JString "-buildTarget");
    Arg (UnityBuildTarget (propertyKey (buildTarget cfg)));
    Arg (JString "-projectPath");
    Arg (js (projectPath cfg)) ].

(** Where [tl.cd(path)] leaves the working directory when it returns. *)
Definition cdTarget (h : Host) (from : loc) (path : option string) : loc :=
  match path with
  | Some p => if String.eqb p "" then from else locate h from p
  | None => from
  end.

Definition isLaunch (e : event) : bool :=
  match e with ExecSync _ => true | _ => false end.

(** The events of lines 48-86 in a command builder that returns: the log
    file variable, in default mode with a log file named. *)
Definition logEvents (h : Host) (mode repositoryLocalPath : string)
    : list event :=
  if String.eqb mode "default" then
    match getInput h "logFileName" with
    | Some logFileName =>
        if String.eqb logFileName "" then []
        else [SetVariable "editorLogFilePath"
                (path_join h [repositoryLocalPath; logFileName])]
    | None => []
    end
  else [].

Definition isResult (e : event) : bool :=
  match e with SetResult _ _ => true | _ => false end.

(** A statement that may set variables and run the tool but never sets
    the task result. *)
Definition quiet {A} (m : M A) : Prop :=
  forall w r w', m w = (r, w') ->
    exists events,
      trace w' = trace w ++ events /\ existsb isResult events = false.

Definition events_of (w : World) (r : (exn + unit) * World) : list event :=
  skipn (List.length (trace w)) (trace (snd r)).

(** * Properties *)

(** ** The string and path functions on known inputs *)

Example trim_both_ends : trim "  2021.3.1f1
" = "2021.3.1f1"%string.
Proof. reflexivity. Qed.

Example split_colon :
  split ":" "m_EditorVersion: 2021.3.1f1"
  = ["m_EditorVersion"; " 2021.3.1f1"]%string.
Proof. reflexivity. Qed.

Example split_without_separator : split ":" "2021.3.1f1" = ["2021.3.1f1"%string].
Proof. reflexivity. Qed.

Example indexOf_absent : indexOf "2021.3.1f1" "m_EditorVersionWithRevision" = (-1)%Z.
Proof. reflexivity. Qed.

Example substr_from : substr "/repo/game/Builds" 6 None = "game/Builds"%string.
Proof. reflexivity. Qed.

Example substr_past_the_end : substr "/repo" 6 None = ""%string.
Proof. reflexivity. Qed.

Example posix_join_normalizes :
  Posix.join ["/foo"; "bar"; "baz/asdf"; "quux"; ".."]%string
  = "/foo/bar/baz/asdf"%string.
Proof. reflexivity. Qed.

Example posix_join_repository :
  Posix.join ["/repo"; "build.log"]%string = "/repo/build.log"%string.
Proof. reflexivity. Qed.

Example enum_both_ways :
  sampleTargets "WindowsStoreApps" = JNumber 1
  /\ sampleTargets (propertyKey (JNumber 1)) = JString "WindowsStoreApps".
Proof. split; reflexivity. Qed.

(** ** Strings *)

Section StringFacts.

Local Open Scope string_scope.

Lemma append_nil_r (s : string) : s ++ "" = s.
Proof. induction s; simpl; congruence. Qed.

Lemma append_assoc (a b c : string) : (a ++ b) ++ c = a ++ (b ++ c).
Proof. induction a; simpl; congruence. Qed.

Lemma take_drop (n : nat) (s : string) : take n s ++ drop n s = s.
Proof.
  revert s; induction n as [|n IH]; intros [|c r]; simpl; try reflexivity.
  now rewrite IH.
Qed.

Lemma take_length_app (a b : string) : take (String.length a) (a ++ b) = a.
Proof. induction a; simpl; [now destruct b | congruence]. Qed.

Lemma drop_length_app (a b : string) : drop (String.length a) (a ++ b) = b.
Proof. induction a; simpl; [now destruct b | assumption]. Qed.

Lemma length_append (a b : string) :
  String.length (a ++ b) = (String.length a + String.length b)%nat.
Proof. induction a; simpl; congruence. Qed.

Lemma startsWith_split (p s : string) :
  startsWith p s = true -> s = p ++ drop (String.length p) s.
Proof.
  revert s; induction p as [|a p IH]; intros s H; simpl in *.
  - now destruct s.
  - destruct s as [|b s]; [discriminate|].
    apply andb_true_iff in H as [Hab Hp].
    apply Ascii.eqb_eq in Hab; subst b.
    simpl. f_equal. now apply IH.
Qed.

Lemma startsWith_app (p y : string) : startsWith p (p ++ y) = true.
Proof.
  induction p as [|a p IH]; simpl; [reflexivity|].
  now rewrite Ascii.eqb_refl.
Qed.

Lemma startsWith_weaken (p a b : string) :
  startsWith p a = true -> startsWith p (a ++ b) = true.
Proof.
  revert a; induction p as [|x p IH]; intros a H; simpl in *; [reflexivity|].
  destruct a as [|y a]; [discriminate|]. simpl.
  apply andb_true_iff in H as [-> H]. simpl. now apply IH.
Qed.

(** [startsWith p] reads no further than [p] is long. *)
Lemma startsWith_indep (p u y y' : string) :
  (String.length p <= String.length u)%nat ->
  startsWith p (u ++ y) = startsWith p (u ++ y').
Proof.
  revert u; induction p as [|a p IH]; intros u Hlen; simpl; [reflexivity|].
  destruct u as [|b u]; simpl in *; [lia|].
  f_equal. apply IH. lia.
Qed.

Lemma find_here (p s : string) : startsWith p s = true -> find p s = Some O.
Proof. intros H. destruct s; simpl; now rewrite H. Qed.

Lemma find_cons (p : string) (c : ascii) (r : string) :
  startsWith p (String c r) = false ->
  find p (String c r) = option_map S (find p r).
Proof. intros H. simpl find. simpl in H. now rewrite H. Qed.

Lemma find_startsWith (p s : string) (i : nat) :
  find p s = Some i -> startsWith p (drop i s) = true.
Proof.
  revert i; induction s as [|c r IH]; intros i H.
  - simpl in H. destruct (startsWith p "") eqn:E; [|discriminate].
    injection H as <-. exact E.
  - destruct (startsWith p (String c r)) eqn:E.
    + rewrite (find_here _ _ E) in H. injection H as <-. exact E.
    + rewrite (find_cons _ _ _ E) in H.
      destruct (find p r) as [j|]; [|discriminate].
      injection H as <-. simpl. now apply IH.
Qed.

Lemma find_length_take (p s : string) (i : nat) :
  find p s = Some i -> String.length (take i s) = i.
Proof.
  revert i; induction s as [|c r IH]; intros i H.
  - simpl in H. destruct (startsWith p ""); [|discriminate].
    now injection H as <-.
  - destruct (startsWith p (String c r)) eqn:E.
    + rewrite (find_here _ _ E) in H. now injection H as <-.
    + rewrite (find_cons _ _ _ E) in H.
      destruct (find p r) as [j|]; [|discriminate].
      injection H as <-. simpl. f_equal. now apply IH.
Qed.

(** The first occurrence of [p] is settled by the text up to its end. *)
Lemma find_indep (p x y y' : string) :
  find p (x ++ p ++ y) = find p (x ++ p ++ y').
Proof.
  induction x as [|c x IH].
  - simpl append. now rewrite !find_here by apply startsWith_app.
  - assert (E : startsWith p (String c x ++ p ++ y)
                = startsWith p (String c x ++ p ++ y')).
    { rewrite <- !append_assoc. apply startsWith_indep.
      rewrite length_append. lia. }
    destruct (startsWith p (String c x ++ p ++ y')) eqn:E'.
    + now rewrite !find_here.
    + simpl append in *. rewrite !find_cons by assumption. now rewrite IH.
Qed.

Lemma find_none_tail (p : string) (c : ascii) (r : string) :
  find p (String c r) = None -> find p r = None.
Proof.
  intros H. destruct (startsWith p (String c r)) eqn:E.
  - now rewrite find_here in H.
  - rewrite find_cons in H by assumption. now destruct (find p r).
Qed.

Lemma find_none_prefix (p a b : string) :
  find p (a ++ b) = None -> find p a = None.
Proof.
  induction a as [|c a IH]; intros H.
  - simpl. destruct (startsWith p "") eqn:E; [|reflexivity].
    rewrite find_here in H; [discriminate|].
    now apply (startsWith_weaken p "" b).
  - destruct (startsWith p (String c a)) eqn:E.
    + rewrite find_here in H; [discriminate|].
      now apply (startsWith_weaken p (String c a) b).
    + rewrite find_cons by assumption.
      rewrite (IH (find_none_tail _ _ _ H)). reflexivity.
Qed.

End StringFacts.

Section TrimFacts.

Local Open Scope string_scope.

Lemma trimStart_app (x : string) (c : ascii) (y : string) :
  isWhiteSpace c = false ->
  trimStart (x ++ String c y) = trimStart x ++ String c y.
Proof.
  intros Hc. induction x as [|a x IH]; simpl.
  - now rewrite Hc.
  - now destruct (isWhiteSpace a).
Qed.

Lemma trimStart_idem (s : string) : trimStart (trimStart s) = trimStart s.
Proof.
  induction s as [|c r IH]; simpl; [reflexivity|].
  destruct (isWhiteSpace c) eqn:E; [assumption|].
  simpl. now rewrite E.
Qed.

Lemma trimEnd_cons (c : ascii) (r : string) :
  trimEnd r <> "" -> trimEnd (String c r) = String c (trimEnd r).
Proof. simpl. destruct (trimEnd r); congruence. Qed.

Lemma trimEnd_cons_solid (c : ascii) (r : string) :
  isWhiteSpace c = false -> trimEnd (String c r) = String c (trimEnd r).
Proof. intros Hc. simpl. rewrite Hc. now destruct (trimEnd r). Qed.

Lemma trimEnd_app (x y : string) :
  trimEnd y <> "" -> trimEnd (x ++ y) = x ++ trimEnd y.
Proof.
  intros Hy. induction x as [|c x IH]; [reflexivity|].
  simpl append. rewrite trimEnd_cons; rewrite IH; [reflexivity|].
  destruct x; simpl; [assumption | discriminate].
Qed.

(** A word without white space survives [trimEnd] when it leads. *)
Lemma trimEnd_solid (m r : string) :
  allChars (fun c => negb (isWhiteSpace c)) m = true ->
  trimEnd (m ++ r) = m ++ trimEnd r.
Proof.
  unfold allChars. induction m as [|c m IH]; intros H; [reflexivity|].
  simpl in H. apply andb_true_iff in H as [Hc Hm].
  simpl append. rewrite trimEnd_cons_solid by now apply negb_true_iff.
  now rewrite IH.
Qed.

Lemma trimEnd_is_prefix (s : string) : exists w, s = trimEnd s ++ w.
Proof.
  induction s as [|c r [w IH]]; [now exists ""|].
  simpl. destruct (trimEnd r) eqn:E.
  - destruct (isWhiteSpace c).
    + now exists (String c r).
    + exists r. reflexivity.
  - exists w. simpl. now rewrite IH at 1.
Qed.

Lemma find_trimStart (a : ascii) (p s : string) (i : nat) :
  isWhiteSpace a = false ->
  find (String a p) s = Some i ->
  find (String a p) (trimStart s)
  = Some (String.length (trimStart (take i s))).
Proof.
  intros Ha. revert i. induction s as [|c r IH]; intros i H.
  - simpl in H. discriminate.
  - simpl trimStart. destruct (isWhiteSpace c) eqn:Ec.
    + assert (E : startsWith (String a p) (String c r) = false).
      { simpl. destruct (Ascii.eqb a c) eqn:Eac; [|reflexivity].
        apply Ascii.eqb_eq in Eac. congruence. }
      rewrite find_cons in H by assumption.
      destruct (find (String a p) r) as [j|] eqn:Ej; [|discriminate].
      injection H as <-. simpl take. simpl trimStart. rewrite Ec.
      now apply IH.
    + rewrite H. f_equal. destruct i as [|i]; [reflexivity|].
      simpl take. simpl trimStart. rewrite Ec.
      change (String c (take i r)) with (take (S i) (String c r)).
      symmetry. eapply find_length_take. eassumption.
Qed.

Lemma find_none_trimStart (p s : string) :
  find p s = None -> find p (trimStart s) = None.
Proof.
  induction s as [|c r IH]; intros H; [assumption|].
  simpl trimStart. destruct (isWhiteSpace c); [|assumption].
  apply IH. eapply find_none_tail. eassumption.
Qed.

Lemma find_none_trim (p s : string) :
  find p s = None -> find p (trim s) = None.
Proof.
  intros H. unfold trim.
  destruct (trimEnd_is_prefix (trimStart s)) as [w Hw].
  apply find_none_prefix with (b := w). rewrite <- Hw.
  now apply find_none_trimStart.
Qed.

Lemma split_head (sep : ascii) (s : string) :
  exists t, split sep s = untilSep sep s :: t.
Proof.
  induction s as [|c r [t IH]]; simpl; [now exists []|].
  destruct (Ascii.eqb c sep); [now eexists|].
  rewrite IH. now eexists.
Qed.

(** The second piece of a split is what [Spec.afterFirstColon] yields,
    up to the next [':']. *)
Lemma split_second (content : string) :
  nth_error (split ":" content) 1
  = option_map (untilSep ":") (Spec.afterFirstColon content).
Proof.
  induction content as [|c r IH]; [reflexivity|].
  simpl. destruct (Ascii.eqb c ":").
  - destruct (split_head ":" r) as [t ->]. reflexivity.
  - destruct (split_head ":" r) as [t Ht]. rewrite Ht in *. exact IH.
Qed.

Lemma untilSep_app (sep : ascii) (x y : string) :
  find (String sep "") x = None ->
  untilSep sep (x ++ y) = x ++ untilSep sep y.
Proof.
  induction x as [|c x IH]; intros H; [reflexivity|].
  assert (E : Ascii.eqb c sep = false).
  { destruct (Ascii.eqb c sep) eqn:E; [|reflexivity].
    apply Ascii.eqb_eq in E; subst c.
    simpl in H. rewrite Ascii.eqb_refl in H. discriminate. }
  simpl. rewrite E. f_equal. apply IH.
  eapply find_none_tail. eassumption.
Qed.

Lemma untilSep_whole (sep : ascii) (x : string) :
  find (String sep "") x = None -> untilSep sep x = x.
Proof.
  intros H. rewrite <- (append_nil_r x) at 1.
  rewrite untilSep_app by assumption. simpl. apply append_nil_r.
Qed.

Lemma substr_take (u : string) (n : nat) :
  (n <= String.length u)%nat ->
  substr u 0 (Some (Z.of_nat n)) = take n u.
Proof.
  intros H. unfold substr. cbv zeta. simpl (0 <? 0)%Z. cbv iota.
  set (size := Z.of_nat (String.length u)).
  assert (Hs : (Z.of_nat n <= size)%Z) by (subst size; lia).
  assert (H0 : (0 <= Z.of_nat n)%Z) by lia.
  rewrite (Z.min_l 0 size) by lia.
  rewrite (Z.min_l (Z.of_nat n) size) by lia.
  rewrite (Z.max_r 0 (Z.of_nat n)) by lia.
  rewrite Z.add_0_l, (Z.min_l (Z.of_nat n) size), Z.sub_0_r by lia.
  rewrite Nat2Z.id. simpl. now destruct u.
Qed.

End TrimFacts.

(** ** Editor-version parsing (lines 108-117) *)

Section CutAtMarker.

Local Open Scope string_scope.

(** A marker that starts with a letter and holds neither white space
    nor [':']. *)
Variables (a : ascii) (m : string).
Hypothesis solid : allChars (fun c => negb (isWhiteSpace c)) (String a m) = true.
Hypothesis colonFree :
  allChars (fun c => negb (Ascii.eqb c ":")) (String a m) = true.

Let marker : string := String a m.

Lemma untilSep_marker (r : string) :
  untilSep ":" (marker ++ r) = marker ++ untilSep ":" r.
Proof.
  subst marker. revert colonFree. unfold allChars.
  generalize (String a m) as k. induction k as [|c k IH]; intros H;
    [reflexivity|].
  simpl in H. apply andb_true_iff in H as [Hc Hk].
  apply negb_true_iff in Hc. simpl. rewrite Hc. f_equal. now apply IH.
Qed.

Lemma head_solid : isWhiteSpace a = false.
Proof.
  unfold allChars in solid. simpl in solid.
  apply andb_true_iff in solid as [H _]. now apply negb_true_iff.
Qed.

Lemma trimStart_marker (x y : string) :
  trimStart (x ++ marker ++ y) = trimStart x ++ marker ++ y.
Proof. exact (trimStart_app x a (m ++ y) head_solid). Qed.

(** The piece the code keeps, when the marker first occurs at [i] in
    the text after the first [':'] and no [':'] stands before it. *)
Lemma trim_piece_with_marker (text : string) (i : nat) :
  find marker text = Some i ->
  find ":" (take i text) = None ->
  exists tail,
    trim (untilSep ":" text) = trimStart (take i text) ++ marker ++ tail
    /\ find marker (trim (untilSep ":" text))
       = Some (String.length (trimStart (take i text))).
Proof.
  intros Hfind Hcolon.
  pose proof (find_startsWith _ _ _ Hfind) as Hstart.
  apply startsWith_split in Hstart.
  set (rest := drop (String.length marker) (drop i text)) in Hstart.
  assert (Htext : text = take i text ++ marker ++ rest).
  { rewrite <- Hstart. symmetry. apply take_drop. }
  set (pre := take i text) in *.
  assert (Hpiece : untilSep ":" text = pre ++ marker ++ untilSep ":" rest).
  { rewrite Htext at 1. rewrite untilSep_app by assumption.
    now rewrite untilSep_marker. }
  assert (Htrim : trim (untilSep ":" text)
                  = trimStart pre ++ marker ++ trimEnd (untilSep ":" rest)).
  { rewrite Hpiece. unfold trim. rewrite trimStart_marker.
    rewrite trimEnd_app; unfold marker at 1;
      rewrite trimEnd_solid by exact solid; [reflexivity | discriminate]. }
  exists (trimEnd (untilSep ":" rest)). split; [exact Htrim|].
  rewrite Htrim.
  rewrite (find_indep marker (trimStart pre) _ rest).
  rewrite <- trimStart_marker. fold pre in Htext. rewrite <- Htext.
  apply find_trimStart; [apply head_solid | exact Hfind].
Qed.

End CutAtMarker.

Lemma revisionMarker_solid :
  allChars (fun c => negb (isWhiteSpace c)) Spec.revisionMarker = true.
Proof. reflexivity. Qed.

Lemma revisionMarker_colonFree :
  allChars (fun c => negb (Ascii.eqb c ":")) Spec.revisionMarker = true.
Proof. reflexivity. Qed.

(** What the code extracts, in terms of the piece between the first
    [':'] and the next one (or the end of the file). *)
Lemma parseUnityVersion_piece (content text : string) :
  Spec.afterFirstColon content = Some text ->
  parseUnityVersion content =
  let unityVersion := trim (untilSep ":" text) in
  match find Spec.revisionMarker unityVersion with
  | Some i => inr (trim (take i unityVersion))
  | None => inr unityVersion
  end.
Proof.
  intros H. unfold parseUnityVersion, indexOf.
  rewrite split_second, H. simpl option_map. cbv zeta.
  change "m_EditorVersionWithRevision"%string with Spec.revisionMarker.
  destruct (find Spec.revisionMarker (trim (untilSep ":" text))) as [i|] eqn:E.
  - rewrite E.
    replace (Z.of_nat i >? -1)%Z with true by (symmetry; apply Z.gtb_lt; lia).
    rewrite substr_take; [reflexivity|].
    rewrite <- (find_length_take _ _ _ E) at 1.
    rewrite <- (take_drop i (trim (untilSep ":" text))) at 2.
    rewrite length_append. lia.
  - now rewrite E.
Qed.

(** C4, as amended: for every ProjectVersion.txt content in which no
    further [':'] stands between the first [':'] and the marker
    [m_EditorVersionWithRevision] (or, when the marker is absent, anywhere
    after the first [':']), the extracted editor version is the text
    between the first [':'] and the marker, trimmed, respectively the
    whole text after the first [':'], trimmed. *)
Theorem parseUnityVersion_versionText (content text : string) :
  Spec.afterFirstColon content = Some text ->
  includes (Spec.versionText text) ":" = false ->
  parseUnityVersion content = inr (trim (Spec.versionText text)).
Proof.
  intros Hafter Hcolon.
  rewrite (parseUnityVersion_piece _ _ Hafter). cbv zeta.
  unfold includes in Hcolon. unfold Spec.versionText in *.
  destruct (find Spec.revisionMarker text) as [i|] eqn:Hfind.
  - assert (Hc : find ":" (take i text) = None)
      by (destruct (find ":" (take i text)); [discriminate | reflexivity]).
    destruct (trim_piece_with_marker _ _ revisionMarker_solid
                revisionMarker_colonFree text i Hfind Hc) as (tail & Hpiece & Hidx).
    change (String "m" "_EditorVersionWithRevision") with Spec.revisionMarker in *.
    rewrite Hidx, Hpiece, take_length_app.
    unfold trim. now rewrite trimStart_idem.
  - assert (Hc : find ":" text = None)
      by (destruct (find ":" text); [discriminate | reflexivity]).
    rewrite (untilSep_whole _ _ Hc).
    now rewrite (find_none_trim _ _ Hfind).
Qed.

Lemma parseUnityVersion_versionText_witness :
  parseUnityVersion sampleProjectVersion = inr "2021.3.1f1"%string.
Proof.
  apply (parseUnityVersion_versionText sampleProjectVersion
           (drop 16 sampleProjectVersion)); reflexivity.
Defined.

(** C4 as stated fails when a second [':'] precedes the marker: the code
    keeps only the piece up to that [':']. *)
Lemma parseUnityVersion_stops_at_second_colon :
  let content :=
    "m_EditorVersion: 2021.3.1f1 built: today m_EditorVersionWithRevision: x"%string in
  Spec.editorVersion content = Some "2021.3.1f1 built: today"%string
  /\ parseUnityVersion content = inr "2021.3.1f1 built"%string
  /\ parseUnityVersion content <> inr "2021.3.1f1 built: today"%string.
Proof. cbv zeta. split; [reflexivity | split; [reflexivity | discriminate]]. Qed.

(** ** Configuration resolution (lines 100-155) *)

Ltac eqb_false :=
  repeat match goal with
  | H : ?a <> ?b |- context [String.eqb ?a ?b] =>
      rewrite (proj2 (String.eqb_neq a b) H)
  end.

Section Configuration.

Variable UnityBuildTarget : string -> jsval.
Variable h : Host.

(** The value of [projectVersionFile] is the path line 108 reads. *)
Let projectVersionFile : string :=
  path_join h [template (getPathInput h "unityProjectPath");
               "ProjectSettings"; "ProjectVersion.txt"].

(** [getBuildConfiguration] only reads: whatever it returns or throws,
    the world is as before. *)
Lemma getBuildConfiguration_reads_only (w : World) :
  snd (getBuildConfiguration UnityBuildTarget h w) = w.
Proof.
  unfold getBuildConfiguration, bind, getInputRequired, readFileSync, liftE,
    throw, ret.
  destruct (getInput h "buildTarget") as [t|]; [|reflexivity].
  destruct (String.eqb t ""); [reflexivity|].
  destruct (fs w _) as [[c|]|]; try reflexivity.
  destruct (parseUnityVersion c) as [e|v]; [reflexivity|].
  destruct (String.eqb v ""); [reflexivity|].
  now destruct (_ && _).
Qed.

Lemma getUnityEditorsPath_reads_only (w : World) :
  snd (getUnityEditorsPath h w) = w.
Proof.
  unfold getUnityEditorsPath, bind, getInputRequired, throw, ret.
  destruct (getInput h "unityEditorsPathMode") as [m|]; [|reflexivity].
  destruct (String.eqb m ""); [reflexivity|].
  destruct (String.eqb m "unityHub"); [reflexivity|].
  destruct (String.eqb m "environmentVariable").
  - destruct (UNITYHUB_EDITORS_FOLDER_LOCATION h) as [p|]; [|reflexivity].
    now destruct (String.eqb p "").
  - destruct (getInput h "customUnityEditorsPath") as [p|]; [|reflexivity].
    now destruct (String.eqb p "").
Qed.

(** What [getBuildConfiguration] does once the file has been read. *)
Lemma getBuildConfiguration_after_read (w : World) (target content : string) :
  getInput h "buildTarget" = Some target ->
  target <> ""%string ->
  readFileSync h projectVersionFile w = (inr content, w) ->
  getBuildConfiguration UnityBuildTarget h w =
  match parseUnityVersion content with
  | inl e => (inl e, w)
  | inr v =>
      if String.eqb v "" then
        (inl (Thrown
           "Failed to get project version from ProjectVersion.txt file."), w)
      else if negb (String.eqb (platform h) "win32")
              && strictEq (UnityBuildTarget target)
                   (UnityBuildTarget "WindowsStoreApps")
      then (inl (Thrown "Cannot build an UWP project on a Mac."), w)
      else (inr {| outputFileName := getInput h "outputFileName";
                   developmentBuild := getBoolInput h "developmentBuild";
                   buildScenes := getInput h "buildScenes";
                   buildTarget := UnityBuildTarget target;
                   projectPath := getPathInput h "unityProjectPath";
                   unityVersion := v |}, w)
  end.
Proof.
  intros Ht Hne Hread.
  unfold getBuildConfiguration, bind, getInputRequired.
  rewrite Ht. eqb_false. unfold ret at 1.
  fold projectVersionFile. rewrite Hread.
  destruct (parseUnityVersion content) as [e|v]; [reflexivity|].
  unfold liftE, ret at 1.
  destruct (String.eqb v ""); [reflexivity|].
  now destruct (_ && _).
Qed.

(** The same without assumptions, as a case analysis. *)
Lemma getBuildConfiguration_cases (w : World) :
  (exists e, getBuildConfiguration UnityBuildTarget h w = (inl e, w))
  \/ (exists target content v,
        getInput h "buildTarget" = Some target
        /\ readFileSync h projectVersionFile w = (inr content, w)
        /\ parseUnityVersion content = inr v
        /\ v <> ""%string
        /\ (negb (String.eqb (platform h) "win32")
            && strictEq (UnityBuildTarget target)
                 (UnityBuildTarget "WindowsStoreApps")) = false
        /\ getBuildConfiguration UnityBuildTarget h w =
           (inr {| outputFileName := getInput h "outputFileName";
                   developmentBuild := getBoolInput h "developmentBuild";
                   buildScenes := getInput h "buildScenes";
                   buildTarget := UnityBuildTarget target;
                   projectPath := getPathInput h "unityProjectPath";
                   unityVersion := v |}, w)).
Proof.
  destruct (getInput h "buildTarget") as [target|] eqn:Ht.
  2:{ left. unfold getBuildConfiguration, bind, getInputRequired.
      rewrite Ht. now eexists. }
  destruct (String.eqb target "") eqn:Hne.
  { left. unfold getBuildConfiguration, bind, getInputRequired.
    rewrite Ht, Hne. now eexists. }
  apply String.eqb_neq in Hne.
  destruct (readFileSync h projectVersionFile w) as [[e|content] w1] eqn:Hread.
  { left. unfold getBuildConfiguration, bind, getInputRequired.
    rewrite Ht. eqb_false. unfold ret at 1. fold projectVersionFile.
    rewrite Hread. exists e. f_equal.
    unfold readFileSync in Hread.
    destruct (fs w _) as [[c|]|]; now inversion Hread. }
  assert (w1 = w) as ->.
  { unfold readFileSync in Hread.
    destruct (fs w _) as [[c|]|]; now inversion Hread. }
  rewrite (getBuildConfiguration_after_read w target content Ht Hne Hread).
  destruct (parseUnityVersion content) as [e|v] eqn:Hv; [left; now eexists|].
  destruct (String.eqb v "") eqn:Hv0; [left; now eexists|].
  destruct (_ && _) eqn:Huwp; [left; now eexists|].
  right. exists target, content, v.
  apply String.eqb_neq in Hv0. repeat split; assumption.
Qed.

End Configuration.

(** C3: when the resolved build target is [WindowsStoreApps] and the host
    is not Windows, [getBuildConfiguration] throws; for any other build
    target the host platform plays no part: the outcome is the same on
    every platform, and the error is never the platform error. *)
Theorem getBuildConfiguration_platform
    (UnityBuildTarget : string -> jsval) (h : Host) (w : World)
    (target : string) :
  getInput h "buildTarget" = Some target ->
  (strictEq (UnityBuildTarget target) (UnityBuildTarget "WindowsStoreApps") = true ->
   platform h <> "win32"%string ->
   exists e, getBuildConfiguration UnityBuildTarget h w = (inl e, w))
  /\
  (strictEq (UnityBuildTarget target) (UnityBuildTarget "WindowsStoreApps") = false ->
   (forall os,
      getBuildConfiguration UnityBuildTarget (with_platform os h) w
      = getBuildConfiguration UnityBuildTarget h w)
   /\ getBuildConfiguration UnityBuildTarget h w
      <> (inl (Thrown "Cannot build an UWP project on a Mac."), w)).
Proof.
  intros Ht. split.
  - intros Hwsa Hos.
    destruct (getBuildConfiguration_cases UnityBuildTarget h w)
      as [He | (t & c & v & Ht' & _ & _ & _ & Huwp & _)]; [exact He|].
    rewrite Ht in Ht'. injection Ht' as <-.
    rewrite Hwsa in Huwp. apply String.eqb_neq in Hos. rewrite Hos in Huwp.
    discriminate.
  - intros Hother.
    assert (Hsame : forall os,
      getBuildConfiguration UnityBuildTarget (with_platform os h) w
      = getBuildConfiguration UnityBuildTarget h w).
    { intros os.
      unfold getBuildConfiguration, bind, getInputRequired, readFileSync.
      simpl. rewrite Ht.
      destruct (String.eqb target ""); [reflexivity|].
      unfold ret at 1 3.
      destruct (fs w _) as [[c|]|]; try reflexivity.
      destruct (liftE (parseUnityVersion c) w) as [[e|v] w1]; [reflexivity|].
      destruct (String.eqb v ""); [reflexivity|].
      now rewrite Hother, !andb_false_r. }
    split; [exact Hsame|].
    destruct (getBuildConfiguration_cases UnityBuildTarget h w)
      as [(e & He) | (t & c & v & Ht' & Hread & Hv & Hne & Huwp & Hok)].
    + destruct (String.eqb target "") eqn:E0.
      { unfold getBuildConfiguration, bind, getInputRequired.
        rewrite Ht, E0. discriminate. }
      apply String.eqb_neq in E0.
      unfold getBuildConfiguration, bind, getInputRequired, readFileSync.
      rewrite Ht. eqb_false. unfold ret at 1.
      destruct (fs w _) as [[c|]|]; try discriminate.
      unfold parseUnityVersion.
      destruct (nth_error (split ":" c) 1); [|discriminate].
      unfold liftE.
      destruct (_ >? _)%Z; unfold ret at 1;
        (destruct (String.eqb _ ""); [discriminate|]);
        rewrite Hother, andb_false_r; discriminate.
    + rewrite Hok. discriminate.
Qed.

(** On a Mac the Windows-only target is refused; for Android the outcome
    is what it would be under Windows. *)
Lemma getBuildConfiguration_platform_witness :
  (exists e,
     getBuildConfiguration sampleTargets
       (macHost "/repo/game" "WindowsStoreApps" "unityHub" "default")
       (sampleWorld [])
     = (inl e, sampleWorld []))
  /\ getBuildConfiguration sampleTargets
       (with_platform "win32"
          (macHost "/repo/game" "Android" "unityHub" "default"))
       (sampleWorld [])
     = getBuildConfiguration sampleTargets
         (macHost "/repo/game" "Android" "unityHub" "default")
         (sampleWorld []).
Proof.
  split.
  - apply (getBuildConfiguration_platform sampleTargets
             (macHost "/repo/game" "WindowsStoreApps" "unityHub" "default")
             (sampleWorld []) "WindowsStoreApps" eq_refl);
      [reflexivity | discriminate].
  - apply (getBuildConfiguration_platform sampleTargets
             (macHost "/repo/game" "Android" "unityHub" "default")
             (sampleWorld []) "Android" eq_refl).
    reflexivity.
Defined.

(** C9: [getBuildConfiguration] throws when ProjectVersion.txt holds no
    [':'] and when the version extracted from it is empty; a
    configuration it returns never has an empty [unityVersion]. *)
Theorem getBuildConfiguration_version_required
    (UnityBuildTarget : string -> jsval) (h : Host) (w : World) :
  (forall content,
     readFileSync h
       (path_join h [template (getPathInput h "unityProjectPath");
                     "ProjectSettings"; "ProjectVersion.txt"]) w
     = (inr content, w) ->
     Spec.afterFirstColon content = None
     \/ parseUnityVersion content = inr ""%string ->
     exists e, getBuildConfiguration UnityBuildTarget h w = (inl e, w))
  /\ (forall cfg w',
        getBuildConfiguration UnityBuildTarget h w = (inr cfg, w') ->
        unityVersion cfg <> ""%string).
Proof.
  split.
  - intros content Hread Hbad.
    destruct (getBuildConfiguration_cases UnityBuildTarget h w)
      as [He | (t & c & v & _ & Hread' & Hv & Hne & _)]; [exact He|].
    rewrite Hread in Hread'. injection Hread' as <-.
    destruct Hbad as [Hnone | Hempty].
    + unfold parseUnityVersion in Hv.
      rewrite split_second, Hnone in Hv. discriminate.
    + congruence.
  - intros cfg w' Hok.
    destruct (getBuildConfiguration_cases UnityBuildTarget h w)
      as [(e & He) | (t & c & v & _ & _ & _ & Hne & _ & Hcfg)].
    + congruence.
    + rewrite Hcfg in Hok. injection Hok as <- <-. exact Hne.
Qed.

(** A ProjectVersion.txt without [':'] makes the resolution throw. *)
Lemma getBuildConfiguration_version_required_witness :
  exists e,
    getBuildConfiguration sampleTargets
      (macHost "/bad" "Android" "unityHub" "default") (sampleWorld [])
    = (inl e, sampleWorld []).
Proof.
  apply (proj1 (getBuildConfiguration_version_required sampleTargets
                  (macHost "/bad" "Android" "unityHub" "default")
                  (sampleWorld [])) "2021.3.1f1"%string);
    [reflexivity | left; reflexivity].
Defined.

(** ** The top-level handler (lines 11-98) *)

Section Run.

Variable UnityBuildTarget : string -> jsval.
Variable getBuildOutputDirectory : jsval -> string.
Variable getUnityEditorBuildScriptContent : UnityBuildConfiguration -> string.
Variable h : Host.

Let tryBlock := body UnityBuildTarget getBuildOutputDirectory
              getUnityEditorBuildScriptContent h.
Let task := run UnityBuildTarget getBuildOutputDirectory
             getUnityEditorBuildScriptContent h.

(** An error thrown in the [try] block becomes one [Failed] result that
    carries the error's message, and [run] itself does not throw. *)
Lemma run_catches (w w' : World) (e : exn) :
  tryBlock w = (inl e, w') ->
  task w = (inr tt, {| fs := fs w'; cwd := cwd w'; variables := variables w';
                      trace := trace w' ++ [SetResult Failed (message h e)] |}).
Proof. intros H. unfold task, run. fold tryBlock. now rewrite H. Qed.

(** When nothing throws, [run] adds nothing to what the [try] block did. *)
Lemma run_passes (w w' : World) :
  tryBlock w = (inr tt, w') -> task w = (inr tt, w').
Proof. intros H. unfold task, run. fold tryBlock. now rewrite H. Qed.

Lemma run_never_throws (w : World) : fst (task w) = inr tt.
Proof.
  unfold task, run. fold tryBlock.
  now destruct (tryBlock w) as [[e|[]] w'].
Qed.

(** When [getUnityEditorsPath] throws, the [try] block throws with the
    world untouched. *)
Lemma body_stops_at_editors_path (w : World) (e : exn) :
  getUnityEditorsPath h w = (inl e, w) ->
  exists e', tryBlock w = (inl e', w).
Proof.
  intros He. unfold tryBlock, body, bind.
  destruct (getBuildConfiguration_cases UnityBuildTarget h w)
    as [(e' & H) | (t & c & v & _ & _ & _ & _ & _ & H)]; rewrite H.
  - now exists e'.
  - rewrite He. now exists e.
Qed.

End Run.

(** C7: in [environmentVariable] mode with
    [UNITYHUB_EDITORS_FOLDER_LOCATION] unset or empty,
    [getUnityEditorsPath] throws and the run ends with a [Failed] result
    and nothing else done: the editor is never launched.  With the
    variable set to a non-empty string, that string is the editors
    path. *)
Theorem getUnityEditorsPath_environmentVariable
    (UnityBuildTarget : string -> jsval)
    (getBuildOutputDirectory : jsval -> string)
    (getUnityEditorBuildScriptContent : UnityBuildConfiguration -> string)
    (h : Host) (w : World) :
  getInput h "unityEditorsPathMode" = Some "environmentVariable"%string ->
  (UNITYHUB_EDITORS_FOLDER_LOCATION h = None
   \/ UNITYHUB_EDITORS_FOLDER_LOCATION h = Some ""%string ->
   getUnityEditorsPath h w
   = (inl (Thrown
        "Expected UNITYHUB_EDITORS_FOLDER_LOCATION environment variable to be set!"),
      w)
   /\ exists msg,
        run UnityBuildTarget getBuildOutputDirectory
          getUnityEditorBuildScriptContent h w
        = (inr tt, {| fs := fs w; cwd := cwd w; variables := variables w;
                      trace := trace w ++ [SetResult Failed msg] |}))
  /\ (forall p,
        UNITYHUB_EDITORS_FOLDER_LOCATION h = Some p -> p <> ""%string ->
        getUnityEditorsPath h w = (inr p, w)).
Proof.
  intros Hmode. split.
  - intros Hunset.
    assert (Hthrow : getUnityEditorsPath h w
      = (inl (Thrown
          "Expected UNITYHUB_EDITORS_FOLDER_LOCATION environment variable to be set!"),
         w)).
    { unfold getUnityEditorsPath, bind, getInputRequired. rewrite Hmode.
      simpl. now destruct Hunset as [-> | ->]. }
    split; [exact Hthrow|].
    destruct (body_stops_at_editors_path UnityBuildTarget
                getBuildOutputDirectory getUnityEditorBuildScriptContent
                h w _ Hthrow) as [e' He'].
    exists (message h e').
    now rewrite (run_catches _ _ _ _ _ _ _ He').
  - intros p Hp Hne.
    unfold getUnityEditorsPath, bind, getInputRequired. rewrite Hmode.
    simpl. rewrite Hp. now eqb_false.
Qed.

(** The sample Mac has no such variable: the run fails at once. *)
Lemma getUnityEditorsPath_environmentVariable_witness :
  exists msg,
    sampleRun (macHost "/repo/game" "Android" "environmentVariable" "default")
      (sampleWorld sampleVariables)
    = (inr tt,
       {| fs := fs (sampleWorld sampleVariables);
          cwd := cwd (sampleWorld sampleVariables);
          variables := variables (sampleWorld sampleVariables);
          trace := [SetResult Failed msg] |}).
Proof.
  apply (proj1 (getUnityEditorsPath_environmentVariable sampleTargets
                  sampleOutputDirectory sampleScript
                  (macHost "/repo/game" "Android" "environmentVariable" "default")
                  (sampleWorld sampleVariables) eq_refl)).
  left. reflexivity.
Defined.

(** C10: every mode other than [unityHub] and [environmentVariable]
    resolves through the [customUnityEditorsPath] input, which is
    returned when it is not empty and whose absence throws; [unityHub]
    mode returns a fixed path for the platform whatever the file system
    holds. *)
Theorem getUnityEditorsPath_other_modes (h : Host) (w : World) (mode : string) :
  getInputRequired h "unityEditorsPathMode" w = (inr mode, w) ->
  (mode <> "unityHub"%string -> mode <> "environmentVariable"%string ->
   getUnityEditorsPath h w =
   match getInput h "customUnityEditorsPath" with
   | Some customPath =>
       if String.eqb customPath ""
       then (inl (Thrown
         "Expected custom editors folder location to be set. Please the task configuration."),
         w)
       else (inr customPath, w)
   | None =>
       (inl (Thrown
         "Expected custom editors folder location to be set. Please the task configuration."),
        w)
   end)
  /\ (mode = "unityHub"%string ->
      getUnityEditorsPath h w =
      (inr (if String.eqb (platform h) "win32"
            then path_join h ["C:"; "Program Files"; "Unity"; "Hub"; "Editor"]
            else path_join h ["/"; "Applications"; "Unity"; "Hub"; "Editor"])%string,
       w)).
Proof.
  intros Hmode. split.
  - intros Hhub Henv. unfold getUnityEditorsPath, bind. rewrite Hmode.
    eqb_false. destruct (getInput h "customUnityEditorsPath") as [p|];
      [|reflexivity].
    now destruct (String.eqb p "").
  - intros ->. unfold getUnityEditorsPath, bind. rewrite Hmode. reflexivity.
Qed.

(** A mode the task does not name falls back to the custom path. *)
Lemma getUnityEditorsPath_other_modes_witness :
  getUnityEditorsPath (macHost "/repo/game" "Android" "somethingElse" "default")
    (sampleWorld [])
  = (inr "/Applications/Unity/Hub/Editor"%string, sampleWorld []).
Proof.
  apply (proj1 (getUnityEditorsPath_other_modes
                  (macHost "/repo/game" "Android" "somethingElse" "default")
                  (sampleWorld []) "somethingElse" eq_refl));
    discriminate.
Defined.

(** ** The build output directory (lines 22-35) *)

Lemma loc_eqb_eq (a b : loc) : loc_eqb a b = true <-> a = b.
Proof.
  revert b; induction a as [|x a IH]; intros [|y b]; simpl;
    try (split; [discriminate | congruence]); [tauto|].
  rewrite andb_true_iff, String.eqb_eq, IH.
  split; [intros [-> ->]; reflexivity | intros H; injection H; auto].
Qed.

Lemma isPrefix_refl (a : loc) : isPrefix a a = true.
Proof. induction a; simpl; [reflexivity|]. now rewrite String.eqb_refl. Qed.

Lemma isPrefix_antisym (a b : loc) :
  isPrefix a b = true -> isPrefix b a = true -> a = b.
Proof.
  revert b; induction a as [|x a IH]; intros [|y b]; simpl;
    try discriminate; [reflexivity|].
  rewrite !andb_true_iff, !String.eqb_eq.
  intros [-> Hab] [_ Hba]. f_equal. now apply IH.
Qed.

Lemma isBelow_not_above (a b : loc) :
  isBelow a b = true -> isPrefix b a = false.
Proof.
  unfold isBelow. rewrite andb_true_iff, negb_true_iff.
  intros [Hab Hne]. destruct (isPrefix b a) eqn:Hba; [|reflexivity].
  rewrite (proj2 (loc_eqb_eq a b) (isPrefix_antisym _ _ Hab Hba)) in Hne.
  discriminate.
Qed.

Lemma ancestors_above (l q : loc) : In q (ancestors l) -> isPrefix q l = true.
Proof.
  revert q; induction l as [|x l IH]; intros q; simpl.
  - intros [<- | []]. reflexivity.
  - intros [<- | H]; [reflexivity|].
    apply in_map_iff in H as (q' & <- & Hq'). simpl.
    rewrite String.eqb_refl. now apply IH.
Qed.

Lemma no_file_above (f : FileSystem) (l : loc) :
  (forall q, isPrefix q l = true -> isFile (f q) = false) ->
  existsb (fun q => isFile (f q)) (ancestors l) = false.
Proof.
  intros H. destruct (existsb _ _) eqn:E; [|reflexivity].
  apply existsb_exists in E as (q & Hin & Hfile).
  rewrite (H q (ancestors_above _ _ Hin)) in Hfile. discriminate.
Qed.

Section BuildOutput.

Variable getBuildOutputDirectory : jsval -> string.
Variable h : Host.
Variable cfg : UnityBuildConfiguration.

Let full : string := fullBuildOutputPath getBuildOutputDirectory h cfg.

(** The file system after the optional [removeSync]. *)
Let cleaned (w : World) : FileSystem :=
  if isString (variables w "Build.Repository.Clean") "true"
  then fs_remove (locate h (cwd w) full) (fs w)
  else fs w.

(** What a preparation that returns has done. *)
Lemma prepareBuildOutput_returns (w w' : World) (repo : string) :
  prepareBuildOutput getBuildOutputDirectory h cfg w = (inr repo, w') ->
  variables w "Build.Repository.LocalPath" = Some repo
  /\ full <> ""%string
  /\ existsb (fun q => isFile (cleaned w q))
       (ancestors (locate h (cwd w) full)) = false
  /\ w' = {| fs := fs_mkdirs (locate h (cwd w) full) (cleaned w);
             cwd := cwd w;
             variables := fun k =>
               if String.eqb k "buildOutputPath"
               then Some (substr full
                            (Z.of_nat (String.length repo) + 1) None)
               else variables w k;
             trace := trace w ++
               [SetVariable "buildOutputPath"
                  (substr full (Z.of_nat (String.length repo) + 1) None)] |}.
Proof.
  unfold prepareBuildOutput, cleaned. fold full.
  unfold bind at 1, getVariable at 1. unfold bind at 1, getVariable at 1.
  intros H.
  set (l := locate h (cwd w) full) in *.
  assert (Hclean : exists w1,
    (if isString (variables w "Build.Repository.Clean") "true"
     then removeSync h full else ret tt) w = (inr tt, w1)
    /\ cwd w1 = cwd w /\ variables w1 = variables w /\ trace w1 = trace w
    /\ fs w1 = (if isString (variables w "Build.Repository.Clean") "true"
                then fs_remove l (fs w) else fs w)).
  { destruct (isString _ _); eexists; split; try reflexivity; now repeat split. }
  destruct Hclean as (w1 & Hw1 & Hcwd & Hvars & Htrace & Hfs).
  unfold bind at 1 in H. rewrite Hw1 in H.
  unfold bind at 1, mkdirP in H.
  destruct (String.eqb full "") eqn:Hfull; [discriminate|].
  apply String.eqb_neq in Hfull.
  rewrite Hcwd, Hfs in H. fold l in H.
  destruct (existsb _ (ancestors l)) eqn:Hfiles; [discriminate|].
  unfold set_fs in H.
  unfold bind at 1, checkPath in H. cbn [fs cwd] in H. rewrite Hcwd in H.
  fold l in H.
  destruct (_ && _); [|discriminate].
  destruct (variables w "Build.Repository.LocalPath") as [r|]; [|discriminate].
  unfold bind, setVariable, ret in H. cbn [fs cwd variables trace] in H.
  injection H as <- <-. rewrite Hvars, Htrace.
  now repeat split.
Qed.

(** A preparation that finds no file in its way returns. *)
Lemma prepareBuildOutput_total (w : World) (repo : string) :
  variables w "Build.Repository.LocalPath" = Some repo ->
  full <> ""%string ->
  (forall q, isPrefix q (locate h (cwd w) full) = true ->
             isFile (fs w q) = false) ->
  exists w', prepareBuildOutput getBuildOutputDirectory h cfg w = (inr repo, w').
Proof.
  intros Hrepo Hfull Hfiles.
  unfold prepareBuildOutput. fold full.
  unfold bind at 1, getVariable at 1. unfold bind at 1, getVariable at 1.
  rewrite Hrepo.
  set (l := locate h (cwd w) full) in *.
  assert (Hclean : exists w1,
    (if isString (variables w "Build.Repository.Clean") "true"
     then removeSync h full else ret tt) w = (inr tt, w1)
    /\ cwd w1 = cwd w
    /\ forall q, isPrefix q l = true -> isFile (fs w1 q) = false).
  { destruct (isString _ _); eexists; split; try reflexivity;
      (split; [reflexivity|]); [|exact Hfiles].
    intros q Hq. simpl. unfold fs_remove. fold l.
    destruct (isPrefix l q); [reflexivity | now apply Hfiles]. }
  destruct Hclean as (w1 & Hw1 & Hcwd & Hfiles1).
  unfold bind at 1. rewrite Hw1.
  unfold bind at 1, mkdirP. eqb_false. rewrite Hcwd. fold l.
  rewrite (no_file_above _ _ Hfiles1).
  unfold set_fs, bind at 1, checkPath. cbn [fs cwd]. eqb_false.
  rewrite Hcwd. fold l. unfold fs_mkdirs at 1. rewrite isPrefix_refl.
  simpl. unfold bind, setVariable, ret. now eexists.
Qed.

End BuildOutput.

(** C6: a preparation that returns leaves a directory at the build output
    path, whatever was there before, and an empty one when
    [Build.Repository.Clean] is ['true']; it returns whenever no file is in
    the way of the directory (a directory already there is not); and the
    validation that follows the creation throws when the path is
    missing. *)
Theorem prepareBuildOutput_directory
    (getBuildOutputDirectory : jsval -> string) (h : Host)
    (cfg : UnityBuildConfiguration) (w : World) :
  let full := fullBuildOutputPath getBuildOutputDirectory h cfg in
  let l := locate h (cwd w) full in
  (forall repo w',
     prepareBuildOutput getBuildOutputDirectory h cfg w = (inr repo, w') ->
     fs w' l = Some Dir
     /\ (variables w "Build.Repository.Clean" = Some "true"%string ->
         forall q, isBelow l q = true -> fs w' q = None))
  /\ (forall repo,
        variables w "Build.Repository.LocalPath" = Some repo ->
        full <> ""%string ->
        (forall q, isPrefix q l = true -> isFile (fs w q) = false) ->
        exists w',
          prepareBuildOutput getBuildOutputDirectory h cfg w = (inr repo, w'))
  /\ (forall w1,
        fs w1 (locate h (cwd w1) full) = None ->
        checkPath h full "Build Output Directory" w1
        = (inl (Raised (PathNotFound "Build Output Directory" full)), w1)).
Proof.
  intros full l. split; [|split].
  - intros repo w' H.
    apply prepareBuildOutput_returns in H as (_ & _ & _ & ->).
    fold full l. cbn [fs]. split.
    + unfold fs_mkdirs. now rewrite isPrefix_refl.
    + intros Hclean q Hq. unfold fs_mkdirs.
      rewrite (isBelow_not_above _ _ Hq), Hclean. simpl.
      unfold fs_remove. unfold isBelow in Hq.
      apply andb_true_iff in Hq as [-> _]. reflexivity.
  - intros repo Hrepo Hfull Hfiles.
    now apply prepareBuildOutput_total.
  - intros w1 Hmissing. unfold checkPath. rewrite Hmissing.
    now rewrite andb_false_r.
Qed.

(** The stale [old.apk] of the sample checkout is gone afterwards. *)
Lemma prepareBuildOutput_directory_witness :
  let r := prepareBuildOutput sampleOutputDirectory
             (macHost "/repo/game" "Android" "unityHub" "default")
             (sampleConfiguration "/repo/game")
             (sampleWorld sampleVariables) in
  fst r = inr "/repo"%string
  /\ fs (sampleWorld sampleVariables) ["repo"; "game"; "Builds"; "old.apk"]%string
     = Some (File "stale")
  /\ fs (snd r) ["repo"; "game"; "Builds"]%string = Some Dir
  /\ fs (snd r) ["repo"; "game"; "Builds"; "old.apk"]%string = None.
Proof.
  cbv zeta.
  set (h := macHost "/repo/game" "Android" "unityHub" "default").
  set (cfg := sampleConfiguration "/repo/game").
  set (w := sampleWorld sampleVariables).
  set (r := prepareBuildOutput sampleOutputDirectory h cfg w).
  assert (Hr : r = (inr "/repo"%string, snd r)) by reflexivity.
  destruct (proj1 (prepareBuildOutput_directory sampleOutputDirectory h cfg w)
              "/repo"%string (snd r) Hr) as [Hdir Hempty].
  split; [reflexivity | split; [reflexivity | split; [exact Hdir|]]].
  apply (Hempty eq_refl). reflexivity.
Defined.

Lemma take_all (s : string) : take (String.length s) s = s.
Proof. induction s; simpl; congruence. Qed.

Lemma substr_after_prefix (root : string) (c : ascii) (rest : string) :
  substr (root ++ String c rest) (Z.of_nat (String.length root) + 1) None = rest.
Proof.
  unfold substr. cbv zeta.
  rewrite length_append. simpl String.length.
  set (n := String.length root). set (k := String.length rest).
  replace (Z.of_nat n + 1 <? 0)%Z with false by (symmetry; apply Z.ltb_ge; lia).
  rewrite (Z.min_l (Z.of_nat n + 1)) by lia.
  rewrite Z.min_r by lia.
  replace (Z.to_nat (Z.of_nat (n + S k) - (Z.of_nat n + 1))) with k by lia.
  replace (Z.to_nat (Z.of_nat n + 1)) with (S n) by lia.
  replace (drop (S n) (root ++ String c rest)) with rest.
  - apply take_all.
  - subst n. clear k. induction root; simpl; [reflexivity | assumption].
Qed.

(** C2, as amended: a preparation that returns sets [buildOutputPath] to
    the full build output path without its first [length root + 1]
    characters, [root] being [Build.Repository.LocalPath]; when the full
    path is the root, one more character and a remainder, the variable
    holds that remainder. *)
Theorem prepareBuildOutput_variable
    (getBuildOutputDirectory : jsval -> string) (h : Host)
    (cfg : UnityBuildConfiguration) (w w' : World) (root : string) :
  prepareBuildOutput getBuildOutputDirectory h cfg w = (inr root, w') ->
  let full := fullBuildOutputPath getBuildOutputDirectory h cfg in
  let value := substr full (Z.of_nat (String.length root) + 1) None in
  variables w "Build.Repository.LocalPath" = Some root
  /\ trace w' = trace w ++ [SetVariable "buildOutputPath" value]
  /\ variables w' "buildOutputPath" = Some value
  /\ (forall c rest, full = (root ++ String c rest)%string -> value = rest).
Proof.
  intros H full value.
  apply prepareBuildOutput_returns in H as (Hroot & _ & _ & ->).
  repeat split; try assumption.
  intros c rest Hfull. subst value. rewrite Hfull.
  apply substr_after_prefix.
Qed.

(** A project inside the checkout: [game/Builds], which is the output
    directory relative to [/repo]. *)
Lemma prepareBuildOutput_variable_witness :
  let h := macHost "/repo/game" "Android" "unityHub" "default" in
  let r := prepareBuildOutput sampleOutputDirectory h
             (sampleConfiguration "/repo/game")
             (sampleWorld sampleVariables) in
  variables (snd r) "buildOutputPath" = Some "game/Builds"%string
  /\ Spec.relativeTo h "/repo" "/repo/game/Builds" "game/Builds".
Proof.
  cbv zeta.
  set (h := macHost "/repo/game" "Android" "unityHub" "default").
  set (cfg := sampleConfiguration "/repo/game").
  set (w := sampleWorld sampleVariables).
  set (r := prepareBuildOutput sampleOutputDirectory h cfg w).
  assert (Hr : r = (inr "/repo"%string, snd r)) by reflexivity.
  destruct (prepareBuildOutput_variable sampleOutputDirectory h cfg w (snd r)
              "/repo"%string Hr) as (_ & _ & Hvar & Hrest).
  split; [|reflexivity].
  rewrite Hvar. now rewrite (Hrest "/"%char "game/Builds"%string eq_refl).
Defined.

(** C2 as stated fails for a project outside the repository root: the
    variable holds the tail of the output path, which does not lead from
    the root to the output directory. *)
Lemma prepareBuildOutput_outside_repository :
  let h := macHost "/work/game" "Android" "unityHub" "default" in
  let cfg := sampleConfiguration "/work/game" in
  let r := prepareBuildOutput sampleOutputDirectory h cfg
             (sampleWorld sampleVariables) in
  fst r = inr "/repo"%string
  /\ fullBuildOutputPath sampleOutputDirectory h cfg = "/work/game/Builds"%string
  /\ variables (snd r) "buildOutputPath" = Some "game/Builds"%string
  /\ ~ Spec.relativeTo h "/repo" "/work/game/Builds" "game/Builds".
Proof.
  cbv zeta.
  split; [reflexivity | split; [reflexivity | split; [reflexivity|]]].
  unfold Spec.relativeTo. intros H. vm_compute in H. discriminate H.
Qed.

(** ** The command line (lines 37-86) *)

Lemma getInputRequired_some (h : Host) (name value : string) (w : World) :
  getInput h name = Some value -> value <> ""%string ->
  getInputRequired h name w = (inr value, w).
Proof.
  intros H Hne. unfold getInputRequired. rewrite H. now eqb_false.
Qed.

(** One statement of a sequence that did not throw. *)
Ltac step H :=
  match type of H with
  | bind ?m ?k ?w = _ =>
      let E := fresh "E" in
      unfold bind at 1 in H;
      destruct (m w) as [[?|?] ?] eqn:E; [discriminate H|]
  end.

Lemma set_fs_silent (f : FileSystem) : silent (set_fs f).
Proof. intros w r w' H. inversion H. now split. Qed.

Lemma mkdirP_silent (h : Host) (p : string) : silent (mkdirP h p).
Proof.
  intros w r w' H. unfold mkdirP in H.
  destruct (String.eqb p ""); [inversion H; now split|].
  destruct (existsb _ _); inversion H; now split.
Qed.

Lemma removeSync_silent (h : Host) (p : string) : silent (removeSync h p).
Proof. intros w r w' H. inversion H. now split. Qed.

Lemma checkPath_silent (h : Host) (p name : string) : silent (checkPath h p name).
Proof.
  intros w r w' H. unfold checkPath in H.
  destruct (_ && _); inversion H; now split.
Qed.

Lemma cd_silent (h : Host) (p : option string) : silent (cd h p).
Proof.
  intros w r w' H. unfold cd in H.
  destruct p as [p|]; [|inversion H; now split].
  destruct (String.eqb p ""); [inversion H; now split|].
  destruct (fs w _) as [[c|]|]; inversion H; now split.
Qed.

Lemma tool_silent (h : Host) (p : string) : silent (tool h p).
Proof.
  intros w r w' H. unfold tool in H.
  destruct (String.eqb p ""); [inversion H; now split|].
  destruct (which h (fs w) p); inversion H; now split.
Qed.

Lemma writeFile_silent (h : Host) (file data : string) :
  silent (writeFile h file data).
Proof.
  intros w r w' H. unfold writeFile in H.
  destruct (isDir (fs w (locate h (cwd w) file))); [inversion H; now split|].
  destruct (isDir _); inversion H; now split.
Qed.

Lemma silent_bind {A B} (m : M A) (k : A -> M B) :
  silent m -> (forall a, silent (k a)) -> silent (bind m k).
Proof.
  intros Hm Hk w r w' H. unfold bind in H.
  destruct (m w) as [[e|a] w1] eqn:E; destruct (Hm _ _ _ E) as [Ht Hv].
  - inversion H; subst. now split.
  - destruct (Hk a _ _ _ H) as [Ht' Hv']. split; congruence.
Qed.

Lemma bind_inv {A B} (m : M A) (k : A -> M B) (w w' : World) (r : exn + B) :
  bind m k w = (r, w') ->
  (exists e, m w = (inl e, w') /\ r = inl e)
  \/ (exists a w1, m w = (inr a, w1) /\ k a w1 = (r, w')).
Proof.
  unfold bind. destruct (m w) as [[e|a] w1]; intros H.
  - left. exists e. now inversion H.
  - right. now exists a, w1.
Qed.

Lemma mkdirP_returns (h : Host) (p : string) (w w' : World) (u : unit) :
  mkdirP h p w = (inr u, w') ->
  p <> ""%string
  /\ w' = {| fs := fs_mkdirs (locate h (cwd w) p) (fs w); cwd := cwd w;
             variables := variables w; trace := trace w |}.
Proof.
  unfold mkdirP. destruct (String.eqb p "") eqn:E; [discriminate|].
  apply String.eqb_neq in E.
  destruct (existsb _ _); [discriminate|].
  unfold set_fs. intros H. injection H as _ <-. now split.
Qed.

Lemma cd_returns (h : Host) (path : option string) (w w' : World) (u : unit) :
  cd h path w = (inr u, w') ->
  w' = {| fs := fs w; cwd := cdTarget h (cwd w) path;
          variables := variables w; trace := trace w |}
  /\ forall p, path = Some p -> p <> ""%string ->
               fs w (locate h (cwd w) p) = Some Dir.
Proof.
  unfold cd, cdTarget. destruct path as [p|].
  - destruct (String.eqb p "") eqn:E.
    + intros H. injection H as _ <-. split; [now destruct w|].
      intros q Hq Hne. injection Hq as <-. apply String.eqb_neq in Hne.
      congruence.
    + destruct (fs w (locate h (cwd w) p)) as [[c|]|] eqn:Ef; try discriminate.
      intros H. injection H as _ <-. split; [reflexivity|].
      intros q Hq _. now injection Hq as <-.
  - intros H. injection H as _ <-. split; [now destruct w | discriminate].
Qed.

Lemma writeFile_returns (h : Host) (file data : string) (w w' : World)
    (u : unit) :
  writeFile h file data w = (inr u, w') ->
  w' = {| fs := fs_write (locate h (cwd w) file) data (fs w); cwd := cwd w;
          variables := variables w; trace := trace w |}.
Proof.
  unfold writeFile. destruct (isDir (fs w _)); [discriminate|].
  destruct (isDir _); [|discriminate].
  unfold set_fs. intros H. now injection H as _ <-.
Qed.

Lemma calls_arg (v : jsval) (t : ToolRunner) :
  calls (arg v t) = calls t ++ [Arg v].
Proof. reflexivity. Qed.

Lemma loc_eqb_refl (l : loc) : loc_eqb l l = true.
Proof. now apply loc_eqb_eq. Qed.

Section Command.

Variable UnityBuildTarget : string -> jsval.
Variable getUnityEditorBuildScriptContent : UnityBuildConfiguration -> string.
Variable h : Host.
Variable cfg : UnityBuildConfiguration.
Variables unityEditorDirectory repositoryLocalPath : string.

Let exe : string := unityExecutablePath h unityEditorDirectory.
Let assets : string :=
  path_join h [template (projectPath cfg); "Assets"; "Editor"]%string.

(** Lines 41-46, by what [which] finds. *)
Lemma mandatoryCommand_outcome (w : World) :
  mandatoryCommand UnityBuildTarget h cfg unityEditorDirectory w =
  if String.eqb exe "" then (inl (Raised (ParameterRequired "toolPath")), w)
  else match which h (fs w) exe with
       | Some resolved =>
           (inr {| toolPath := resolved;
                   calls := mandatoryCalls UnityBuildTarget cfg |}, w)
       | None => (inl (Raised (ExecutableNotFound exe)), w)
       end.
Proof.
  unfold mandatoryCommand, bind, tool. fold exe.
  destruct (String.eqb exe ""); [reflexivity|].
  now destruct (which h (fs w) exe).
Qed.

Lemma mandatoryCommand_returns (w w' : World) (t : ToolRunner) :
  mandatoryCommand UnityBuildTarget h cfg unityEditorDirectory w = (inr t, w') ->
  w' = w /\ exe <> ""%string
  /\ which h (fs w) exe = Some (toolPath t)
  /\ calls t = mandatoryCalls UnityBuildTarget cfg.
Proof.
  rewrite mandatoryCommand_outcome.
  destruct (String.eqb exe "") eqn:E; [discriminate|].
  apply String.eqb_neq in E.
  destruct (which h (fs w) exe); [|discriminate].
  intros H. injection H as <- <-. now repeat split.
Qed.

Lemma mandatoryCommand_reads_only (w w' : World) (r : exn + ToolRunner) :
  mandatoryCommand UnityBuildTarget h cfg unityEditorDirectory w = (r, w') ->
  w' = w.
Proof.
  rewrite mandatoryCommand_outcome.
  destruct (String.eqb exe ""); [intros H; now inversion H|].
  destruct (which h (fs w) exe); intros H; now inversion H.
Qed.

(** The [else] branch of line 82, with the executable in place. *)
Lemma buildUnityCommand_else_branch (mode : string) (w : World)
    (mandatory : ToolRunner) :
  mandatoryCommand UnityBuildTarget h cfg unityEditorDirectory w
  = (inr mandatory, w) ->
  getInput h "commandLineArgumentsMode" = Some mode ->
  mode <> ""%string -> mode <> "default"%string ->
  buildUnityCommand UnityBuildTarget getUnityEditorBuildScriptContent h cfg
    unityEditorDirectory repositoryLocalPath w
  = (inr (line (js (getInput h "customCommandLineArguments")) mandatory), w).
Proof.
  intros Hm Hmode Hne Hdefault. unfold buildUnityCommand. unfold bind at 1.
  rewrite Hm. unfold bind.
  rewrite (getInputRequired_some h _ _ w Hmode Hne).
  now rewrite (proj2 (String.eqb_neq _ _) Hdefault).
Qed.

(** Without the executable nothing is built, whatever the mode. *)
Lemma buildUnityCommand_without_executable (w : World) (e : exn) :
  mandatoryCommand UnityBuildTarget h cfg unityEditorDirectory w = (inl e, w) ->
  buildUnityCommand UnityBuildTarget getUnityEditorBuildScriptContent h cfg
    unityEditorDirectory repositoryLocalPath w = (inl e, w).
Proof. intros Hm. unfold buildUnityCommand. unfold bind at 1. now rewrite Hm. Qed.

(** What a default-mode command that is returned has done on the way. *)
Lemma buildUnityCommand_default_returns (w w' : World) (unityCmd : ToolRunner) :
  getInput h "commandLineArgumentsMode" = Some "default"%string ->
  buildUnityCommand UnityBuildTarget getUnityEditorBuildScriptContent h cfg
    unityEditorDirectory repositoryLocalPath w = (inr unityCmd, w') ->
  exists mandatory,
    mandatoryCommand UnityBuildTarget h cfg unityEditorDirectory w
    = (inr mandatory, w)
    /\ let before := defaultModeCommand h mandatory in
       let editorFolder := locate h (cwd w) assets in
       let script := locate h editorFolder "AzureDevOps.cs" in
       let written :=
         fs_write script (getUnityEditorBuildScriptContent cfg)
           (fs_mkdirs editorFolder (fs w)) in
       fs w' = written
       /\ cwd w' = cdTarget h editorFolder (projectPath cfg)
       /\ (forall p, projectPath cfg = Some p -> p <> ""%string ->
                     written (locate h editorFolder p) = Some Dir)
       /\ match getInput h "logFileName" with
          | Some logFileName =>
              if negb (String.eqb logFileName "")
              then unityCmd
                   = arg (JString (path_join h [repositoryLocalPath; logFileName]))
                       (arg (JString "-logfile") before)
                   /\ trace w' = trace w ++
                        [SetVariable "editorLogFilePath"
                           (path_join h [repositoryLocalPath; logFileName])]
                   /\ variables w' "editorLogFilePath"
                      = Some (path_join h [repositoryLocalPath; logFileName])
              else unityCmd = before /\ trace w' = trace w
                     /\ variables w' = variables w
          | None => unityCmd = before /\ trace w' = trace w
                    /\ variables w' = variables w
          end.
Proof.
  intros Hmode Hrun.
  unfold buildUnityCommand in Hrun. step Hrun.
  pose proof (mandatoryCommand_reads_only _ _ _ E) as Hw. subst w0.
  exists t. split; [reflexivity|]. cbv zeta.
  unfold bind at 1 in Hrun.
  rewrite (getInputRequired_some h _ _ w Hmode) in Hrun by discriminate.
  rewrite String.eqb_refl in Hrun. fold assets in Hrun.
  step Hrun. step Hrun. step Hrun. step Hrun.
  apply mkdirP_returns in E0 as [Hassets ->].
  unfold cd at 1 in E1. rewrite (proj2 (String.eqb_neq _ _) Hassets) in E1.
  cbn [fs cwd variables trace] in E1.
  unfold fs_mkdirs at 1 in E1. rewrite isPrefix_refl in E1.
  injection E1 as _ <-.
  apply writeFile_returns in E2 as ->. cbn [fs cwd variables trace] in *.
  apply cd_returns in E3 as [-> Hproject]. cbn [fs cwd variables trace] in *.
  fold (defaultModeCommand h t) in Hrun.
  split; [|split; [|split; [exact Hproject|]]].
  - destruct (getInput h "logFileName") as [name|];
      [destruct (negb (String.eqb name ""))|];
      unfold bind, setVariable, ret in Hrun; now injection Hrun as _ <-.
  - destruct (getInput h "logFileName") as [name|];
      [destruct (negb (String.eqb name ""))|];
      unfold bind, setVariable, ret in Hrun; now injection Hrun as _ <-.
  - destruct (getInput h "logFileName") as [name|].
    + destruct (negb (String.eqb name "")).
      * unfold bind, setVariable, ret in Hrun. injection Hrun as <- <-.
        cbn [trace variables]. now rewrite String.eqb_refl.
      * unfold ret in Hrun. injection Hrun as <- <-. now repeat split.
    + unfold ret in Hrun. injection Hrun as <- <-. now repeat split.
Qed.

End Command.

(** C5: in custom mode, with the editor executable in place, the command
    is the three mandatory flag groups followed by the custom argument
    string and by nothing else, whatever the boolean inputs and the
    log-file input are; nothing is written and no variable is set.
    Without the executable no command is assembled: [tl.tool] throws. *)
Theorem buildUnityCommand_custom
    (UnityBuildTarget : string -> jsval)
    (getUnityEditorBuildScriptContent : UnityBuildConfiguration -> string)
    (h : Host) (cfg : UnityBuildConfiguration)
    (unityEditorDirectory repositoryLocalPath : string) (w : World) :
  getInput h "commandLineArgumentsMode" = Some "custom"%string ->
  unityExecutablePath h unityEditorDirectory <> ""%string ->
  (forall resolved,
     which h (fs w) (unityExecutablePath h unityEditorDirectory) = Some resolved ->
     exists unityCmd,
       buildUnityCommand UnityBuildTarget getUnityEditorBuildScriptContent h cfg
         unityEditorDirectory repositoryLocalPath w = (inr unityCmd, w)
       /\ toolPath unityCmd = resolved
       /\ calls unityCmd
          = [ Arg (JString "-batchmode");
              Arg (JString "-buildTarget");
              Arg (UnityBuildTarget (propertyKey (buildTarget cfg)));
              Arg (JString "-projectPath");
              Arg (js (projectPath cfg));
              Line (js (getInput h "customCommandLineArguments")) ]
       /\ argv unityCmd
          = [Argument "-batchmode"; Argument "-buildTarget"]
            ++ pieces (Arg (UnityBuildTarget (propertyKey (buildTarget cfg))))
            ++ [Argument "-projectPath"]
            ++ pieces (Arg (js (projectPath cfg)))
            ++ pieces (Line (js (getInput h "customCommandLineArguments"))))
  /\ (which h (fs w) (unityExecutablePath h unityEditorDirectory) = None ->
      buildUnityCommand UnityBuildTarget getUnityEditorBuildScriptContent h cfg
        unityEditorDirectory repositoryLocalPath w
      = (inl (Raised (ExecutableNotFound
                        (unityExecutablePath h unityEditorDirectory))), w)).
Proof.
  intros Hmode Hexe. apply String.eqb_neq in Hexe. split.
  - intros resolved Hwhich. eexists. split; [|split; [|split]].
    + apply (buildUnityCommand_else_branch _ _ _ _ _ _ "custom");
        [|assumption|discriminate|discriminate].
      rewrite mandatoryCommand_outcome, Hexe, Hwhich. reflexivity.
    + reflexivity.
    + reflexivity.
    + unfold argv, line, mandatoryCalls. cbn [calls].
      rewrite flat_map_app. cbn [flat_map app].
      change (pieces (Arg (JString "-batchmode"))) with [Argument "-batchmode"].
      change (pieces (Arg (JString "-buildTarget")))
        with [Argument "-buildTarget"].
      change (pieces (Arg (JString "-projectPath")))
        with [Argument "-projectPath"].
      cbn [app]. now rewrite !app_nil_r, <- ?app_assoc.
  - intros Hwhich. apply buildUnityCommand_without_executable.
    now rewrite mandatoryCommand_outcome, Hexe, Hwhich.
Qed.

(** The specification's example: ["-quit -batchmode"] after the mandatory
    flags. *)
Lemma buildUnityCommand_custom_witness :
  exists unityCmd,
    buildUnityCommand sampleTargets sampleScript
      (macHost "/repo/game" "Android" "unityHub" "custom")
      (sampleConfiguration "/repo/game")
      "/Applications/Unity/Hub/Editor/2021.3.1f1" "/repo"
      (sampleWorld sampleVariables)
    = (inr unityCmd, sampleWorld sampleVariables)
    /\ calls unityCmd
       = [ Arg (JString "-batchmode");
           Arg (JString "-buildTarget");
           Arg (JString "Android");
           Arg (JString "-projectPath");
           Arg (JString "/repo/game");
           Line (JString "-quit -batchmode") ]
    /\ argv unityCmd
       = [ Argument "-batchmode"; Argument "-buildTarget"; Argument "Android";
           Argument "-projectPath"; Argument "/repo/game";
           ArgumentsOf "-quit -batchmode" ].
Proof.
  destruct (proj1 (buildUnityCommand_custom sampleTargets sampleScript
                     (macHost "/repo/game" "Android" "unityHub" "custom")
                     (sampleConfiguration "/repo/game")
                     "/Applications/Unity/Hub/Editor/2021.3.1f1" "/repo"
                     (sampleWorld sampleVariables) eq_refl ltac:(discriminate))
              _ eq_refl)
    as (unityCmd & Hrun & _ & Hcalls & Hargv).
  exists unityCmd. split; [exact Hrun|]. split; [exact Hcalls | exact Hargv].
Defined.

(** C8: in default mode, when the command is built after the output
    directory has been prepared, the repository root is the value of
    [Build.Repository.LocalPath]; a non-empty [logFileName] appends
    [-logfile] and the root joined with that name, and records the same
    path in [editorLogFilePath]; without a log file name nothing is
    appended and no variable is set. *)
Theorem buildUnityCommand_logfile
    (UnityBuildTarget : string -> jsval)
    (getBuildOutputDirectory : jsval -> string)
    (getUnityEditorBuildScriptContent : UnityBuildConfiguration -> string)
    (h : Host) (cfg : UnityBuildConfiguration)
    (unityEditorDirectory repositoryLocalPath : string)
    (w w1 w2 : World) (unityCmd : ToolRunner) :
  prepareBuildOutput getBuildOutputDirectory h cfg w
  = (inr repositoryLocalPath, w1) ->
  getInput h "commandLineArgumentsMode" = Some "default"%string ->
  buildUnityCommand UnityBuildTarget getUnityEditorBuildScriptContent h cfg
    unityEditorDirectory repositoryLocalPath w1 = (inr unityCmd, w2) ->
  variables w "Build.Repository.LocalPath" = Some repositoryLocalPath
  /\ exists mandatory,
       mandatoryCommand UnityBuildTarget h cfg unityEditorDirectory w1
       = (inr mandatory, w1)
       /\ let before := defaultModeCommand h mandatory in
          (forall logFileName,
             getInput h "logFileName" = Some logFileName ->
             logFileName <> ""%string ->
             let logFilePath := path_join h [repositoryLocalPath; logFileName] in
             toolPath unityCmd = toolPath before
             /\ calls unityCmd
                = calls before
                  ++ [Arg (JString "-logfile"); Arg (JString logFilePath)]
             /\ trace w2
                = trace w1 ++ [SetVariable "editorLogFilePath" logFilePath]
             /\ variables w2 "editorLogFilePath" = Some logFilePath)
          /\ (getInput h "logFileName" = None
              \/ getInput h "logFileName" = Some ""%string ->
              unityCmd = before /\ trace w2 = trace w1
              /\ variables w2 = variables w1).
Proof.
  intros Hprepare Hmode Hrun.
  apply prepareBuildOutput_returns in Hprepare as (Hroot & _).
  split; [exact Hroot|].
  destruct (buildUnityCommand_default_returns _ _ _ _ _ _ _ _ _ Hmode Hrun)
    as (mandatory & Hmandatory & _ & _ & _ & Hcmd).
  exists mandatory. split; [exact Hmandatory|]. cbv zeta. split.
  - intros name Hlog Hne. rewrite Hlog in Hcmd.
    rewrite (proj2 (String.eqb_neq _ _) Hne) in Hcmd.
    destruct Hcmd as (-> & Htrace & Hvar).
    repeat split; try assumption.
    rewrite !calls_arg. now rewrite <- app_assoc.
  - intros [Hlog | Hlog]; rewrite Hlog in Hcmd; exact Hcmd.
Qed.

(** The specification's example: [build.log] under [/repo]. *)
Lemma buildUnityCommand_logfile_witness :
  let h := macHost "/repo/game" "Android" "unityHub" "default" in
  let cfg := sampleConfiguration "/repo/game" in
  let prepared := prepareBuildOutput sampleOutputDirectory h cfg
                    (sampleWorld sampleVariables) in
  let r := buildUnityCommand sampleTargets sampleScript h cfg
             "/Applications/Unity/Hub/Editor/2021.3.1f1" "/repo"
             (snd prepared) in
  variables (sampleWorld sampleVariables) "Build.Repository.LocalPath"
  = Some "/repo"%string
  /\ variables (snd r) "editorLogFilePath" = Some "/repo/build.log"%string
  /\ trace (snd r) = [ SetVariable "buildOutputPath" "game/Builds";
                       SetVariable "editorLogFilePath" "/repo/build.log" ]
  /\ exists t, fst r = inr t
       /\ calls t = [ Arg (JString "-batchmode");
                      Arg (JString "-buildTarget");
                      Arg (JString "Android");
                      Arg (JString "-projectPath");
                      Arg (JString "/repo/game");
                      Arg (JString "-executeMethod");
                      Arg (JString "AzureDevOps.PerformBuild");
                      Arg (JString "-logfile");
                      Arg (JString "/repo/build.log") ].
Proof.
  cbv zeta.
  set (h := macHost "/repo/game" "Android" "unityHub" "default").
  set (cfg := sampleConfiguration "/repo/game").
  set (w := sampleWorld sampleVariables).
  set (prepared := prepareBuildOutput sampleOutputDirectory h cfg w).
  set (r := buildUnityCommand sampleTargets sampleScript h cfg
              "/Applications/Unity/Hub/Editor/2021.3.1f1" "/repo"
              (snd prepared)).
  assert (Hp : prepared = (inr "/repo"%string, snd prepared)) by reflexivity.
  assert (Hfst : exists t, fst r = inr t) by (eexists; reflexivity).
  destruct Hfst as [t Ht].
  assert (Hr : r = (inr t, snd r)) by (rewrite <- Ht; now destruct r).
  assert (Hne : "build.log"%string <> ""%string) by discriminate.
  destruct (buildUnityCommand_logfile sampleTargets sampleOutputDirectory
              sampleScript h cfg
              "/Applications/Unity/Hub/Editor/2021.3.1f1" "/repo"
              w (snd prepared) (snd r) t Hp eq_refl Hr)
    as (Hroot & mandatory & Hmandatory & Hlog & _).
  destruct (Hlog "build.log"%string eq_refl Hne)
    as (_ & Hcalls & Htrace & Hvar).
  split; [exact Hroot|]. split; [exact Hvar|]. split; [rewrite Htrace; reflexivity|].
  exists t. split; [exact Ht|]. rewrite Hcalls.
  injection Hmandatory as <-. reflexivity.
Defined.

(** ** The task result (lines 11-13, 95-97, 157-163) *)

Create HintDb quiet.

Lemma quiet_of_silent {A} (m : M A) : silent m -> quiet m.
Proof.
  intros H w r w' E. exists []. destruct (H _ _ _ E) as [-> _].
  now rewrite app_nil_r.
Qed.

Lemma quiet_ret {A} (a : A) : quiet (ret a).
Proof. intros w r w' E. inversion E. exists []. now rewrite app_nil_r. Qed.

Lemma quiet_throw {A} (e : exn) : quiet (@throw A e).
Proof. intros w r w' E. inversion E. exists []. now rewrite app_nil_r. Qed.

Lemma quiet_bind {A B} (m : M A) (k : A -> M B) :
  quiet m -> (forall a, quiet (k a)) -> quiet (bind m k).
Proof.
  intros Hm Hk w r w' E. unfold bind in E.
  destruct (m w) as [[e|a] w1] eqn:Em; destruct (Hm _ _ _ Em) as (ev1 & H1 & Q1).
  - inversion E; subst. now exists ev1.
  - destruct (Hk a _ _ _ E) as (ev2 & H2 & Q2).
    exists (ev1 ++ ev2). rewrite H2, H1, app_assoc. split; [reflexivity|].
    rewrite existsb_app, Q1, Q2. reflexivity.
Qed.

Lemma quiet_getVariable (name : string) : quiet (getVariable name).
Proof. intros w r w' E. inversion E. exists []. now rewrite app_nil_r. Qed.

Lemma quiet_setVariable (name value : string) : quiet (setVariable name value).
Proof. intros w r w' E. inversion E. now exists [SetVariable name value]. Qed.

Lemma quiet_getInputRequired (h : Host) (name : string) :
  quiet (getInputRequired h name).
Proof.
  unfold getInputRequired. destruct (getInput h name) as [s|];
    [destruct (String.eqb s "")|]; auto using quiet_ret, quiet_throw.
Qed.

Lemma quiet_readFileSync (h : Host) (p : string) : quiet (readFileSync h p).
Proof.
  intros w r w' E. unfold readFileSync in E. exists [].
  rewrite app_nil_r. destruct (fs w _) as [[c|]|]; now inversion E.
Qed.

Lemma quiet_liftE {A} (r : exn + A) : quiet (liftE r).
Proof. destruct r; [apply quiet_throw | apply quiet_ret]. Qed.

Lemma quiet_execSync (h : Host) (t : ToolRunner) : quiet (execSync h t).
Proof.
  intros w r w' E. unfold execSync, bind, emit in E.
  exists [ExecSync t]. destruct (spawn h t); inversion E; now split.
Qed.

#[local] Hint Resolve quiet_ret quiet_throw quiet_getVariable quiet_setVariable
  quiet_getInputRequired quiet_readFileSync quiet_liftE quiet_execSync : quiet.
#[local] Hint Resolve mkdirP_silent removeSync_silent checkPath_silent
  cd_silent writeFile_silent tool_silent : quiet.

(** Works through a sequence of statements, case by case. *)
Ltac quiet_steps :=
  repeat first
    [ apply quiet_bind; [|intros ?]
    | solve [auto with quiet]
    | solve [apply quiet_of_silent; auto with quiet]
    | match goal with
      | |- quiet (if ?b then _ else _) => destruct b
      | |- quiet (match ?x with _ => _ end) => destruct x
      end ].

Section Quiet.

Variable UnityBuildTarget : string -> jsval.
Variable getBuildOutputDirectory : jsval -> string.
Variable getUnityEditorBuildScriptContent : UnityBuildConfiguration -> string.
Variable h : Host.

Lemma quiet_getBuildConfiguration :
  quiet (getBuildConfiguration UnityBuildTarget h).
Proof. unfold getBuildConfiguration. quiet_steps. Qed.

Lemma quiet_getUnityEditorsPath : quiet (getUnityEditorsPath h).
Proof. unfold getUnityEditorsPath. quiet_steps. Qed.

Lemma quiet_checkUnityEditor (cfg : UnityBuildConfiguration) (p : string) :
  quiet (checkUnityEditor h cfg p).
Proof. unfold checkUnityEditor. quiet_steps. Qed.

Lemma quiet_prepareBuildOutput (cfg : UnityBuildConfiguration) :
  quiet (prepareBuildOutput getBuildOutputDirectory h cfg).
Proof. unfold prepareBuildOutput. quiet_steps. Qed.

Lemma quiet_buildUnityCommand (cfg : UnityBuildConfiguration) (d r : string) :
  quiet (buildUnityCommand UnityBuildTarget getUnityEditorBuildScriptContent
           h cfg d r).
Proof. unfold buildUnityCommand, mandatoryCommand. quiet_steps. Qed.

(** The [try] block never sets the task result. *)
Lemma quiet_body :
  quiet (body UnityBuildTarget getBuildOutputDirectory
           getUnityEditorBuildScriptContent h).
Proof.
  unfold body.
  apply quiet_bind; [apply quiet_getBuildConfiguration | intros cfg].
  apply quiet_bind; [apply quiet_getUnityEditorsPath | intros editors].
  apply quiet_bind; [apply quiet_checkUnityEditor | intros directory].
  apply quiet_bind; [apply quiet_prepareBuildOutput | intros root].
  apply quiet_bind; [apply quiet_buildUnityCommand | intros unityCmd].
  apply quiet_execSync.
Qed.

(** Every run sets the task result at most once: one [Failed] result
    with the message of the error when a stage throws, and none at all
    when no stage throws. *)
Lemma run_results (w : World) :
  let r := run UnityBuildTarget getBuildOutputDirectory
             getUnityEditorBuildScriptContent h w in
  match fst (body UnityBuildTarget getBuildOutputDirectory
               getUnityEditorBuildScriptContent h w) with
  | inl err =>
      filter isResult (events_of w r) = [SetResult Failed (message h err)]
  | inr _ => filter isResult (events_of w r) = []
  end.
Proof.
  cbv zeta. unfold run, events_of.
  destruct (body _ _ _ h w) as [[e|[]] w'] eqn:E;
    destruct (quiet_body _ _ _ E) as (events & Ht & Hq); simpl.
  - rewrite Ht, <- app_assoc, skipn_app, skipn_all, Nat.sub_diag. simpl.
    rewrite filter_app. simpl.
    replace (filter isResult events) with (@nil event); [reflexivity|].
    clear -Hq. induction events as [|x l IH]; [reflexivity|].
    simpl in *. apply orb_false_iff in Hq as [-> Hl]. now apply IH.
  - rewrite Ht, skipn_app, skipn_all, Nat.sub_diag. simpl.
    clear -Hq. induction events as [|x l IH]; [reflexivity|].
    simpl in *. apply orb_false_iff in Hq as [-> Hl]. now apply IH.
Qed.

End Quiet.

(** C1 on the sample checkout: every stage succeeds, the editor is run,
    and the task ends without any result having been set;
    [setResultSucceeded] is never called. *)
Theorem run_success_sets_no_result :
  let r := sampleRun (macHost "/repo/game" "Android" "unityHub" "default")
             (sampleWorld sampleVariables) in
  fst (body sampleTargets sampleOutputDirectory sampleScript
         (macHost "/repo/game" "Android" "unityHub" "default")
         (sampleWorld sampleVariables)) = inr tt
  /\ trace (snd r)
     = [ SetVariable "buildOutputPath" "game/Builds";
         SetVariable "editorLogFilePath" "/repo/build.log";
         ExecSync
           {| toolPath :=
                "/Applications/Unity/Hub/Editor/2021.3.1f1/Unity.app/Contents/MacOS/Unity";
              calls := [ Arg (JString "-batchmode");
                         Arg (JString "-buildTarget");
                         Arg (JString "Android");
                         Arg (JString "-projectPath");
                         Arg (JString "/repo/game");
                         Arg (JString "-executeMethod");
                         Arg (JString "AzureDevOps.PerformBuild");
                         Arg (JString "-logfile");
                         Arg (JString "/repo/build.log") ] |} ]
  /\ filter isResult (trace (snd r)) = [].
Proof. cbv zeta. split; [|split]; reflexivity. Qed.

(** * Further properties of the code *)

(** ** The version text (lines 108-117) *)

Lemma find_in_empty (a : ascii) (p : string) : find (String a p) "" = None.
Proof. reflexivity. Qed.

(** Before its first occurrence a word does not occur. *)
Lemma find_take_first (a : ascii) (p s : string) (i : nat) :
  find (String a p) s = Some i -> find (String a p) (take i s) = None.
Proof.
  revert i; induction s as [|c r IH]; intros i H; [discriminate H|].
  destruct (startsWith (String a p) (String c r)) eqn:E.
  - rewrite find_here in H by assumption. now injection H as <-.
  - rewrite find_cons in H by assumption.
    destruct (find (String a p) r) as [j|] eqn:Ej; [|discriminate].
    injection H as <-. simpl take.
    assert (E' : startsWith (String a p) (String c (take j r)) = false).
    { destruct (startsWith (String a p) (String c (take j r))) eqn:E';
        [|reflexivity].
      apply (startsWith_weaken _ _ (drop j r)) in E'.
      simpl append in E'. rewrite take_drop in E'. congruence. }
    rewrite find_cons by assumption. now rewrite (IH j).
Qed.

Lemma trimEnd_idem (s : string) : trimEnd (trimEnd s) = trimEnd s.
Proof.
  induction s as [|c r IH]; [reflexivity|].
  simpl. destruct (trimEnd r) as [|c' r'] eqn:E.
  - destruct (isWhiteSpace c) eqn:Ec; [reflexivity|]. simpl. now rewrite Ec.
  - rewrite trimEnd_cons; rewrite IH; [reflexivity | discriminate].
Qed.

Lemma trimStart_head (s : string) :
  trimStart s = ""%string
  \/ exists c r, trimStart s = String c r /\ isWhiteSpace c = false.
Proof.
  induction s as [|c r IH]; [now left|].
  simpl. destruct (isWhiteSpace c) eqn:E; [exact IH|].
  right. now exists c, r.
Qed.

Lemma trim_idem (s : string) : trim (trim s) = trim s.
Proof.
  unfold trim.
  assert (H : trimStart (trimEnd (trimStart s)) = trimEnd (trimStart s)).
  { destruct (trimStart_head s) as [-> | (c & r & -> & Hc)]; [reflexivity|].
    rewrite trimEnd_cons_solid by assumption. simpl. now rewrite Hc. }
  rewrite H. apply trimEnd_idem.
Qed.

(** The code's arithmetic on [indexOf], read as a case analysis on the
    first occurrence of the marker. *)
Lemma parseUnityVersion_cases (content : string) :
  parseUnityVersion content =
  match nth_error (split ":" content) 1 with
  | None => inl (Raised (UndefinedProperty "trim"))
  | Some piece =>
      match find Spec.revisionMarker (trim piece) with
      | Some i => inr (trim (take i (trim piece)))
      | None => inr (trim piece)
      end
  end.
Proof.
  unfold parseUnityVersion, indexOf.
  destruct (nth_error (split ":" content) 1) as [piece|]; [|reflexivity].
  cbv zeta.
  change "m_EditorVersionWithRevision"%string with Spec.revisionMarker.
  destruct (find Spec.revisionMarker (trim piece)) as [i|] eqn:E; rewrite ?E.
  - replace (Z.of_nat i >? -1)%Z with true by (symmetry; apply Z.gtb_lt; lia).
    rewrite substr_take; [reflexivity|].
    rewrite <- (find_length_take _ _ _ E) at 1.
    rewrite <- (take_drop i (trim piece)) at 2.
    rewrite length_append. lia.
  - reflexivity.
Qed.

(** X1: a version that [parseUnityVersion] returns has no white space at
    either end and does not hold the revision marker, whatever the file
    holds. *)
Theorem parseUnityVersion_clean (content version : string) :
  parseUnityVersion content = inr version ->
  trim version = version
  /\ includes version "m_EditorVersionWithRevision" = false.
Proof.
  rewrite parseUnityVersion_cases. unfold includes.
  change "m_EditorVersionWithRevision"%string with Spec.revisionMarker.
  destruct (nth_error (split ":" content) 1) as [piece|]; [|discriminate].
  destruct (find Spec.revisionMarker (trim piece)) as [i|] eqn:E;
    intros H; injection H as <-.
  - split; [apply trim_idem|].
    unfold Spec.revisionMarker in *.
    now rewrite find_none_trim by (eapply find_take_first; eassumption).
  - split; [apply trim_idem | now rewrite E].
Qed.

Lemma parseUnityVersion_clean_witness :
  trim "2021.3.1f1" = "2021.3.1f1"%string
  /\ includes "2021.3.1f1" "m_EditorVersionWithRevision" = false.
Proof.
  apply (parseUnityVersion_clean sampleProjectVersion). reflexivity.
Defined.

Lemma afterFirstColon_app (key text : string) :
  find ":" key = None ->
  Spec.afterFirstColon (key ++ String ":" text) = Some text.
Proof.
  induction key as [|c key IH]; intros H; [reflexivity|].
  simpl. destruct (Ascii.eqb c ":") eqn:E.
  - apply Ascii.eqb_eq in E; subst c. discriminate H.
  - apply IH. eapply find_none_tail. eassumption.
Qed.

(** X2: what follows the second [':'] of ProjectVersion.txt plays no part
    in the version: the code looks at the piece between the first two
    only. *)
Theorem parseUnityVersion_second_colon (key piece rest : string) :
  find ":" key = None ->
  find ":" piece = None ->
  parseUnityVersion (key ++ String ":" (piece ++ String ":" rest))
  = parseUnityVersion (key ++ String ":" piece).
Proof.
  intros Hkey Hpiece.
  rewrite (parseUnityVersion_piece _ _ (afterFirstColon_app key _ Hkey)).
  rewrite (parseUnityVersion_piece _ _ (afterFirstColon_app key _ Hkey)).
  rewrite (untilSep_app ":" piece _ Hpiece).
  rewrite (untilSep_whole ":" piece Hpiece).
  simpl untilSep. now rewrite append_nil_r.
Qed.

Lemma parseUnityVersion_second_colon_witness :
  parseUnityVersion "m_EditorVersion: 2021.3.1f1
m_EditorVersionWithRevision: 2021.3.1f1 (73bd2d8e1c0a)"
  = parseUnityVersion "m_EditorVersion: 2021.3.1f1
m_EditorVersionWithRevision".
Proof.
  exact (parseUnityVersion_second_colon "m_EditorVersion"
           " 2021.3.1f1
m_EditorVersionWithRevision" " 2021.3.1f1 (73bd2d8e1c0a)" eq_refl eq_refl).
Defined.

(** ** Configuration resolution (lines 100-155) *)

(** X3: [getBuildConfiguration] returns exactly when the [buildTarget]
    input is present, ProjectVersion.txt under the project path is a
    readable file from which a non-empty version is extracted, and the
    target is not [WindowsStoreApps] off Windows; the configuration then
    carries the inputs as they are (missing optional ones stay
    [undefined]) and nothing in the world has changed. *)
Theorem getBuildConfiguration_returns_iff
    (UnityBuildTarget : string -> jsval) (h : Host) (w w' : World)
    (cfg : UnityBuildConfiguration) :
  getBuildConfiguration UnityBuildTarget h w = (inr cfg, w')
  <->
  w' = w
  /\ exists target content version,
       getInput h "buildTarget" = Some target
       /\ target <> ""%string
       /\ fs w (locate h (cwd w)
                  (path_join h [template (getPathInput h "unityProjectPath");
                                "ProjectSettings"; "ProjectVersion.txt"]%string))
          = Some (File content)
       /\ parseUnityVersion content = inr version
       /\ version <> ""%string
       /\ (platform h = "win32"%string
           \/ strictEq (UnityBuildTarget target)
                (UnityBuildTarget "WindowsStoreApps") = false)
       /\ cfg = {| outputFileName := getInput h "outputFileName";
                   developmentBuild := getBoolInput h "developmentBuild";
                   buildScenes := getInput h "buildScenes";
                   buildTarget := UnityBuildTarget target;
                   projectPath := getPathInput h "unityProjectPath";
                   unityVersion := version |}.
Proof.
  split.
  - intros H.
    pose proof (getBuildConfiguration_reads_only UnityBuildTarget h w) as Hw.
    rewrite H in Hw. simpl in Hw. subst w'. split; [reflexivity|].
    destruct (getBuildConfiguration_cases UnityBuildTarget h w)
      as [(e & He) | (t & c & v & Ht & Hread & Hv & Hne & Huwp & Hcfg)];
      [congruence|].
    rewrite Hcfg in H. injection H as <-.
    exists t, c, v. repeat split; try assumption.
    + intros ->. unfold getBuildConfiguration, bind, getInputRequired in Hcfg.
      rewrite Ht in Hcfg. discriminate Hcfg.
    + unfold readFileSync in Hread.
      destruct (fs w _) as [[c'|]|]; now inversion Hread.
    + destruct (String.eqb (platform h) "win32") eqn:Eos.
      * left. now apply String.eqb_eq.
      * right. simpl in Huwp. exact Huwp.
  - intros (-> & t & c & v & Ht & Hne & Hfile & Hv & Hv0 & Huwp & ->).
    rewrite (getBuildConfiguration_after_read UnityBuildTarget h w t c Ht Hne)
      by (unfold readFileSync; now rewrite Hfile).
    rewrite Hv. rewrite (proj2 (String.eqb_neq _ _) Hv0).
    destruct Huwp as [-> | ->]; [reflexivity | now rewrite andb_false_r].
Qed.

Lemma getBuildConfiguration_returns_iff_witness :
  exists version,
    parseUnityVersion sampleProjectVersion = inr version
    /\ getBuildConfiguration sampleTargets
         (macHost "/repo/game" "Android" "unityHub" "default") (sampleWorld [])
       = (inr {| outputFileName := None;
                 developmentBuild := false;
                 buildScenes := None;
                 buildTarget := JNumber 0;
                 projectPath := Some "/repo/game"%string;
                 unityVersion := version |}, sampleWorld []).
Proof.
  exists "2021.3.1f1"%string. split; [reflexivity|].
  apply (proj2 (getBuildConfiguration_returns_iff sampleTargets
                  (macHost "/repo/game" "Android" "unityHub" "default")
                  (sampleWorld []) (sampleWorld []) _)).
  split; [reflexivity|].
  exists "Android"%string, sampleProjectVersion, "2021.3.1f1"%string.
  repeat split; try reflexivity; try discriminate.
  right. reflexivity.
Defined.

(** X4: a path that [getUnityEditorsPath] returns outside [unityHub] mode
    is never empty: it is the value of
    [UNITYHUB_EDITORS_FOLDER_LOCATION] in [environmentVariable] mode and
    the [customUnityEditorsPath] input in any other; the mode input itself
    is present and the world is as before. *)
Theorem getUnityEditorsPath_returns (h : Host) (w w' : World) (p : string) :
  getUnityEditorsPath h w = (inr p, w') ->
  w' = w
  /\ exists mode,
       getInput h "unityEditorsPathMode" = Some mode
       /\ mode <> ""%string
       /\ (mode <> "unityHub"%string ->
           p <> ""%string
           /\ if String.eqb mode "environmentVariable"
              then UNITYHUB_EDITORS_FOLDER_LOCATION h = Some p
              else getInput h "customUnityEditorsPath" = Some p).
Proof.
  intros H.
  pose proof (getUnityEditorsPath_reads_only h w) as Hw.
  rewrite H in Hw. simpl in Hw. subst w'. split; [reflexivity|].
  unfold getUnityEditorsPath, bind, getInputRequired in H.
  destruct (getInput h "unityEditorsPathMode") as [mode|]; [|discriminate].
  exists mode. split; [reflexivity|].
  destruct (String.eqb mode "") eqn:E0; [discriminate|].
  apply String.eqb_neq in E0. split; [assumption|].
  intros Hhub. unfold ret at 1 in H.
  rewrite (proj2 (String.eqb_neq _ _) Hhub) in H.
  destruct (String.eqb mode "environmentVariable").
  - destruct (UNITYHUB_EDITORS_FOLDER_LOCATION h) as [q|]; [|discriminate].
    destruct (String.eqb q "") eqn:Eq; [discriminate|].
    apply String.eqb_neq in Eq. injection H as <-. now split.
  - destruct (getInput h "customUnityEditorsPath") as [q|]; [|discriminate].
    destruct (String.eqb q "") eqn:Eq; [discriminate|].
    apply String.eqb_neq in Eq. injection H as <-. now split.
Qed.

Lemma getUnityEditorsPath_returns_witness :
  "/opt/unity"%string <> ""%string
  /\ UNITYHUB_EDITORS_FOLDER_LOCATION
       (posixHost "linux" (Some "/opt/unity"%string)
          (sampleInputs "/repo/game" "Android" "environmentVariable" "default"))
     = Some "/opt/unity"%string.
Proof.
  destruct (getUnityEditorsPath_returns
              (posixHost "linux" (Some "/opt/unity"%string)
                 (sampleInputs "/repo/game" "Android" "environmentVariable"
                    "default"))
              (sampleWorld []) (sampleWorld []) "/opt/unity" eq_refl)
    as (_ & mode & Hmode & _ & H).
  injection Hmode as <-. apply H. discriminate.
Defined.

(** ** The command line and the injected script (lines 37-86) *)

(** A command that is built rests on the tool runner of lines 41-46. *)
Lemma buildUnityCommand_returns_mandatory
    (UnityBuildTarget : string -> jsval)
    (getUnityEditorBuildScriptContent : UnityBuildConfiguration -> string)
    (h : Host) (cfg : UnityBuildConfiguration)
    (unityEditorDirectory repositoryLocalPath : string) (w w' : World)
    (unityCmd : ToolRunner) :
  buildUnityCommand UnityBuildTarget getUnityEditorBuildScriptContent h cfg
    unityEditorDirectory repositoryLocalPath w = (inr unityCmd, w') ->
  exists mandatory rest,
    mandatoryCommand UnityBuildTarget h cfg unityEditorDirectory w
    = (inr mandatory, w)
    /\ toolPath unityCmd = toolPath mandatory
    /\ calls unityCmd = calls mandatory ++ rest.
Proof.
  intros Hrun.
  destruct (getInput h "commandLineArgumentsMode") as [mode|] eqn:Hmode.
  2:{ unfold buildUnityCommand in Hrun.
      apply bind_inv in Hrun as [(e & _ & He) | (t & w1 & _ & Hrun)];
        [discriminate|].
      unfold bind, getInputRequired in Hrun. rewrite Hmode in Hrun.
      discriminate. }
  destruct (String.eqb mode "") eqn:E0.
  { unfold buildUnityCommand in Hrun.
    apply bind_inv in Hrun as [(e & _ & He) | (t & w1 & _ & Hrun)];
      [discriminate|].
    unfold bind, getInputRequired in Hrun. rewrite Hmode, E0 in Hrun.
    discriminate. }
  apply String.eqb_neq in E0.
  destruct (String.eqb mode "default") eqn:Ed.
  - apply String.eqb_eq in Ed; subst mode.
    destruct (buildUnityCommand_default_returns _ _ _ _ _ _ _ _ _ Hmode Hrun)
      as (mandatory & Hmandatory & _ & _ & _ & Hcmd).
    exists mandatory.
    assert (Hflags : exists flags,
      toolPath (defaultModeCommand h mandatory) = toolPath mandatory
      /\ calls (defaultModeCommand h mandatory) = calls mandatory ++ flags).
    { unfold defaultModeCommand, argIf.
      destruct (getBoolInput h "noGraphics"),
        (getBoolInput h "acceptApiUpdate"),
        (getBoolInput h "noPackageManager");
        eexists; (split; [reflexivity|]); rewrite !calls_arg;
        rewrite <- ?app_assoc; reflexivity. }
    destruct Hflags as (flags & Hpath & Hcalls).
    destruct (getInput h "logFileName") as [name|];
      [destruct (negb (String.eqb name ""))|];
      destruct Hcmd as (-> & _).
    + eexists. split; [exact Hmandatory|]. split; [exact Hpath|].
      rewrite !calls_arg, Hcalls, <- !app_assoc. reflexivity.
    + exists flags. now repeat split.
    + exists flags. now repeat split.
  - apply String.eqb_neq in Ed.
    assert (Hm : exists mandatory,
      mandatoryCommand UnityBuildTarget h cfg unityEditorDirectory w
      = (inr mandatory, w)).
    { unfold buildUnityCommand in Hrun.
      apply bind_inv in Hrun as [(e & _ & He) | (t & w1 & Hm & _)];
        [discriminate|].
      pose proof (mandatoryCommand_reads_only _ _ _ _ _ _ _ Hm) as Hw.
      subst w1. now exists t. }
    destruct Hm as [mandatory Hm].
    rewrite (buildUnityCommand_else_branch _ _ _ _ _ _ _ _ _ Hm Hmode E0 Ed)
      in Hrun.
    injection Hrun as <- _. exists mandatory. eexists.
    split; [exact Hm|]. split; reflexivity.
Qed.

(** X5: for every value of [commandLineArgumentsMode] other than
    ['default'] (a required input, so not the empty one), with the editor
    executable in place, the command is the five mandatory calls followed
    by the custom line and by nothing else, and the world is left as it
    was: no script is written, no variable is set. *)
Theorem buildUnityCommand_other_modes
    (UnityBuildTarget : string -> jsval)
    (getUnityEditorBuildScriptContent : UnityBuildConfiguration -> string)
    (h : Host) (cfg : UnityBuildConfiguration)
    (unityEditorDirectory repositoryLocalPath mode resolved : string)
    (w : World) :
  getInput h "commandLineArgumentsMode" = Some mode ->
  mode <> ""%string -> mode <> "default"%string ->
  unityExecutablePath h unityEditorDirectory <> ""%string ->
  which h (fs w) (unityExecutablePath h unityEditorDirectory) = Some resolved ->
  exists unityCmd,
    buildUnityCommand UnityBuildTarget getUnityEditorBuildScriptContent h cfg
      unityEditorDirectory repositoryLocalPath w = (inr unityCmd, w)
    /\ toolPath unityCmd = resolved
    /\ calls unityCmd
       = [ Arg (JString "-batchmode");
           Arg (JString "-buildTarget");
           Arg (UnityBuildTarget (propertyKey (buildTarget cfg)));
           Arg (JString "-projectPath");
           Arg (js (projectPath cfg));
           Line (js (getInput h "customCommandLineArguments")) ].
Proof.
  intros Hmode Hne Hdefault Hexe Hwhich. apply String.eqb_neq in Hexe.
  eexists. split; [|split].
  - apply (buildUnityCommand_else_branch _ _ _ _ _ _ mode); try assumption.
    rewrite mandatoryCommand_outcome, Hexe, Hwhich. reflexivity.
  - reflexivity.
  - reflexivity.
Qed.

(** A mode spelled ["Default"] is not the default mode. *)
Lemma buildUnityCommand_other_modes_witness :
  exists unityCmd,
    buildUnityCommand sampleTargets sampleScript
      (macHost "/repo/game" "Android" "unityHub" "Default")
      (sampleConfiguration "/repo/game")
      "/Applications/Unity/Hub/Editor/2021.3.1f1" "/repo"
      (sampleWorld sampleVariables)
    = (inr unityCmd, sampleWorld sampleVariables)
    /\ calls unityCmd
       = [ Arg (JString "-batchmode"); Arg (JString "-buildTarget");
           Arg (JString "Android"); Arg (JString "-projectPath");
           Arg (JString "/repo/game"); Line (JString "-quit -batchmode") ].
Proof.
  destruct (buildUnityCommand_other_modes sampleTargets sampleScript
              (macHost "/repo/game" "Android" "unityHub" "Default")
              (sampleConfiguration "/repo/game")
              "/Applications/Unity/Hub/Editor/2021.3.1f1" "/repo" "Default"
              "/Applications/Unity/Hub/Editor/2021.3.1f1/Unity.app/Contents/MacOS/Unity"
              (sampleWorld sampleVariables) eq_refl
              ltac:(discriminate) ltac:(discriminate) ltac:(discriminate)
              eq_refl)
    as (unityCmd & Hrun & _ & Hcalls).
  exists unityCmd. split; [exact Hrun | exact Hcalls].
Defined.

Lemma argv_app (t : ToolRunner) (front rest : list call) :
  calls t = front ++ rest ->
  argv t = flat_map pieces front ++ flat_map pieces rest.
Proof. intros H. unfold argv. now rewrite H, flat_map_app. Qed.

(** X6: in every mode a command that is built runs the executable that
    [which] resolved for the platform's editor path under the editor
    directory, and the task's calls on it start with [-batchmode],
    [-buildTarget] and the target, [-projectPath] and the project path;
    in the argument list the two values appear trimmed, or not at all
    when they are not non-empty strings. *)
Theorem buildUnityCommand_mandatory_first
    (UnityBuildTarget : string -> jsval)
    (getUnityEditorBuildScriptContent : UnityBuildConfiguration -> string)
    (h : Host) (cfg : UnityBuildConfiguration)
    (unityEditorDirectory repositoryLocalPath : string) (w w' : World)
    (unityCmd : ToolRunner) :
  buildUnityCommand UnityBuildTarget getUnityEditorBuildScriptContent h cfg
    unityEditorDirectory repositoryLocalPath w = (inr unityCmd, w') ->
  which h (fs w)
    (if String.eqb (platform h) "win32"
     then path_join h [unityEditorDirectory; "Unity.exe"]
     else path_join h [unityEditorDirectory; "Unity.app"; "Contents";
                       "MacOS"; "Unity"])%string
  = Some (toolPath unityCmd)
  /\ exists rest,
       calls unityCmd
       = [ Arg (JString "-batchmode");
           Arg (JString "-buildTarget");
           Arg (UnityBuildTarget (propertyKey (buildTarget cfg)));
           Arg (JString "-projectPath");
           Arg (js (projectPath cfg)) ] ++ rest
       /\ argv unityCmd
          = [Argument "-batchmode"; Argument "-buildTarget"]
            ++ pieces (Arg (UnityBuildTarget (propertyKey (buildTarget cfg))))
            ++ [Argument "-projectPath"]
            ++ pieces (Arg (js (projectPath cfg)))
            ++ flat_map pieces rest.
Proof.
  intros Hrun.
  destruct (buildUnityCommand_returns_mandatory _ _ _ _ _ _ _ _ _ Hrun)
    as (mandatory & rest & Hm & Hpath & Hcalls).
  apply mandatoryCommand_returns in Hm as (_ & _ & Hwhich & Hmandatory).
  split; [rewrite Hpath; exact Hwhich|].
  exists rest. rewrite Hmandatory in Hcalls. split; [exact Hcalls|].
  rewrite (argv_app _ _ _ Hcalls). unfold mandatoryCalls.
  cbn [flat_map].
  change (pieces (Arg (JString "-batchmode"))) with [Argument "-batchmode"].
  change (pieces (Arg (JString "-buildTarget"))) with [Argument "-buildTarget"].
  change (pieces (Arg (JString "-projectPath"))) with [Argument "-projectPath"].
  cbn [app]. now rewrite !app_nil_r, <- ?app_assoc.
Qed.

Lemma buildUnityCommand_mandatory_first_witness :
  exists t rest,
    fst (buildUnityCommand sampleTargets sampleScript
           (macHost "/repo/game" "Android" "unityHub" "default")
           (sampleConfiguration "/repo/game")
           "/Applications/Unity/Hub/Editor/2021.3.1f1" "/repo"
           (sampleWorld sampleVariables)) = inr t
    /\ toolPath t
       = "/Applications/Unity/Hub/Editor/2021.3.1f1/Unity.app/Contents/MacOS/Unity"%string
    /\ argv t
       = [ Argument "-batchmode"; Argument "-buildTarget"; Argument "Android";
           Argument "-projectPath"; Argument "/repo/game" ]
         ++ flat_map pieces rest.
Proof.
  set (h := macHost "/repo/game" "Android" "unityHub" "default").
  set (cfg := sampleConfiguration "/repo/game").
  set (w := sampleWorld sampleVariables).
  set (r := buildUnityCommand sampleTargets sampleScript h cfg
              "/Applications/Unity/Hub/Editor/2021.3.1f1" "/repo" w).
  assert (Ht : exists t, fst r = inr t) by (eexists; reflexivity).
  destruct Ht as [t Ht].
  assert (Hr : r = (inr t, snd r)) by (rewrite <- Ht; now destruct r).
  destruct (buildUnityCommand_mandatory_first sampleTargets sampleScript
              h cfg _ _ w (snd r) t Hr) as (Hwhich & rest & _ & Hargv).
  exists t, rest. split; [exact Ht|]. split; [|exact Hargv].
  vm_compute in Hwhich. injection Hwhich as Hpath. symmetry. exact Hpath.
Defined.

(** X7: in default mode, when the command is built after the output
    directory has been prepared, each of [-noUpm], [-accept-apiupdate]
    and [-nographics] is passed exactly when its boolean input is set, in
    this order after the mandatory calls; [-executeMethod
    AzureDevOps.PerformBuild] follows, and last [-logfile] with the log
    file name joined to the value of [Build.Repository.LocalPath], when a
    log file is named. *)
Theorem buildUnityCommand_default_arguments
    (UnityBuildTarget : string -> jsval)
    (getBuildOutputDirectory : jsval -> string)
    (getUnityEditorBuildScriptContent : UnityBuildConfiguration -> string)
    (h : Host) (cfg : UnityBuildConfiguration)
    (unityEditorDirectory repositoryLocalPath : string) (w w1 w2 : World)
    (unityCmd : ToolRunner) :
  prepareBuildOutput getBuildOutputDirectory h cfg w
  = (inr repositoryLocalPath, w1) ->
  getInput h "commandLineArgumentsMode" = Some "default"%string ->
  buildUnityCommand UnityBuildTarget getUnityEditorBuildScriptContent h cfg
    unityEditorDirectory repositoryLocalPath w1 = (inr unityCmd, w2) ->
  variables w "Build.Repository.LocalPath" = Some repositoryLocalPath
  /\ calls unityCmd
     = mandatoryCalls UnityBuildTarget cfg
       ++ (if getBoolInput h "noPackageManager"
           then [Arg (JString "-noUpm")] else [])
       ++ (if getBoolInput h "acceptApiUpdate"
           then [Arg (JString "-accept-apiupdate")] else [])
       ++ (if getBoolInput h "noGraphics"
           then [Arg (JString "-nographics")] else [])
       ++ [Arg (JString "-executeMethod");
           Arg (JString "AzureDevOps.PerformBuild")]
       ++ match getInput h "logFileName" with
          | Some logFileName =>
              if String.eqb logFileName "" then []
              else [ Arg (JString "-logfile");
                     Arg (JString (path_join h [repositoryLocalPath;
                                                logFileName])) ]
          | None => []
          end.
Proof.
  intros Hprepare Hmode Hrun.
  apply prepareBuildOutput_returns in Hprepare as (Hroot & _).
  split; [exact Hroot|].
  destruct (buildUnityCommand_default_returns _ _ _ _ _ _ _ _ _ Hmode Hrun)
    as (mandatory & Hmandatory & _ & _ & _ & Hcmd).
  apply mandatoryCommand_returns in Hmandatory as (_ & _ & _ & Hcalls).
  assert (Hbefore :
    calls (defaultModeCommand h mandatory)
    = mandatoryCalls UnityBuildTarget cfg
      ++ (if getBoolInput h "noPackageManager"
          then [Arg (JString "-noUpm")] else [])
      ++ (if getBoolInput h "acceptApiUpdate"
          then [Arg (JString "-accept-apiupdate")] else [])
      ++ (if getBoolInput h "noGraphics"
          then [Arg (JString "-nographics")] else [])
      ++ [Arg (JString "-executeMethod");
          Arg (JString "AzureDevOps.PerformBuild")]).
  { unfold defaultModeCommand, argIf.
    destruct (getBoolInput h "noPackageManager"),
      (getBoolInput h "acceptApiUpdate"), (getBoolInput h "noGraphics");
      rewrite !calls_arg, Hcalls, <- ?app_assoc; reflexivity. }
  destruct (getInput h "logFileName") as [name|].
  - destruct (String.eqb name ""); cbv beta iota delta [negb] in Hcmd.
    + destruct Hcmd as (-> & _). now rewrite Hbefore, !app_nil_r.
    + destruct Hcmd as (-> & _). rewrite !calls_arg, Hbefore.
      now rewrite <- ?app_assoc.
  - destruct Hcmd as (-> & _). now rewrite Hbefore, !app_nil_r.
Qed.

Lemma buildUnityCommand_default_arguments_witness :
  let h := macHost "/repo/game" "Android" "unityHub" "default" in
  let cfg := sampleConfiguration "/repo/game" in
  let prepared := prepareBuildOutput sampleOutputDirectory h cfg
                    (sampleWorld sampleVariables) in
  exists t,
    fst (buildUnityCommand sampleTargets sampleScript h cfg
           "/Applications/Unity/Hub/Editor/2021.3.1f1" "/repo"
           (snd prepared)) = inr t
    /\ calls t
       = [ Arg (JString "-batchmode"); Arg (JString "-buildTarget");
           Arg (JString "Android"); Arg (JString "-projectPath");
           Arg (JString "/repo/game"); Arg (JString "-executeMethod");
           Arg (JString "AzureDevOps.PerformBuild"); Arg (JString "-logfile");
           Arg (JString "/repo/build.log") ].
Proof.
  cbv zeta.
  set (h := macHost "/repo/game" "Android" "unityHub" "default").
  set (cfg := sampleConfiguration "/repo/game").
  set (w := sampleWorld sampleVariables).
  set (prepared := prepareBuildOutput sampleOutputDirectory h cfg w).
  set (r := buildUnityCommand sampleTargets sampleScript h cfg
              "/Applications/Unity/Hub/Editor/2021.3.1f1" "/repo"
              (snd prepared)).
  assert (Hp : prepared = (inr "/repo"%string, snd prepared)) by reflexivity.
  assert (Ht : exists t, fst r = inr t) by (eexists; reflexivity).
  destruct Ht as [t Ht]. exists t. split; [exact Ht|].
  assert (Hr : r = (inr t, snd r)) by (rewrite <- Ht; now destruct r).
  exact (proj2 (buildUnityCommand_default_arguments sampleTargets
                  sampleOutputDirectory sampleScript
                  h cfg _ _ w (snd prepared) (snd r) t Hp eq_refl Hr)).
Defined.

(** X8: a default-mode command that is built has left the generated
    build script in [AzureDevOps.cs] inside [Assets/Editor] under the
    project path.  The working directory is then where the project path
    leads from [Assets/Editor] (the project directory itself for an
    absolute path), an existing directory; with the project path
    undefined or empty it stays in [Assets/Editor].  Apart from the
    script and the directories leading to it, the file system is as
    before. *)
Theorem buildUnityCommand_injects_script
    (UnityBuildTarget : string -> jsval)
    (getUnityEditorBuildScriptContent : UnityBuildConfiguration -> string)
    (h : Host) (cfg : UnityBuildConfiguration)
    (unityEditorDirectory repositoryLocalPath : string) (w w' : World)
    (unityCmd : ToolRunner) :
  getInput h "commandLineArgumentsMode" = Some "default"%string ->
  buildUnityCommand UnityBuildTarget getUnityEditorBuildScriptContent h cfg
    unityEditorDirectory repositoryLocalPath w = (inr unityCmd, w') ->
  let editorFolder :=
    locate h (cwd w)
      (path_join h [template (projectPath cfg); "Assets"; "Editor"]%string) in
  let script := locate h editorFolder "AzureDevOps.cs" in
  fs w' script = Some (File (getUnityEditorBuildScriptContent cfg))
  /\ match projectPath cfg with
     | Some p =>
         if String.eqb p "" then cwd w' = editorFolder
         else cwd w' = locate h editorFolder p
              /\ fs w' (locate h editorFolder p) = Some Dir
     | None => cwd w' = editorFolder
     end
  /\ (forall q, isPrefix q editorFolder = false -> q <> script ->
                fs w' q = fs w q).
Proof.
  intros Hmode Hrun editorFolder script.
  destruct (buildUnityCommand_default_returns _ _ _ _ _ _ _ _ _ Hmode Hrun)
    as (mandatory & _ & Hfs & Hcwd & Hproject & _).
  fold editorFolder script in Hfs, Hcwd, Hproject.
  rewrite Hfs, Hcwd. split; [|split].
  - unfold fs_write. now rewrite loc_eqb_refl.
  - unfold cdTarget. destruct (projectPath cfg) as [p|]; [|reflexivity].
    destruct (String.eqb p "") eqn:E; [reflexivity|].
    apply String.eqb_neq in E. split; [reflexivity|]. now apply Hproject.
  - intros q Hout Hq. unfold fs_write, fs_mkdirs. rewrite Hout.
    destruct (loc_eqb q script) eqn:E; [|reflexivity].
    apply loc_eqb_eq in E. contradiction.
Qed.

Lemma buildUnityCommand_injects_script_witness :
  let r := buildUnityCommand sampleTargets sampleScript
             (macHost "/repo/game" "Android" "unityHub" "default")
             (sampleConfiguration "/repo/game")
             "/Applications/Unity/Hub/Editor/2021.3.1f1" "/repo"
             (sampleWorld sampleVariables) in
  fs (snd r) ["repo"; "game"; "Assets"; "Editor"; "AzureDevOps.cs"]%string
  = Some (File "// game")
  /\ cwd (snd r) = ["repo"; "game"]%string.
Proof.
  cbv zeta.
  set (h := macHost "/repo/game" "Android" "unityHub" "default").
  set (cfg := sampleConfiguration "/repo/game").
  set (w := sampleWorld sampleVariables).
  set (r := buildUnityCommand sampleTargets sampleScript h cfg
              "/Applications/Unity/Hub/Editor/2021.3.1f1" "/repo" w).
  assert (Ht : exists t, fst r = inr t) by (eexists; reflexivity).
  destruct Ht as [t Ht].
  assert (Hr : r = (inr t, snd r)) by (rewrite <- Ht; now destruct r).
  destruct (buildUnityCommand_injects_script sampleTargets sampleScript
              h cfg _ _ w (snd r) t eq_refl Hr) as (Hscript & Hcwd & _).
  split; [exact Hscript | exact (proj1 Hcwd)].
Defined.

(** ** The build output directory (lines 22-35), case by case *)

Lemma ancestors_complete (l q : loc) :
  isPrefix q l = true -> In q (ancestors l).
Proof.
  revert q; induction l as [|x l IH]; intros [|y q]; simpl;
    try discriminate; auto.
  rewrite andb_true_iff, String.eqb_eq. intros [-> H]. right.
  apply in_map. now apply IH.
Qed.

Section BuildOutputCases.

Variable getBuildOutputDirectory : jsval -> string.
Variable h : Host.
Variable cfg : UnityBuildConfiguration.

Let full : string := fullBuildOutputPath getBuildOutputDirectory h cfg.

(** Every way [prepareBuildOutput] can end. *)
Lemma prepareBuildOutput_outcome (w : World) :
  let l := locate h (cwd w) full in
  let clean := isString (variables w "Build.Repository.Clean") "true" in
  let cleaned := if clean then fs_remove l (fs w) else fs w in
  let w1 := if clean
            then {| fs := fs_remove l (fs w); cwd := cwd w;
                    variables := variables w; trace := trace w |}
            else w in
  prepareBuildOutput getBuildOutputDirectory h cfg w =
  if String.eqb full "" then (inl (Raised (ParameterRequired "p")), w1)
  else if existsb (fun q => isFile (cleaned q)) (ancestors l)
  then (inl (Raised (NotADirectory full)), w1)
  else
    match variables w "Build.Repository.LocalPath" with
    | None =>
        (inl (Raised (UndefinedProperty "length")),
         {| fs := fs_mkdirs l cleaned; cwd := cwd w;
            variables := variables w; trace := trace w |})
    | Some root =>
        let value := substr full (Z.of_nat (String.length root) + 1) None in
        (inr root,
         {| fs := fs_mkdirs l cleaned; cwd := cwd w;
            variables := fun k => if String.eqb k "buildOutputPath"
                                  then Some value else variables w k;
            trace := trace w ++ [SetVariable "buildOutputPath" value] |})
    end.
Proof.
  cbv zeta. unfold prepareBuildOutput. fold full.
  unfold bind at 1, getVariable at 1. unfold bind at 1, getVariable at 1.
  unfold bind at 1.
  destruct (isString (variables w "Build.Repository.Clean") "true").
  - unfold removeSync, set_fs. unfold bind at 1, mkdirP. cbn [fs cwd].
    destruct (String.eqb full "") eqn:E0; [reflexivity|].
    destruct (existsb _ _); [reflexivity|].
    unfold set_fs, bind at 1, checkPath. cbn [fs cwd]. rewrite E0.
    unfold fs_mkdirs at 1. rewrite isPrefix_refl. simpl.
    now destruct (variables w "Build.Repository.LocalPath").
  - unfold ret at 1. unfold bind at 1, mkdirP.
    destruct (String.eqb full "") eqn:E0; [reflexivity|].
    destruct (existsb _ _); [reflexivity|].
    unfold set_fs, bind at 1, checkPath. cbn [fs cwd]. rewrite E0.
    unfold fs_mkdirs at 1. rewrite isPrefix_refl. simpl.
    now destruct (variables w "Build.Repository.LocalPath").
Qed.

End BuildOutputCases.

Lemma no_file_after_clean (f : FileSystem) (l : loc) (clean : bool) :
  (forall q, isPrefix q l = true -> q <> l \/ clean = false ->
             isFile (f q) = false) ->
  existsb (fun q => isFile ((if clean then fs_remove l f else f) q))
    (ancestors l) = false.
Proof.
  intros H. apply no_file_above. intros q Hq.
  destruct clean.
  - unfold fs_remove. destruct (isPrefix l q) eqn:E; [reflexivity|].
    apply H; [assumption|]. left. intros ->.
    rewrite isPrefix_refl in E. discriminate.
  - apply H; [assumption | now right].
Qed.

(** X9: without [Build.Repository.LocalPath] the preparation throws on
    [repositoryLocalPath.length], but only after the directory has been
    created: the directory stays, and [buildOutputPath] is not set. *)
Theorem prepareBuildOutput_without_root
    (getBuildOutputDirectory : jsval -> string) (h : Host)
    (cfg : UnityBuildConfiguration) (w : World) :
  let full := fullBuildOutputPath getBuildOutputDirectory h cfg in
  let l := locate h (cwd w) full in
  variables w "Build.Repository.LocalPath" = None ->
  full <> ""%string ->
  (forall q, isPrefix q l = true -> isFile (fs w q) = false) ->
  exists w',
    prepareBuildOutput getBuildOutputDirectory h cfg w
    = (inl (Raised (UndefinedProperty "length")), w')
    /\ fs w' l = Some Dir
    /\ trace w' = trace w
    /\ variables w' = variables w.
Proof.
  intros full l Hroot Hfull Hfiles.
  rewrite prepareBuildOutput_outcome. cbv zeta. fold full l.
  rewrite (proj2 (String.eqb_neq _ _) Hfull).
  rewrite no_file_after_clean by (intros q Hq _; now apply Hfiles).
  rewrite Hroot. eexists. split; [reflexivity|]. cbn [fs trace variables].
  repeat split. unfold fs_mkdirs. now rewrite isPrefix_refl.
Qed.

Lemma prepareBuildOutput_without_root_witness :
  let r := prepareBuildOutput sampleOutputDirectory
             (macHost "/work/game" "Android" "unityHub" "default")
             (sampleConfiguration "/work/game") (sampleWorld []) in
  fs (sampleWorld []) ["work"; "game"; "Builds"]%string = None
  /\ fst r = inl (Raised (UndefinedProperty "length"))
  /\ fs (snd r) ["work"; "game"; "Builds"]%string = Some Dir
  /\ trace (snd r) = [].
Proof.
  cbv zeta. split; [reflexivity|].
  destruct (prepareBuildOutput_without_root sampleOutputDirectory
              (macHost "/work/game" "Android" "unityHub" "default")
              (sampleConfiguration "/work/game") (sampleWorld []) eq_refl)
    as (w' & Hrun & Hdir & Htrace & _).
  - discriminate.
  - intros q Hq. apply ancestors_complete in Hq. simpl in Hq.
    repeat (destruct Hq as [<- | Hq]; [reflexivity|]). contradiction.
  - rewrite Hrun. cbn [fst snd]. split; [reflexivity|].
    split; [exact Hdir | exact Htrace].
Defined.

(** X10: however the preparation ends, it touches nothing besides the
    output directory, what lies below it and the directories leading to
    it; and unless [Build.Repository.Clean] is exactly ['true'], what lies
    below the output directory is kept as well. *)
Theorem prepareBuildOutput_keeps_rest
    (getBuildOutputDirectory : jsval -> string) (h : Host)
    (cfg : UnityBuildConfiguration) (w w' : World) (r : exn + string) :
  prepareBuildOutput getBuildOutputDirectory h cfg w = (r, w') ->
  let l := locate h (cwd w)
             (fullBuildOutputPath getBuildOutputDirectory h cfg) in
  cwd w' = cwd w
  /\ forall q,
       isPrefix q l = false ->
       isPrefix l q = false
       \/ isString (variables w "Build.Repository.Clean") "true" = false ->
       fs w' q = fs w q.
Proof.
  intros H l. rewrite prepareBuildOutput_outcome in H. cbv zeta in H.
  fold l in H.
  assert (Hkept : forall q, isPrefix q l = false ->
            isPrefix l q = false
            \/ isString (variables w "Build.Repository.Clean") "true" = false ->
            (if isString (variables w "Build.Repository.Clean") "true"
             then fs_remove l (fs w) else fs w) q = fs w q).
  { intros q _ [Hq | Hclean].
    - destruct (isString _ _); [|reflexivity]. unfold fs_remove. now rewrite Hq.
    - now rewrite Hclean. }
  destruct (String.eqb _ "");
    [|destruct (existsb _ _);
      [|destruct (variables w "Build.Repository.LocalPath")]];
    injection H as _ <-.
  - destruct (isString _ _) eqn:E; (split; [reflexivity|]); intros q Hq Hor;
      [|reflexivity].
    cbn [fs]. exact (Hkept q Hq Hor).
  - destruct (isString _ _) eqn:E; (split; [reflexivity|]); intros q Hq Hor;
      [|reflexivity].
    cbn [fs]. exact (Hkept q Hq Hor).
  - split; [reflexivity|]. intros q Hq Hor. cbn [fs].
    unfold fs_mkdirs. rewrite Hq. now apply Hkept.
  - split; [reflexivity|]. intros q Hq Hor. cbn [fs].
    unfold fs_mkdirs. rewrite Hq. now apply Hkept.
Qed.

(** Without the clean flag the stale [old.apk] survives. *)
Lemma prepareBuildOutput_keeps_rest_witness :
  let r := prepareBuildOutput sampleOutputDirectory
             (macHost "/repo/game" "Android" "unityHub" "default")
             (sampleConfiguration "/repo/game")
             (sampleWorld [("Build.Repository.LocalPath", "/repo")]%string) in
  fs (snd r) ["repo"; "game"; "Builds"; "old.apk"]%string
  = Some (File "stale").
Proof.
  cbv zeta.
  set (h := macHost "/repo/game" "Android" "unityHub" "default").
  set (cfg := sampleConfiguration "/repo/game").
  set (w := sampleWorld [("Build.Repository.LocalPath", "/repo")]%string).
  set (r := prepareBuildOutput sampleOutputDirectory h cfg w).
  assert (Hr : r = (fst r, snd r)) by now destruct r.
  destruct (prepareBuildOutput_keeps_rest sampleOutputDirectory h cfg w
              (snd r) (fst r) Hr) as [_ Hkept].
  rewrite (Hkept ["repo"; "game"; "Builds"; "old.apk"]%string eq_refl);
    [reflexivity | right; reflexivity].
Defined.

(** X11: a file at the output path or above it makes the preparation
    throw with the world untouched when the clean flag is not set; with
    the flag set, a file at the output path itself is removed and the
    directory takes its place. *)
Theorem prepareBuildOutput_file_in_the_way
    (getBuildOutputDirectory : jsval -> string) (h : Host)
    (cfg : UnityBuildConfiguration) (w : World) :
  let full := fullBuildOutputPath getBuildOutputDirectory h cfg in
  let l := locate h (cwd w) full in
  full <> ""%string ->
  (isString (variables w "Build.Repository.Clean") "true" = false ->
   forall q, isPrefix q l = true -> isFile (fs w q) = true ->
   prepareBuildOutput getBuildOutputDirectory h cfg w
   = (inl (Raised (NotADirectory full)), w))
  /\ (variables w "Build.Repository.Clean" = Some "true"%string ->
      forall root,
        variables w "Build.Repository.LocalPath" = Some root ->
        (forall q, isPrefix q l = true -> q <> l -> isFile (fs w q) = false) ->
        exists w',
          prepareBuildOutput getBuildOutputDirectory h cfg w = (inr root, w')
          /\ fs w' l = Some Dir).
Proof.
  intros full l Hfull. split.
  - intros Hclean q Hq Hfile.
    rewrite prepareBuildOutput_outcome. cbv zeta. fold full l.
    rewrite (proj2 (String.eqb_neq _ _) Hfull), Hclean.
    replace (existsb _ _) with true; [reflexivity|].
    symmetry. apply existsb_exists. exists q.
    split; [now apply ancestors_complete | assumption].
  - intros Hclean root Hroot Hfiles.
    rewrite prepareBuildOutput_outcome. cbv zeta. fold full l.
    rewrite (proj2 (String.eqb_neq _ _) Hfull), Hclean.
    change (isString (Some "true"%string) "true") with true. cbv iota.
    rewrite (no_file_after_clean (fs w) l true).
    + rewrite Hroot. eexists. split; [reflexivity|]. cbn [fs].
      unfold fs_mkdirs. now rewrite isPrefix_refl.
    + intros q Hq [Hne | Hf]; [now apply Hfiles | discriminate].
Qed.

(** A project path that runs through the file [old.apk]; and an output
    folder named like that file, with the clean flag set. *)
Lemma prepareBuildOutput_file_in_the_way_witness :
  prepareBuildOutput sampleOutputDirectory
    (macHost "/repo/game/Builds/old.apk" "Android" "unityHub" "default")
    (sampleConfiguration "/repo/game/Builds/old.apk")
    (sampleWorld [("Build.Repository.LocalPath", "/repo")]%string)
  = (inl (Raised (NotADirectory "/repo/game/Builds/old.apk/Builds")),
     sampleWorld [("Build.Repository.LocalPath", "/repo")]%string)
  /\ exists w',
       prepareBuildOutput (fun _ => "old.apk"%string)
         (macHost "/repo/game/Builds" "Android" "unityHub" "default")
         (sampleConfiguration "/repo/game/Builds")
         (sampleWorld sampleVariables)
       = (inr "/repo"%string, w')
       /\ fs w' ["repo"; "game"; "Builds"; "old.apk"]%string = Some Dir.
Proof.
  split.
  - apply (proj1 (prepareBuildOutput_file_in_the_way sampleOutputDirectory
                    (macHost "/repo/game/Builds/old.apk" "Android" "unityHub"
                       "default")
                    (sampleConfiguration "/repo/game/Builds/old.apk")
                    (sampleWorld [("Build.Repository.LocalPath", "/repo")]%string)
                    ltac:(discriminate)) eq_refl
             ["repo"; "game"; "Builds"; "old.apk"]%string);
      reflexivity.
  - apply (proj2 (prepareBuildOutput_file_in_the_way (fun _ => "old.apk"%string)
                    (macHost "/repo/game/Builds" "Android" "unityHub" "default")
                    (sampleConfiguration "/repo/game/Builds")
                    (sampleWorld sampleVariables)
                    ltac:(discriminate)) eq_refl "/repo"%string eq_refl).
    intros q Hq Hne. apply ancestors_complete in Hq. simpl in Hq.
    repeat (destruct Hq as [<- | Hq]; [try reflexivity|]);
      [now contradiction Hne | contradiction].
Defined.

(** ** The run as a whole (lines 11-98) *)

Lemma events_of_app (w : World) (r : (exn + unit) * World) (events : list event) :
  trace (snd r) = trace w ++ events -> events_of w r = events.
Proof.
  intros H. unfold events_of.
  now rewrite H, skipn_app, skipn_all, Nat.sub_diag.
Qed.

Lemma getInputRequired_reads_only (h : Host) (name : string) (w w' : World)
    (r : exn + string) :
  getInputRequired h name w = (r, w') -> w' = w.
Proof.
  unfold getInputRequired. destruct (getInput h name) as [s|];
    [destruct (String.eqb s "")|]; intros H; now inversion H.
Qed.

Lemma checkUnityEditor_reads_only (h : Host) (cfg : UnityBuildConfiguration)
    (editors : string) (w w' : World) (r : exn + string) :
  checkUnityEditor h cfg editors w = (r, w') -> w' = w.
Proof.
  unfold checkUnityEditor, bind, checkPath.
  destruct (_ && _); intros H; now inversion H.
Qed.

Lemma execSync_trace (h : Host) (t : ToolRunner) (w w' : World)
    (r : exn + unit) :
  execSync h t w = (r, w') -> trace w' = trace w ++ [ExecSync t].
Proof.
  unfold execSync, bind, emit. destruct (spawn h t); intros H; now inversion H.
Qed.

Section Shapes.

Variable UnityBuildTarget : string -> jsval.
Variable getBuildOutputDirectory : jsval -> string.
Variable getUnityEditorBuildScriptContent : UnityBuildConfiguration -> string.
Variable h : Host.

Lemma prepareBuildOutput_trace (cfg : UnityBuildConfiguration) (w w' : World)
    (r : exn + string) :
  prepareBuildOutput getBuildOutputDirectory h cfg w = (r, w') ->
  (exists e, r = inl e /\ trace w' = trace w)
  \/ (exists root value,
        r = inr root
        /\ trace w' = trace w ++ [SetVariable "buildOutputPath" value]).
Proof.
  rewrite prepareBuildOutput_outcome. cbv zeta.
  destruct (String.eqb _ "");
    [|destruct (existsb _ _);
      [|destruct (variables w "Build.Repository.LocalPath")]];
    intros H; injection H as <- <-.
  - left. eexists. split; [reflexivity|]. now destruct (isString _ _).
  - left. eexists. split; [reflexivity|]. now destruct (isString _ _).
  - right. now eexists _, _.
  - left. now eexists.
Qed.

Lemma buildUnityCommand_trace (cfg : UnityBuildConfiguration)
    (directory root : string) (w w' : World) (r : exn + ToolRunner) :
  buildUnityCommand UnityBuildTarget getUnityEditorBuildScriptContent h cfg
    directory root w = (r, w') ->
  trace w' = trace w
  \/ (exists unityCmd logFilePath,
        r = inr unityCmd
        /\ trace w' = trace w ++ [SetVariable "editorLogFilePath" logFilePath]).
Proof.
  unfold buildUnityCommand. intros H.
  apply bind_inv in H as [(e & Hm & _) | (mandatory & w0 & Hm & H)].
  { left. now rewrite (mandatoryCommand_reads_only _ _ _ _ _ _ _ Hm). }
  apply mandatoryCommand_reads_only in Hm. subst w0.
  apply bind_inv in H as [(e & Hm & _) | (mode & w0 & Hm & H)].
  { left. now rewrite (getInputRequired_reads_only _ _ _ _ _ Hm). }
  apply getInputRequired_reads_only in Hm. subst w0.
  destruct (String.eqb mode "default").
  2:{ left. unfold ret in H. now inversion H. }
  apply bind_inv in H as [(e & Hm & _) | ([] & w1 & H1 & H)].
  { left. now destruct (mkdirP_silent _ _ _ _ _ Hm). }
  apply bind_inv in H as [(e & Hm & _) | ([] & w2 & H2 & H)].
  { left. destruct (mkdirP_silent _ _ _ _ _ H1), (cd_silent _ _ _ _ _ Hm).
    congruence. }
  apply bind_inv in H as [(e & Hm & _) | ([] & w3 & H3 & H)].
  { left. destruct (mkdirP_silent _ _ _ _ _ H1), (cd_silent _ _ _ _ _ H2),
      (writeFile_silent _ _ _ _ _ _ Hm). congruence. }
  apply bind_inv in H as [(e & Hm & _) | ([] & w4 & H4 & H)].
  { left. destruct (mkdirP_silent _ _ _ _ _ H1), (cd_silent _ _ _ _ _ H2),
      (writeFile_silent _ _ _ _ _ _ H3), (cd_silent _ _ _ _ _ Hm). congruence. }
  assert (Ht : trace w4 = trace w).
  { destruct (mkdirP_silent _ _ _ _ _ H1), (cd_silent _ _ _ _ _ H2),
      (writeFile_silent _ _ _ _ _ _ H3), (cd_silent _ _ _ _ _ H4). congruence. }
  destruct (getInput h "logFileName") as [name|].
  - destruct (negb (String.eqb name "")).
    + right. unfold bind, setVariable, ret in H. injection H as <- <-.
      eexists _, _. split; [reflexivity|]. cbn [trace]. now rewrite Ht.
    + left. unfold ret in H. injection H as _ <-. exact Ht.
  - left. unfold ret in H. injection H as _ <-. exact Ht.
Qed.

(** The events of the [try] block, by the stage at which it ends. *)
Lemma body_trace (w w' : World) (r : exn + unit) :
  body UnityBuildTarget getBuildOutputDirectory
    getUnityEditorBuildScriptContent h w = (r, w') ->
  (exists e, r = inl e /\ trace w' = trace w)
  \/ (exists e value,
        r = inl e /\ trace w' = trace w ++ [SetVariable "buildOutputPath" value])
  \/ (exists value logs unityCmd,
        (logs = [] \/ exists p, logs = [SetVariable "editorLogFilePath" p])
        /\ trace w' = trace w ++ SetVariable "buildOutputPath" value
                                 :: logs ++ [ExecSync unityCmd]).
Proof.
  unfold body. intros H.
  apply bind_inv in H as [(e & Hm & ->) | (cfg & w0 & Hm & H)].
  { left. exists e. split; [reflexivity|].
    pose proof (getBuildConfiguration_reads_only UnityBuildTarget h w) as Hw.
    rewrite Hm in Hw. simpl in Hw. now subst. }
  pose proof (getBuildConfiguration_reads_only UnityBuildTarget h w) as Hw.
  rewrite Hm in Hw. simpl in Hw. subst w0. clear Hm.
  apply bind_inv in H as [(e & Hm & ->) | (editors & w0 & Hm & H)].
  { left. exists e. split; [reflexivity|].
    pose proof (getUnityEditorsPath_reads_only h w) as Hw.
    rewrite Hm in Hw. simpl in Hw. now subst. }
  pose proof (getUnityEditorsPath_reads_only h w) as Hw.
  rewrite Hm in Hw. simpl in Hw. subst w0. clear Hm.
  apply bind_inv in H as [(e & Hm & ->) | (directory & w0 & Hm & H)].
  { left. exists e. split; [reflexivity|].
    now rewrite (checkUnityEditor_reads_only _ _ _ _ _ _ Hm). }
  apply checkUnityEditor_reads_only in Hm. subst w0.
  apply bind_inv in H as [(e & Hm & ->) | (root & w1 & Hm & H)].
  { left. exists e. split; [reflexivity|].
    destruct (prepareBuildOutput_trace _ _ _ _ Hm)
      as [(e' & _ & Ht) | (r' & v & Hr & _)]; [exact Ht | discriminate]. }
  destruct (prepareBuildOutput_trace _ _ _ _ Hm)
    as [(e' & He & _) | (r' & value & _ & Ht1)]; [discriminate|].
  clear Hm.
  apply bind_inv in H as [(e & Hm & ->) | (unityCmd & w2 & Hm & H)].
  { right. left. exists e, value. split; [reflexivity|].
    destruct (buildUnityCommand_trace _ _ _ _ _ _ Hm)
      as [Ht | (t & p & Hr & _)]; [congruence | discriminate]. }
  right. right. apply execSync_trace in H.
  destruct (buildUnityCommand_trace _ _ _ _ _ _ Hm)
    as [Ht | (t & p & _ & Ht)].
  - exists value, [], unityCmd. split; [now left|].
    rewrite H, Ht, Ht1, <- app_assoc. reflexivity.
  - exists value, [SetVariable "editorLogFilePath" p], unityCmd.
    split; [right; now exists p|].
    rewrite H, Ht, Ht1, <- !app_assoc. reflexivity.
Qed.

End Shapes.

(** X12: the events of a run have one of four shapes: the [Failed] result
    alone; [buildOutputPath] set, then the [Failed] result;
    [buildOutputPath] set, [editorLogFilePath] set or not, then the
    editor launched; or the same followed by the [Failed] result.  So the
    editor is launched at most once and never before [buildOutputPath] is
    set, the result is set at most once and last, and it is never
    [Succeeded]. *)
Theorem run_event_shapes
    (UnityBuildTarget : string -> jsval)
    (getBuildOutputDirectory : jsval -> string)
    (getUnityEditorBuildScriptContent : UnityBuildConfiguration -> string)
    (h : Host) (w : World) :
  let events :=
    events_of w (run UnityBuildTarget getBuildOutputDirectory
                   getUnityEditorBuildScriptContent h w) in
  (exists msg, events = [SetResult Failed msg])
  \/ (exists value msg,
        events = [SetVariable "buildOutputPath" value; SetResult Failed msg])
  \/ (exists value logs unityCmd,
        (logs = [] \/ exists p, logs = [SetVariable "editorLogFilePath" p])
        /\ (events = SetVariable "buildOutputPath" value
                       :: logs ++ [ExecSync unityCmd]
            \/ exists msg,
                 events = SetVariable "buildOutputPath" value
                            :: logs ++ [ExecSync unityCmd; SetResult Failed msg])).
Proof.
  cbv zeta. unfold run.
  destruct (body _ _ _ h w) as [[e|[]] w'] eqn:Hbody;
    destruct (body_trace _ _ _ _ _ _ _ Hbody)
      as [(e' & He & Ht) | [(e' & v & He & Ht) | (v & logs & t & Hlogs & Ht)]];
    try discriminate.
  - left. exists (message h e). apply events_of_app. simpl. now rewrite Ht.
  - right. left. exists v, (message h e). apply events_of_app. simpl.
    now rewrite Ht, <- app_assoc.
  - right. right. exists v, logs, t. split; [exact Hlogs|]. right.
    exists (message h e). apply events_of_app. simpl.
    rewrite Ht, <- app_assoc. simpl. now rewrite <- app_assoc.
  - right. right. exists v, logs, t. split; [exact Hlogs|]. left.
    apply events_of_app. simpl. exact Ht.
Qed.

(** X13: when the directory of the project's editor version is missing
    under the editors path ([<editors>/<version>/Editor] on Windows,
    [<editors>/<version>] elsewhere), the run ends with the [Failed]
    result of [checkPath] for ["Unity Editor Directory"], and nothing
    else has happened: no directory, no variable, no launch. *)
Theorem run_editor_missing
    (UnityBuildTarget : string -> jsval)
    (getBuildOutputDirectory : jsval -> string)
    (getUnityEditorBuildScriptContent : UnityBuildConfiguration -> string)
    (h : Host) (w : World) (cfg : UnityBuildConfiguration) (editors : string) :
  getBuildConfiguration UnityBuildTarget h w = (inr cfg, w) ->
  getUnityEditorsPath h w = (inr editors, w) ->
  let unityEditorDirectory :=
    (if String.eqb (platform h) "win32"
     then path_join h [editors; unityVersion cfg; "Editor"]
     else path_join h [editors; unityVersion cfg])%string in
  fs w (locate h (cwd w) unityEditorDirectory) = None ->
  run UnityBuildTarget getBuildOutputDirectory
    getUnityEditorBuildScriptContent h w
  = (inr tt,
     {| fs := fs w; cwd := cwd w; variables := variables w;
        trace := trace w ++
          [SetResult Failed
             (failureMessage h
                (PathNotFound "Unity Editor Directory" unityEditorDirectory))] |}).
Proof.
  intros Hcfg Heditors dir Hmissing.
  unfold run, body, bind. rewrite Hcfg, Heditors.
  unfold checkUnityEditor, bind, checkPath. fold dir.
  rewrite Hmissing, andb_false_r. reflexivity.
Qed.

(** No editor is installed under [/opt/unity]. *)
Lemma run_editor_missing_witness :
  trace (snd (sampleRun
                (posixHost "linux" (Some "/opt/unity"%string)
                   (sampleInputs "/repo/game" "Android" "environmentVariable"
                      "default"))
                (sampleWorld sampleVariables)))
  = [SetResult Failed "Not found Unity Editor Directory: /opt/unity/2021.3.1f1"].
Proof.
  unfold sampleRun.
  rewrite (run_editor_missing sampleTargets sampleOutputDirectory sampleScript
             (posixHost "linux" (Some "/opt/unity"%string)
                (sampleInputs "/repo/game" "Android" "environmentVariable"
                   "default"))
             (sampleWorld sampleVariables)
             {| outputFileName := None; developmentBuild := false;
                buildScenes := None; buildTarget := JNumber 0;
                projectPath := Some "/repo/game"%string;
                unityVersion := "2021.3.1f1" |}
             "/opt/unity" eq_refl eq_refl eq_refl).
  reflexivity.
Defined.

(** X14: a missing editor executable, and with the executable in place a
    missing [commandLineArgumentsMode] input, are noticed only after the
    output directory has been prepared: the run ends with the [Failed]
    result of [tl.tool], respectively of the required input, while the
    output directory exists, [buildOutputPath] is set and the editor has
    not been launched. *)
Theorem run_fails_after_preparation
    (UnityBuildTarget : string -> jsval)
    (getBuildOutputDirectory : jsval -> string)
    (getUnityEditorBuildScriptContent : UnityBuildConfiguration -> string)
    (h : Host) (w w1 : World) (cfg : UnityBuildConfiguration)
    (editors directory root : string) (f : failure) :
  getBuildConfiguration UnityBuildTarget h w = (inr cfg, w) ->
  getUnityEditorsPath h w = (inr editors, w) ->
  checkUnityEditor h cfg editors w = (inr directory, w) ->
  prepareBuildOutput getBuildOutputDirectory h cfg w = (inr root, w1) ->
  unityExecutablePath h directory <> ""%string ->
  (which h (fs w1) (unityExecutablePath h directory) = None
   /\ f = ExecutableNotFound (unityExecutablePath h directory))
  \/ ((exists resolved,
         which h (fs w1) (unityExecutablePath h directory) = Some resolved)
      /\ (getInput h "commandLineArgumentsMode" = None
          \/ getInput h "commandLineArgumentsMode" = Some ""%string)
      /\ f = InputRequired "commandLineArgumentsMode") ->
  let full := fullBuildOutputPath getBuildOutputDirectory h cfg in
  let value := substr full (Z.of_nat (String.length root) + 1) None in
  let r := run UnityBuildTarget getBuildOutputDirectory
             getUnityEditorBuildScriptContent h w in
  fst r = inr tt
  /\ events_of w r
     = [ SetVariable "buildOutputPath" value;
         SetResult Failed (failureMessage h f) ]
  /\ fs (snd r) (locate h (cwd w) full) = Some Dir
  /\ variables (snd r) "buildOutputPath" = Some value.
Proof.
  intros Hcfg Heditors Hcheck Hprepare Hexe Hcase full value. cbv zeta.
  apply String.eqb_neq in Hexe.
  assert (Hbuild :
    buildUnityCommand UnityBuildTarget getUnityEditorBuildScriptContent h cfg
      directory root w1 = (inl (Raised f), w1)).
  { destruct Hcase as [(Hwhich & ->) | ((resolved & Hwhich) & Hmode & ->)].
    - apply buildUnityCommand_without_executable.
      now rewrite mandatoryCommand_outcome, Hexe, Hwhich.
    - unfold buildUnityCommand. unfold bind at 1.
      rewrite mandatoryCommand_outcome, Hexe, Hwhich.
      unfold bind, getInputRequired. now destruct Hmode as [-> | ->]. }
  unfold run, body, bind.
  rewrite Hcfg, Heditors, Hcheck, Hprepare, Hbuild.
  apply prepareBuildOutput_returns in Hprepare as (_ & _ & _ & ->).
  fold full value. cbn [fst snd fs variables trace setResultFailed].
  split; [reflexivity|]. split.
  - apply events_of_app. simpl. now rewrite <- app_assoc.
  - split.
    + simpl. unfold fs_mkdirs. now rewrite isPrefix_refl.
    + reflexivity.
Qed.

(** The sample checkout without the mode input; and the same with the
    mode given but the editor's [Unity.app] taken away. *)
Lemma run_fails_after_preparation_witness :
  let inputs := [ ("buildTarget", "Android"); ("unityProjectPath", "/work/game");
                  ("unityEditorsPathMode", "unityHub") ]%string in
  let w := sampleWorld sampleVariables in
  let bare :=
    {| fs := fs_remove ["Applications"; "Unity"; "Hub"; "Editor"; "2021.3.1f1";
                        "Unity.app"]%string (fs w);
       cwd := cwd w; variables := variables w; trace := [] |} in
  events_of w (sampleRun (posixHost "darwin" None inputs) w)
  = [ SetVariable "buildOutputPath" "game/Builds";
      SetResult Failed "Input required: commandLineArgumentsMode" ]
  /\ fs (snd (sampleRun (posixHost "darwin" None inputs) w))
       ["work"; "game"; "Builds"]%string = Some Dir
  /\ events_of bare
       (sampleRun (macHost "/work/game" "Android" "unityHub" "custom") bare)
     = [ SetVariable "buildOutputPath" "game/Builds";
         SetResult Failed
           "Unable to locate executable file: '/Applications/Unity/Hub/Editor/2021.3.1f1/Unity.app/Contents/MacOS/Unity'" ].
Proof.
  cbv zeta.
  set (h := posixHost "darwin" None
              [ ("buildTarget", "Android"); ("unityProjectPath", "/work/game");
                ("unityEditorsPathMode", "unityHub") ]%string).
  set (h' := macHost "/work/game" "Android" "unityHub" "custom").
  set (w := sampleWorld sampleVariables).
  set (bare := {| fs := fs_remove ["Applications"; "Unity"; "Hub"; "Editor";
                                   "2021.3.1f1"; "Unity.app"]%string (fs w);
                  cwd := cwd w; variables := variables w; trace := [] |}).
  set (cfg := {| outputFileName := None; developmentBuild := false;
                 buildScenes := None; buildTarget := JNumber 0;
                 projectPath := Some "/work/game"%string;
                 unityVersion := "2021.3.1f1" |}).
  set (cfg' := {| outputFileName := None; developmentBuild := false;
                  buildScenes := None; buildTarget := JNumber 0;
                  projectPath := Some "/work/game"%string;
                  unityVersion := "2021.3.1f1" |}).
  set (p := prepareBuildOutput sampleOutputDirectory h cfg w).
  set (p' := prepareBuildOutput sampleOutputDirectory h' cfg' bare).
  assert (Hp : p = (inr "/repo"%string, snd p)) by reflexivity.
  assert (Hp' : p' = (inr "/repo"%string, snd p')) by reflexivity.
  destruct (run_fails_after_preparation sampleTargets sampleOutputDirectory
              sampleScript h w (snd p) cfg
              "/Applications/Unity/Hub/Editor"
              "/Applications/Unity/Hub/Editor/2021.3.1f1" "/repo"
              (InputRequired "commandLineArgumentsMode")
              eq_refl eq_refl eq_refl Hp ltac:(discriminate)
              (or_intror (conj (ex_intro _ _ eq_refl)
                            (conj (or_introl eq_refl) eq_refl))))
    as (_ & Hevents & Hdir & _).
  destruct (run_fails_after_preparation sampleTargets sampleOutputDirectory
              sampleScript h' bare (snd p') cfg'
              "/Applications/Unity/Hub/Editor"
              "/Applications/Unity/Hub/Editor/2021.3.1f1" "/repo"
              (ExecutableNotFound
                 "/Applications/Unity/Hub/Editor/2021.3.1f1/Unity.app/Contents/MacOS/Unity")
              eq_refl eq_refl eq_refl Hp' ltac:(discriminate)
              (or_introl (conj eq_refl eq_refl)))
    as (_ & Hevents' & _).
  split; [exact Hevents|]. split; [exact Hdir | exact Hevents'].
Defined.

Lemma buildUnityCommand_returns_trace
    (UnityBuildTarget : string -> jsval)
    (getUnityEditorBuildScriptContent : UnityBuildConfiguration -> string)
    (h : Host) (cfg : UnityBuildConfiguration)
    (directory root mode : string) (w w' : World) (unityCmd : ToolRunner) :
  getInput h "commandLineArgumentsMode" = Some mode ->
  buildUnityCommand UnityBuildTarget getUnityEditorBuildScriptContent h cfg
    directory root w = (inr unityCmd, w') ->
  trace w' = trace w ++ logEvents h mode root.
Proof.
  intros Hmode Hrun. unfold logEvents.
  destruct (String.eqb mode "default") eqn:Ed.
  - apply String.eqb_eq in Ed; subst mode.
    destruct (buildUnityCommand_default_returns _ _ _ _ _ _ _ _ _ Hmode Hrun)
      as (mandatory & _ & _ & _ & _ & Hcmd).
    destruct (getInput h "logFileName") as [name|];
      [destruct (String.eqb name ""); cbv beta iota delta [negb] in Hcmd|];
      destruct Hcmd as (_ & -> & _); now rewrite ?app_nil_r.
  - apply String.eqb_neq in Ed.
    destruct (buildUnityCommand_returns_mandatory _ _ _ _ _ _ _ _ _ Hrun)
      as (mandatory & _ & Hm & _).
    assert (Hne : mode <> ""%string).
    { intros ->. unfold buildUnityCommand in Hrun. unfold bind at 1 in Hrun.
      rewrite Hm in Hrun. unfold bind, getInputRequired in Hrun.
      rewrite Hmode in Hrun. discriminate. }
    rewrite (buildUnityCommand_else_branch _ _ _ _ _ _ _ _ _ Hm Hmode Hne Ed)
      in Hrun.
    injection Hrun as _ <-. now rewrite app_nil_r.
Qed.

(** X15: a run whose stages all succeed up to the command builder sets
    [buildOutputPath], then [editorLogFilePath] in default mode with a
    log file named, and then launches the command, exactly once; the
    [Failed] result with the failure's message follows when [execSync]
    throws, and no result is set when it does not.  The run ends in the
    world the command builder left. *)
Theorem run_launch
    (UnityBuildTarget : string -> jsval)
    (getBuildOutputDirectory : jsval -> string)
    (getUnityEditorBuildScriptContent : UnityBuildConfiguration -> string)
    (h : Host) (w w1 w2 : World) (cfg : UnityBuildConfiguration)
    (editors directory root mode : string) (unityCmd : ToolRunner) :
  getBuildConfiguration UnityBuildTarget h w = (inr cfg, w) ->
  getUnityEditorsPath h w = (inr editors, w) ->
  checkUnityEditor h cfg editors w = (inr directory, w) ->
  prepareBuildOutput getBuildOutputDirectory h cfg w = (inr root, w1) ->
  getInput h "commandLineArgumentsMode" = Some mode ->
  buildUnityCommand UnityBuildTarget getUnityEditorBuildScriptContent h cfg
    directory root w1 = (inr unityCmd, w2) ->
  let r := run UnityBuildTarget getBuildOutputDirectory
             getUnityEditorBuildScriptContent h w in
  let value :=
    substr (fullBuildOutputPath getBuildOutputDirectory h cfg)
      (Z.of_nat (String.length root) + 1) None in
  events_of w r
  = SetVariable "buildOutputPath" value
      :: logEvents h mode root
      ++ ExecSync unityCmd
         :: match spawn h unityCmd with
            | Some f => [SetResult Failed (failureMessage h f)]
            | None => []
            end
  /\ filter isLaunch (events_of w r) = [ExecSync unityCmd]
  /\ fs (snd r) = fs w2 /\ cwd (snd r) = cwd w2
  /\ variables (snd r) = variables w2.
Proof.
  intros Hcfg Heditors Hcheck Hprepare Hmode Hbuild. cbv zeta.
  pose proof (buildUnityCommand_returns_trace _ _ _ _ _ _ _ _ _ _ Hmode Hbuild)
    as Ht2.
  pose proof Hprepare as Ht1.
  apply prepareBuildOutput_returns in Ht1 as (_ & _ & _ & Ht1).
  assert (Htrace1 : trace w1 = trace w ++
            [SetVariable "buildOutputPath"
               (substr (fullBuildOutputPath getBuildOutputDirectory h cfg)
                  (Z.of_nat (String.length root) + 1) None)])
    by (rewrite Ht1; reflexivity).
  clear Ht1.
  assert (Hevents :
    events_of w (run UnityBuildTarget getBuildOutputDirectory
                   getUnityEditorBuildScriptContent h w)
    = SetVariable "buildOutputPath"
        (substr (fullBuildOutputPath getBuildOutputDirectory h cfg)
           (Z.of_nat (String.length root) + 1) None)
        :: logEvents h mode root
        ++ ExecSync unityCmd
           :: match spawn h unityCmd with
              | Some f => [SetResult Failed (failureMessage h f)]
              | None => []
              end).
  { apply events_of_app. unfold run, body, bind.
    rewrite Hcfg, Heditors, Hcheck, Hprepare, Hbuild.
    unfold execSync, bind, emit.
    destruct (spawn h unityCmd);
      unfold throw, ret, setResultFailed, setResult, emit;
      cbn [snd fs cwd variables trace message];
      rewrite Ht2, Htrace1, <- !app_assoc; reflexivity. }
  split; [exact Hevents|]. split.
  - rewrite Hevents. cbn [filter isLaunch]. rewrite filter_app.
    replace (filter isLaunch (logEvents h mode root)) with (@nil event).
    + cbn [app filter isLaunch]. now destruct (spawn h unityCmd).
    + unfold logEvents. destruct (String.eqb mode "default"); [|reflexivity].
      destruct (getInput h "logFileName") as [name|]; [|reflexivity].
      now destruct (String.eqb name "").
  - unfold run, body, bind.
    rewrite Hcfg, Heditors, Hcheck, Hprepare, Hbuild.
    unfold execSync, bind, emit.
    now destruct (spawn h unityCmd).
Qed.

Lemma run_launch_witness :
  exists unityCmd,
    events_of (sampleWorld sampleVariables)
      (sampleRun (macHost "/repo/game" "Android" "unityHub" "default")
         (sampleWorld sampleVariables))
    = [ SetVariable "buildOutputPath" "game/Builds";
        SetVariable "editorLogFilePath" "/repo/build.log";
        ExecSync unityCmd ]
    /\ toolPath unityCmd
       = "/Applications/Unity/Hub/Editor/2021.3.1f1/Unity.app/Contents/MacOS/Unity"%string.
Proof.
  set (h := macHost "/repo/game" "Android" "unityHub" "default").
  set (w := sampleWorld sampleVariables).
  set (cfg := {| outputFileName := None; developmentBuild := false;
                 buildScenes := None; buildTarget := JNumber 0;
                 projectPath := Some "/repo/game"%string;
                 unityVersion := "2021.3.1f1" |}).
  set (p := prepareBuildOutput sampleOutputDirectory h cfg w).
  set (b := buildUnityCommand sampleTargets sampleScript h cfg
              "/Applications/Unity/Hub/Editor/2021.3.1f1" "/repo" (snd p)).
  assert (Hp : p = (inr "/repo"%string, snd p)) by reflexivity.
  assert (Ht : exists t, fst b = inr t) by (eexists; reflexivity).
  destruct Ht as [t Ht]. exists t.
  assert (Hb : b = (inr t, snd b)) by (rewrite <- Ht; now destruct b).
  destruct (run_launch sampleTargets sampleOutputDirectory sampleScript
              h w (snd p) (snd b) cfg "/Applications/Unity/Hub/Editor"
              "/Applications/Unity/Hub/Editor/2021.3.1f1" "/repo" "default" t
              eq_refl eq_refl eq_refl Hp eq_refl Hb) as (Hevents & _).
  split; [exact Hevents|]. now injection Ht as <-.
Defined.

(** The platform guard of line 125 is all that reads the platform. *)
Lemma getBuildConfiguration_without_guard
    (UnityBuildTarget : string -> jsval) (h : Host) (w : World)
    (target os : string) :
  getInput h "buildTarget" = Some target ->
  strictEq (UnityBuildTarget target) (UnityBuildTarget "WindowsStoreApps")
  = false ->
  getBuildConfiguration UnityBuildTarget (with_platform os h) w
  = getBuildConfiguration UnityBuildTarget h w.
Proof.
  intros Ht Hother.
  unfold getBuildConfiguration, bind, getInputRequired, readFileSync.
  simpl. rewrite Ht.
  destruct (String.eqb target ""); [reflexivity|].
  unfold ret at 1 3.
  destruct (fs w _) as [[c|]|]; try reflexivity.
  destruct (liftE (parseUnityVersion c) w) as [[e|v] w1]; [reflexivity|].
  destruct (String.eqb v ""); [reflexivity|].
  now rewrite Hother, !andb_false_r.
Qed.

(** X16: a [buildTarget] input that the enum object maps to a member name
    (for a numeric enum: the number of a member, written out) is not
    caught by the platform guard, even when it is the number of
    [WindowsStoreApps]: the configuration holds the name, a string, which
    is never [===] the number, so the outcome is the same on every
    platform.  The task then calls [arg] with what the enum object holds
    for that name; when that is a number, [arg] drops it and
    [-buildTarget] is followed at once by [-projectPath]. *)
Theorem getBuildConfiguration_reverse_mapped_target
    (UnityBuildTarget : string -> jsval) (h : Host) (w : World)
    (target name : string) (n : Z) :
  getInput h "buildTarget" = Some target ->
  UnityBuildTarget target = JString name ->
  UnityBuildTarget "WindowsStoreApps" = JNumber n ->
  (forall os,
     getBuildConfiguration UnityBuildTarget (with_platform os h) w
     = getBuildConfiguration UnityBuildTarget h w)
  /\ (forall cfg w' directory w1 unityCmd,
        getBuildConfiguration UnityBuildTarget h w = (inr cfg, w') ->
        mandatoryCommand UnityBuildTarget h cfg directory w1
        = (inr unityCmd, w1) ->
        buildTarget cfg = JString name
        /\ nth_error (calls unityCmd) 2 = Some (Arg (UnityBuildTarget name))
        /\ (forall m, UnityBuildTarget name = JNumber m ->
              argv unityCmd
              = [ Argument "-batchmode"; Argument "-buildTarget";
                  Argument "-projectPath" ]
                ++ pieces (Arg (js (projectPath cfg))))).
Proof.
  intros Ht Hname Hwsa. split.
  - intros os. apply (getBuildConfiguration_without_guard _ _ _ target);
      [assumption|]. now rewrite Hname, Hwsa.
  - intros cfg w' directory w1 unityCmd Hcfg Hcmd.
    destruct (getBuildConfiguration_cases UnityBuildTarget h w)
      as [(e & He) | (t & c & v & Ht' & _ & _ & _ & _ & Hok)]; [congruence|].
    rewrite Hok in Hcfg. injection Hcfg as <- _.
    rewrite Ht in Ht'. injection Ht' as <-.
    apply mandatoryCommand_returns in Hcmd as (_ & _ & _ & Hcalls).
    unfold mandatoryCalls in Hcalls. cbn [buildTarget projectPath] in *.
    rewrite Hname in *. cbn [propertyKey] in Hcalls.
    split; [reflexivity|]. split; [now rewrite Hcalls|].
    intros m Hm. unfold argv. rewrite Hcalls, Hm. cbn [flat_map].
    change (pieces (Arg (JString "-batchmode"))) with [Argument "-batchmode"].
    change (pieces (Arg (JString "-buildTarget")))
      with [Argument "-buildTarget"].
    change (pieces (Arg (JString "-projectPath")))
      with [Argument "-projectPath"].
    change (pieces (Arg (JNumber m))) with (@nil piece).
    cbn [app]. now rewrite app_nil_r.
Qed.

(** ["1"] is the number of [WindowsStoreApps] in the sample enum: on a
    Mac the configuration is returned all the same, and the editor is
    given no build target. *)
Lemma getBuildConfiguration_reverse_mapped_target_witness :
  exists cfg unityCmd,
    getBuildConfiguration sampleTargets
      (macHost "/repo/game" "1" "unityHub" "default") (sampleWorld [])
    = (inr cfg, sampleWorld [])
    /\ buildTarget cfg = JString "WindowsStoreApps"
    /\ mandatoryCommand sampleTargets
         (macHost "/repo/game" "1" "unityHub" "default") cfg
         "/Applications/Unity/Hub/Editor/2021.3.1f1" (sampleWorld [])
       = (inr unityCmd, sampleWorld [])
    /\ argv unityCmd
       = [ Argument "-batchmode"; Argument "-buildTarget";
           Argument "-projectPath"; Argument "/repo/game" ].
Proof.
  set (h := macHost "/repo/game" "1" "unityHub" "default").
  set (cfg := {| outputFileName := None; developmentBuild := false;
                 buildScenes := None; buildTarget := JString "WindowsStoreApps";
                 projectPath := Some "/repo/game"%string;
                 unityVersion := "2021.3.1f1" |}).
  set (r := mandatoryCommand sampleTargets h cfg
              "/Applications/Unity/Hub/Editor/2021.3.1f1" (sampleWorld [])).
  assert (Ht : exists t, r = (inr t, sampleWorld []))
    by (eexists; reflexivity).
  destruct Ht as [t Ht]. exists cfg, t.
  destruct (proj2 (getBuildConfiguration_reverse_mapped_target sampleTargets
                     h (sampleWorld []) "1" "WindowsStoreApps" 1
                     eq_refl eq_refl eq_refl)
              cfg (sampleWorld [])
              "/Applications/Unity/Hub/Editor/2021.3.1f1"%string
              (sampleWorld []) t eq_refl Ht)
    as (Htarget & _ & Hargv).
  split; [reflexivity|]. split; [exact Htarget|]. split; [exact Ht|].
  exact (Hargv 1%Z eq_refl).
Defined.
